(** * csvConverter: a shallow embedding of [converter.py]

    The script turns raw sensor exports (a title line carrying the start
    date and time, then rows of colon-prefixed cells) into normalised CSV
    files with one synthesised timestamp per row, and afterwards renders
    windowed plots driven by a configuration file.

    The development follows the script top-down: Python values and
    exceptions, the string methods the script calls, [datetime] arithmetic,
    the [csv] reader and writer of the standard library (excel dialect), and
    then the functions of [converter.py] under their own names.  Characters
    are modelled as [ascii] (code points below 256). *)

From Stdlib Require Import ZArith Lia Bool Ascii String.
From stdpp Require Import gmap strings list.

Set Warnings "-register-all".

Local Open Scope string_scope.
Local Open Scope list_scope.
Local Open Scope Z_scope.

(** ** Exceptions and fallible computations *)

(** The exception classes the script can meet.  All of them derive from
    Python's [Exception]. *)
Inductive exn : Type :=
  | IndexError
  | ValueError
  | KeyError
  | TypeError
  | AttributeError
  | OverflowError
  | StopIteration
  | FileNotFoundError
  | PermissionError
  | JSONDecodeError
  | CsvError
  | RenderError
  | OSError
  | UnicodeDecodeError
  | RecursionError.

Inductive result (A : Type) : Type :=
  | Ok (a : A)
  | Raise (e : exn).
Arguments Ok {A} a.
Arguments Raise {A} e.

#[global] Instance result_ret : MRet result := fun A a => Ok a.

#[global] Instance result_bind : MBind result := fun A B k m =>
  match m with
  | Ok a => k a
  | Raise e => Raise e
  end.

(** Whether a computation returned. *)
Definition is_ok {A : Type} (m : result A) : bool :=
  match m with Ok _ => true | Raise _ => false end.

(** [try: body  except (classes): handler]. *)
Definition try_except {A : Type} (body : result A) (caught : exn -> bool)
    (handler : exn -> result A) : result A :=
  match body with
  | Ok a => Ok a
  | Raise e => if caught e then handler e else Raise e
  end.

(** [l[i]] for a non-negative index. *)
Definition getitem {A : Type} (l : list A) (i : nat) : result A :=
  match l !! i with
  | Some x => Ok x
  | None => Raise IndexError
  end.

(** [l[-1]]. *)
Definition getitem_last {A : Type} (l : list A) : result A :=
  match last l with
  | Some x => Ok x
  | None => Raise IndexError
  end.

(** ** Python string methods *)

Module PyStr.

(** [chr(n)], and the characters the script and the libraries name. *)
Definition chr (n : nat) : ascii := ascii_of_nat n.

Definition SPACE : ascii := " "%char.
Definition COLON : ascii := ":"%char.
Definition COMMA : ascii := ","%char.
Definition DOT : ascii := "."%char.
Definition QUOTE : ascii := chr 34.
Definition LF : ascii := chr 10.
Definition CR : ascii := chr 13.

(** [str.isspace] on one character: the code points below 256 that
    Unicode classes as whitespace. *)
Definition isspace (c : ascii) : bool :=
  let n := N_of_ascii c in
  ((9 <=? n) && (n <=? 13) || (28 <=? n) && (n <=? 32)
   || (n =? 133) || (n =? 160))%N.

(** An ASCII decimal digit, and its value. *)
Definition isdigit (c : ascii) : bool :=
  let n := N_of_ascii c in ((48 <=? n) && (n <=? 57))%N.

Definition digit_val (c : ascii) : Z := Z.of_N (N_of_ascii c) - 48.

(** [s.split(sep)] for a one-character separator: never empty. *)
Fixpoint split (sep : ascii) (s : string) : list string :=
  match s with
  | EmptyString => [EmptyString]
  | String c s' =>
      if Ascii.eqb c sep then EmptyString :: split sep s'
      else match split sep s' with
           | seg :: segs => String c seg :: segs
           | [] => [String c EmptyString]
           end
  end.

(** The text before and after the first [sep], when there is one. *)
Fixpoint partition (sep : ascii) (s : string) : option (string * string) :=
  match s with
  | EmptyString => None
  | String c s' =>
      if Ascii.eqb c sep then Some (EmptyString, s')
      else match partition sep s' with
           | Some (a, b) => Some (String c a, b)
           | None => None
           end
  end.

(** The text before and after the last [sep], when there is one. *)
Fixpoint rpartition (sep : ascii) (s : string) : option (string * string) :=
  match s with
  | EmptyString => None
  | String c s' =>
      match rpartition sep s' with
      | Some (a, b) => Some (String c a, b)
      | None => if Ascii.eqb c sep then Some (EmptyString, s') else None
      end
  end.

(** [s.split(sep, 1)]. *)
Definition split1 (sep : ascii) (s : string) : list string :=
  match partition sep s with
  | Some (a, b) => [a; b]
  | None => [s]
  end.

(** [s.rsplit(sep, 1)]. *)
Definition rsplit1 (sep : ascii) (s : string) : list string :=
  match rpartition sep s with
  | Some (a, b) => [a; b]
  | None => [s]
  end.

(** [s.split()]: maximal runs of non-whitespace characters. *)
Fixpoint split_ws (s : string) : list string :=
  match s with
  | EmptyString => []
  | String c s' =>
      if isspace c then split_ws s'
      else match s' with
           | EmptyString => [String c EmptyString]
           | String c' _ =>
               if isspace c' then String c EmptyString :: split_ws s'
               else match split_ws s' with
                    | t :: ts => String c t :: ts
                    | [] => [String c EmptyString]
                    end
           end
  end.

(** [s.lstrip()] and [s.rstrip()]. *)
Fixpoint lstrip (s : string) : string :=
  match s with
  | EmptyString => EmptyString
  | String c s' => if isspace c then lstrip s' else s
  end.

Fixpoint rstrip (s : string) : string :=
  match s with
  | EmptyString => EmptyString
  | String c s' =>
      match rstrip s' with
      | EmptyString => if isspace c then EmptyString else String c EmptyString
      | r => String c r
      end
  end.

(** [s.strip()]. *)
Definition strip (s : string) : string := rstrip (lstrip s).

(** [c in s]. *)
Fixpoint contains (c : ascii) (s : string) : bool :=
  match s with
  | EmptyString => false
  | String d s' => Ascii.eqb d c || contains c s'
  end.

(** [s.endswith(suffix)]. *)
Definition endswith (s suffix : string) : bool :=
  let n := String.length s in
  let k := String.length suffix in
  (k <=? n)%nat && String.eqb (substring (n - k) k s) suffix.

(** [sep.join(l)]. *)
Fixpoint join (sep : string) (l : list string) : string :=
  match l with
  | [] => EmptyString
  | [x] => x
  | x :: rest => x +:+ sep +:+ join sep rest
  end.

End PyStr.

(** ** The [datetime] module *)

Module PyDatetime.

(** A naive [datetime.datetime]; the script never sets microseconds. *)
Record datetime : Type := mk_datetime {
  year : Z; month : Z; day : Z;
  hour : Z; minute : Z; second : Z
}.

(** The constants and calendar helpers of the standard library
    ([_DI400Y], [_DAYS_IN_MONTH], [_is_leap], [_days_before_year],
    [_days_in_month], [_days_before_month], [_ymd2ord]). *)
Definition MINYEAR : Z := 1.
Definition MAXYEAR : Z := 9999.
Definition MAXORDINAL : Z := 3652059.

Definition DI400Y : Z := 146097.
Definition DI100Y : Z := 36524.
Definition DI4Y : Z := 1461.

Definition DAYS_IN_MONTH : list Z :=
  [-1; 31; 28; 31; 30; 31; 30; 31; 31; 30; 31; 30; 31].

Definition DAYS_BEFORE_MONTH : list Z :=
  [-1; 0; 31; 59; 90; 120; 151; 181; 212; 243; 273; 304; 334].

(** [t[i]] in one of the two tables. *)
Definition table (t : list Z) (i : Z) : Z := nth (Z.to_nat i) t 0.

Definition is_leap (y : Z) : bool :=
  (y mod 4 =? 0) && (negb (y mod 100 =? 0) || (y mod 400 =? 0)).

Definition b2z (b : bool) : Z := if b then 1 else 0.

Definition days_before_year (y : Z) : Z :=
  let y1 := y - 1 in
  y1 * 365 + y1 / 4 - y1 / 100 + y1 / 400.

Definition days_in_month (y m : Z) : Z :=
  if (m =? 2) && is_leap y then 29 else table DAYS_IN_MONTH m.

Definition days_before_month (y m : Z) : Z :=
  table DAYS_BEFORE_MONTH m + b2z ((2 <? m) && is_leap y).

Definition ymd2ord (y m d : Z) : Z :=
  days_before_year y + days_before_month y m + d.

(** [_ord2ymd]: the proleptic Gregorian date of ordinal [n]
    (1 is 0001-01-01). *)
Definition ord2ymd (n : Z) : Z * Z * Z :=
  let n := n - 1 in
  let n400 := n / DI400Y in
  let n := n mod DI400Y in
  let y := n400 * 400 + 1 in
  let n100 := n / DI100Y in
  let n := n mod DI100Y in
  let n4 := n / DI4Y in
  let n := n mod DI4Y in
  let n1 := n / 365 in
  let n := n mod 365 in
  let y := y + n100 * 100 + n4 * 4 + n1 in
  if (n1 =? 4) || (n100 =? 4) then (y - 1, 12, 31)
  else
    let leapyear := (n1 =? 3) && (negb (n4 =? 24) || (n100 =? 3)) in
    let m := Z.shiftr (n + 50) 5 in
    let preceding := table DAYS_BEFORE_MONTH m + b2z ((2 <? m) && leapyear) in
    if n <? preceding then
      let m := m - 1 in
      let preceding :=
        preceding - (table DAYS_IN_MONTH m + b2z ((m =? 2) && leapyear)) in
      (y, m, n - preceding + 1)
    else (y, m, n - preceding + 1).

(** What the constructor accepts ([_check_date_fields],
    [_check_time_fields]). *)
Definition valid_date (y m d : Z) : bool :=
  (MINYEAR <=? y) && (y <=? MAXYEAR) && (1 <=? m) && (m <=? 12)
  && (1 <=? d) && (d <=? days_in_month y m).

Definition valid_time (h mi s : Z) : bool :=
  (0 <=? h) && (h <=? 23) && (0 <=? mi) && (mi <=? 59)
  && (0 <=? s) && (s <=? 59).

Definition valid (dt : datetime) : bool :=
  valid_date (year dt) (month dt) (day dt)
  && valid_time (hour dt) (minute dt) (second dt).

(** [datetime.datetime(y, m, d, h, mi, s)]. *)
Definition make (y m d h mi s : Z) : result datetime :=
  if valid_date y m d && valid_time h mi s
  then Ok (mk_datetime y m d h mi s)
  else Raise ValueError.

(** [dt.toordinal()], and the second of the day. *)
Definition toordinal (dt : datetime) : Z :=
  ymd2ord (year dt) (month dt) (day dt).

Definition seconds_of_day (dt : datetime) : Z :=
  hour dt * 3600 + minute dt * 60 + second dt.

(** Seconds elapsed since the start of ordinal day 0: the position of
    [dt] on the time line. *)
Definition total_seconds (dt : datetime) : Z :=
  toordinal dt * 86400 + seconds_of_day dt.

(** [datetime.timedelta(hours=h, minutes=mi, seconds=s)], kept as its
    total number of seconds; the day count is limited to nine digits. *)
Definition timedelta (h mi s : Z) : result Z :=
  let total := h * 3600 + mi * 60 + s in
  let d := total / 86400 in
  if (-999999999 <=? d) && (d <=? 999999999) then Ok total
  else Raise OverflowError.

(** [dt + delta] ([datetime.__add__]): through the ordinal, and out of
    range past year 9999 or before year 1. *)
Definition add (dt : datetime) (delta : Z) : result datetime :=
  let total := total_seconds dt + delta in
  let days := total / 86400 in
  let secs := total mod 86400 in
  let h := secs / 3600 in
  let rem := secs mod 3600 in
  let mi := rem / 60 in
  let s := rem mod 60 in
  if (0 <? days) && (days <=? MAXORDINAL) then
    let '(y, m, d) := ord2ymd days in Ok (mk_datetime y m d h mi s)
  else Raise OverflowError.

(** [datetime.combine(date, time)]. *)
Definition combine (date time : datetime) : datetime :=
  mk_datetime (year date) (month date) (day date)
              (hour time) (minute time) (second time).

(** Order of two time stamps, as positions on the time line. *)
Definition le (a b : datetime) : bool := total_seconds a <=? total_seconds b.

(** *** Formatting *)

(** The last decimal digit of [n], and [n] on two and on four digits. *)
Definition digit (n : Z) : ascii := ascii_of_N (Z.to_N (48 + n mod 10)).

Definition pad2 (n : Z) : string :=
  String (digit (n / 10)) (String (digit n) EmptyString).

Definition pad4 (n : Z) : string :=
  String (digit (n / 1000)) (String (digit (n / 100)) (pad2 n)).

(** [%Y] as the C library of Linux (glibc) writes it: the year in
    decimal, without padding, so on four digits from year 1000 on only. *)
Definition year_text (y : Z) : string :=
  if y <? 10 then String (digit y) EmptyString
  else if y <? 100 then pad2 y
  else if y <? 1000 then String (digit (y / 100)) (pad2 y)
  else pad4 y.

(** [dt.strftime("%Y.%m.%d %H:%M:%S")]. *)
Definition strftime (dt : datetime) : string :=
  year_text (year dt) +:+ "." +:+ pad2 (month dt) +:+ "." +:+ pad2 (day dt)
  +:+ " " +:+ pad2 (hour dt) +:+ ":" +:+ pad2 (minute dt)
  +:+ ":" +:+ pad2 (second dt).

(** *** Parsing

    [strptime] compiles the format to a regular expression and matches it
    with backtracking; a parser here returns every way to consume a
    prefix, in the order the matcher tries them. *)

Definition parser (A : Type) : Type := string -> list (A * string).

Definition p_ret {A : Type} (a : A) : parser A := fun s => [(a, s)].

Definition p_bind {A B : Type} (p : parser A) (k : A -> parser B) : parser B :=
  fun s => concat (map (fun '(a, rest) => k a rest) (p s)).

Definition p_alt {A : Type} (p q : parser A) : parser A :=
  fun s => p s ++ q s.

(** One character satisfying [f], read as a digit value. *)
Definition p_char (f : ascii -> bool) : parser Z := fun s =>
  match s with
  | String c rest => if f c then [(PyStr.digit_val c, rest)] else []
  | EmptyString => []
  end.

Definition between (lo hi : Z) (c : ascii) : bool :=
  PyStr.isdigit c && (lo <=? PyStr.digit_val c) && (PyStr.digit_val c <=? hi).

Definition p_lit (c : ascii) : parser Z := p_char (Ascii.eqb c).

(** Two characters [a b], valued [10a + b]. *)
Definition p_two (f g : ascii -> bool) : parser Z :=
  p_bind (p_char f) (fun a => p_bind (p_char g) (fun b => p_ret (10 * a + b))).

(** [\s+], longest run first. *)
Fixpoint p_spaces (s : string) : list (Z * string) :=
  match s with
  | String c rest =>
      if PyStr.isspace c then p_spaces rest ++ [(0, rest)] else []
  | EmptyString => []
  end.

Definition any_digit : ascii -> bool := between 0 9.

(** [%Y]: exactly four digits. *)
Definition p_Y : parser Z :=
  p_bind (p_two any_digit any_digit) (fun hi =>
  p_bind (p_two any_digit any_digit) (fun lo => p_ret (100 * hi + lo))).

(** [%m]: [1[0-2]|0[1-9]|[1-9]]. *)
Definition p_m : parser Z :=
  p_alt (p_two (between 1 1) (between 0 2))
    (p_alt (p_two (between 0 0) (between 1 9)) (p_char (between 1 9))).

(** [%d]: [3[0-1]|[1-2]\d|0[1-9]|[1-9]| [1-9]]. *)
Definition p_d : parser Z :=
  p_alt (p_two (between 3 3) (between 0 1))
    (p_alt (p_two (between 1 2) any_digit)
      (p_alt (p_two (between 0 0) (between 1 9))
        (p_alt (p_char (between 1 9))
          (p_bind (p_lit PyStr.SPACE) (fun _ => p_char (between 1 9)))))).

(** [%H]: [2[0-3]|[0-1]\d|\d]. *)
Definition p_H : parser Z :=
  p_alt (p_two (between 2 2) (between 0 3))
    (p_alt (p_two (between 0 1) any_digit) (p_char any_digit)).

(** [%M]: [[0-5]\d|\d]. *)
Definition p_M : parser Z :=
  p_alt (p_two (between 0 5) any_digit) (p_char any_digit).

(** [%S]: [6[0-1]|[0-5]\d|\d]. *)
Definition p_S : parser Z :=
  p_alt (p_two (between 6 6) (between 0 1))
    (p_alt (p_two (between 0 5) any_digit) (p_char any_digit)).

Definition p_HMS : parser (Z * Z * Z) :=
  p_bind p_H (fun h => p_bind (p_lit PyStr.COLON) (fun _ =>
  p_bind p_M (fun mi => p_bind (p_lit PyStr.COLON) (fun _ =>
  p_bind p_S (fun s => p_ret (h, mi, s)))))).

Definition p_YmdHMS : parser (Z * Z * Z * (Z * Z * Z)) :=
  p_bind p_Y (fun y => p_bind (p_lit PyStr.DOT) (fun _ =>
  p_bind p_m (fun m => p_bind (p_lit PyStr.DOT) (fun _ =>
  p_bind p_d (fun d => p_bind p_spaces (fun _ =>
  p_bind p_HMS (fun t => p_ret (y, m, d, t)))))))).

(** The first match must consume the whole string. *)
Definition first_match {A : Type} (p : parser A) (s : string) : result A :=
  match p s with
  | (a, EmptyString) :: _ => Ok a
  | _ => Raise ValueError
  end.

(** [datetime.strptime(s, "%Y.%m.%d %H:%M:%S")]. *)
Definition strptime (s : string) : result datetime :=
  '(y, m, d, (h, mi, sec)) ← first_match p_YmdHMS s;
  make y m d h mi sec.

(** [datetime.strptime(s, "%H:%M:%S")]: the date defaults to
    1900-01-01. *)
Definition strptime_HMS (s : string) : result datetime :=
  '(h, mi, sec) ← first_match p_HMS s;
  make 1900 1 1 h mi sec.

End PyDatetime.

(** ** Text files and the [csv] module (excel dialect) *)

Module PyCsv.

Import PyStr.

(** Reading a file opened with [open(path, "r")]: universal newlines
    turn every [\r\n] and lone [\r] into [\n]. *)
Fixpoint universal_newlines (s : string) : string :=
  match s with
  | EmptyString => EmptyString
  | String c s' =>
      if Ascii.eqb c CR then
        match s' with
        | String c' s'' =>
            if Ascii.eqb c' LF then String LF (universal_newlines s'')
            else String LF (universal_newlines s')
        | EmptyString => String LF EmptyString
        end
      else String c (universal_newlines s')
  end.

(** Iterating over a text file: lines keep their final [\n]. *)
Fixpoint readlines (s : string) : list string :=
  match s with
  | EmptyString => []
  | String c s' =>
      if Ascii.eqb c LF then String LF EmptyString :: readlines s'
      else match readlines s' with
           | l :: ls => String c l :: ls
           | [] => [String c EmptyString]
           end
  end.

Definition open_lines (content : string) : list string :=
  readlines (universal_newlines content).

(** *** The reader: the state machine of [_csv.c].

    With no escape character the three escape states are never entered
    and are left out. *)
Inductive parser_state : Type :=
  | START_RECORD
  | START_FIELD
  | IN_FIELD
  | IN_QUOTED_FIELD
  | QUOTE_IN_QUOTED_FIELD
  | EAT_CRNL.

Definition state_eqb (a b : parser_state) : bool :=
  match a, b with
  | START_RECORD, START_RECORD | START_FIELD, START_FIELD
  | IN_FIELD, IN_FIELD | IN_QUOTED_FIELD, IN_QUOTED_FIELD
  | QUOTE_IN_QUOTED_FIELD, QUOTE_IN_QUOTED_FIELD | EAT_CRNL, EAT_CRNL => true
  | _, _ => false
  end.

Record reader : Type := mk_reader {
  state : parser_state;
  fields : list string;
  field : string
}.

Definition field_limit : Z := 131072.

Definition parse_reset : reader := mk_reader START_RECORD [] EmptyString.

Definition set_state (r : reader) (st : parser_state) : reader :=
  mk_reader st (fields r) (field r).

Definition parse_save_field (r : reader) : reader :=
  mk_reader (state r) (fields r ++ [field r]) EmptyString.

Definition parse_add_char (r : reader) (c : ascii) : result reader :=
  if field_limit <=? Z.of_nat (String.length (field r)) then Raise CsvError
  else Ok (mk_reader (state r) (fields r) (field r +:+ String c EmptyString)).

Definition is_newline (c : ascii) : bool := Ascii.eqb c LF || Ascii.eqb c CR.

(** One step; [None] is the end-of-line signal sent after each line. *)
Definition parse_process_char (r : reader) (c : option ascii) : result reader :=
  let start_field (r : reader) :=
    match c with
    | None => Ok (set_state (parse_save_field r) START_RECORD)
    | Some ch =>
        if is_newline ch then Ok (set_state (parse_save_field r) EAT_CRNL)
        else if Ascii.eqb ch QUOTE then Ok (set_state r IN_QUOTED_FIELD)
        else if Ascii.eqb ch COMMA then Ok (parse_save_field r)
        else r' ← parse_add_char r ch; Ok (set_state r' IN_FIELD)
    end in
  match state r with
  | START_RECORD =>
      match c with
      | None => Ok r
      | Some ch =>
          if is_newline ch then Ok (set_state r EAT_CRNL)
          else start_field (set_state r START_FIELD)
      end
  | START_FIELD => start_field r
  | IN_FIELD =>
      match c with
      | None => Ok (set_state (parse_save_field r) START_RECORD)
      | Some ch =>
          if is_newline ch then Ok (set_state (parse_save_field r) EAT_CRNL)
          else if Ascii.eqb ch COMMA
          then Ok (set_state (parse_save_field r) START_FIELD)
          else parse_add_char r ch
      end
  | IN_QUOTED_FIELD =>
      match c with
      | None => Ok r
      | Some ch =>
          if Ascii.eqb ch QUOTE then Ok (set_state r QUOTE_IN_QUOTED_FIELD)
          else parse_add_char r ch
      end
  | QUOTE_IN_QUOTED_FIELD =>
      match c with
      | None => Ok (set_state (parse_save_field r) START_RECORD)
      | Some ch =>
          if Ascii.eqb ch QUOTE
          then r' ← parse_add_char r ch; Ok (set_state r' IN_QUOTED_FIELD)
          else if Ascii.eqb ch COMMA
          then Ok (set_state (parse_save_field r) START_FIELD)
          else if is_newline ch
          then Ok (set_state (parse_save_field r) EAT_CRNL)
          else r' ← parse_add_char r ch; Ok (set_state r' IN_FIELD)
      end
  | EAT_CRNL =>
      match c with
      | None => Ok (set_state r START_RECORD)
      | Some ch => if is_newline ch then Ok r else Raise CsvError
      end
  end.

Fixpoint process_chars (r : reader) (s : string) : result reader :=
  match s with
  | EmptyString => Ok r
  | String c s' => r' ← parse_process_char r (Some c); process_chars r' s'
  end.

(** A whole line, then the end-of-line signal. *)
Definition process_line (r : reader) (line : string) : result reader :=
  r' ← process_chars r line; parse_process_char r' None.

(** At the end of the input an unfinished record is still returned. *)
Definition pending (r : reader) : bool :=
  negb (String.length (field r) =? 0)%nat || state_eqb (state r) IN_QUOTED_FIELD.

(** [next(reader)]: the next record and the lines left. *)
Fixpoint iternext_from (r : reader) (lines : list string)
    : result (list string * list string) :=
  match lines with
  | [] =>
      if pending r then Ok (fields (parse_save_field r), [])
      else Raise StopIteration
  | l :: rest =>
      r' ← process_line r l;
      if state_eqb (state r') START_RECORD then Ok (fields r', rest)
      else iternext_from r' rest
  end.

Definition iternext (lines : list string) : result (list string * list string) :=
  iternext_from parse_reset lines.

(** [for record in reader: acc = f(acc, record)]: records are produced
    one at a time, so [f] fails before a later line is looked at. *)
Fixpoint fold_from {St : Type} (f : St -> list string -> result St)
    (r : reader) (lines : list string) (acc : St) : result St :=
  match lines with
  | [] => if pending r then f acc (fields (parse_save_field r)) else Ok acc
  | l :: rest =>
      r' ← process_line r l;
      if state_eqb (state r') START_RECORD
      then acc' ← f acc (fields r'); fold_from f parse_reset rest acc'
      else fold_from f r' rest acc
  end.

Definition fold_records {St : Type} (f : St -> list string -> result St)
    (lines : list string) (acc : St) : result St :=
  fold_from f parse_reset lines acc.

(** [list(reader)]. *)
Definition read_all (lines : list string) : result (list (list string)) :=
  fold_records (fun acc rec => Ok (acc ++ [rec])) lines [].

(** *** The writer *)

(** Characters that force quoting: delimiter, quote character and the
    characters of the line terminator. *)
Definition special (c : ascii) : bool :=
  Ascii.eqb c COMMA || Ascii.eqb c QUOTE || Ascii.eqb c CR || Ascii.eqb c LF.

(** The field with every quote doubled. *)
Fixpoint double_quotes (s : string) : string :=
  match s with
  | EmptyString => EmptyString
  | String c s' =>
      if Ascii.eqb c QUOTE then String QUOTE (String QUOTE (double_quotes s'))
      else String c (double_quotes s')
  end.

Fixpoint existsb (p : ascii -> bool) (s : string) : bool :=
  match s with
  | EmptyString => false
  | String c s' => p c || existsb p s'
  end.

Definition quote_field (s : string) : string :=
  if existsb special s
  then String QUOTE (double_quotes s) +:+ String QUOTE EmptyString
  else s.

Definition CRLF : string := String CR (String LF EmptyString).

(** [writer.writerow(fields)]: the text appended to the file.  A record
    made of one empty field is written as two quote characters. *)
Definition writerow (fields : list string) : string :=
  match fields with
  | [EmptyString] => String QUOTE (String QUOTE CRLF)
  | _ => join (String COMMA EmptyString) (map quote_field fields) +:+ CRLF
  end.

End PyCsv.

(** ** [converter.py]: the conversion phase *)

Import PyStr PyDatetime PyCsv.

(** A normalised row: a Python [dict] from column name to text. *)
Abbreviation row := (gmap string string).

(** The headers of the main loop. *)
Definition headers : list string :=
  [ "CO2(ppm)"; "Temperature(C)"; "Maximum_CO2(ppm)"; "Minimum_CO2(ppm)";
    "Date_Of_Measurement(datetime)" ].

(** The last header, under which the time stamp is stored. *)
Definition DATE_HEADER : string := "Date_Of_Measurement(datetime)".

(** [a, b = l]. *)
Definition unpack2 {A : Type} (l : list A) : result (A * A) :=
  match l with
  | [a; b] => Ok (a, b)
  | _ => Raise ValueError
  end.

(** The expression on the title:
    [title.split(" ", 1)[1].rsplit(" ", 1)[0].split()[2:]]. *)
Definition title_date_time (title : string) : result (string * string) :=
  rest ← getitem (split1 SPACE title) 1;
  middle ← getitem (rsplit1 SPACE rest) 0;
  unpack2 (drop 2 (split_ws middle)).

(** [get_first_line_info], on the text of the file at [file_path]. *)
Definition get_first_line_info (content : string) : result (string * string) :=
  '(record, _) ← iternext (open_lines content);
  title ← getitem record 0;
  '(date, time) ← title_date_time title;
  Ok (title, date +:+ " " +:+ time).

(** [d.split(":")[-1].strip()]. *)
Definition strip_prefix (d : string) : result string :=
  v ← getitem_last (split COLON d);
  Ok (strip v).

(** [[f(x) for x in l]], stopping at the first exception. *)
Fixpoint mapM {A B : Type} (f : A -> result B) (l : list A) : result (list B) :=
  match l with
  | [] => Ok []
  | x :: xs => y ← f x; ys ← mapM f xs; Ok (y :: ys)
  end.

(** The list [data] of one line: the stripped cells, then the time stamp
    of row [il]. *)
Definition row_data (t0 : datetime) (il : nat) (line : list string)
    : result (list string) :=
  data ← mapM strip_prefix line;
  delta ← timedelta 0 0 (Z.of_nat il * 2);
  t ← add t0 delta;
  Ok (data ++ [strftime t]).

(** One turn of the inner loop over the headers: the first header appends
    a new dict to [csv_list], the others update [csv_list[il]]. *)
Definition store_header (il : nat) (data : list string)
    (csv_list : list row) (ih : nat) (header : string) : result (list row) :=
  v ← getitem data ih;
  if (ih =? 0)%nat then Ok (csv_list ++ [{[ header := v ]}])
  else
    d ← getitem csv_list il;
    Ok (<[ il := <[ header := v ]> d ]> csv_list).

(** [for i, x in enumerate(l): acc = f(acc, i, x)], stopping at the first
    exception. *)
Fixpoint for_enumerate {A St : Type} (f : St -> nat -> A -> result St)
    (i : nat) (l : list A) (acc : St) : result St :=
  match l with
  | [] => Ok acc
  | x :: xs => acc' ← f acc i x; for_enumerate f (S i) xs acc'
  end.

(** The body of the loop over the lines. *)
Definition store_line (hdrs : list string) (t0 : datetime)
    (csv_list : list row) (il : nat) (line : list string) : result (list row) :=
  data ← row_data t0 il line;
  for_enumerate (store_header il data) 0 hdrs csv_list.

(** The loop of [create_writable_list] over the records after the title. *)
Definition transform_lines (lines : list (list string)) (hdrs : list string)
    (t0 : datetime) : result (list row) :=
  for_enumerate (store_line hdrs t0) 0 lines [].

(** [create_writable_list], on the text of the file at [file_path]. *)
Definition create_writable_list (content : string) (hdrs : list string)
    (t0 : datetime) : result (list row) :=
  records ← read_all (open_lines content);
  transform_lines (drop 1 records) hdrs t0.

(** [DictWriter._dict_to_list]: a key outside the field names is an
    error, a missing one is written empty. *)
Definition dict_to_list (fieldnames : list string) (d : row) : result (list string) :=
  if bool_decide (dom d ⊆ list_to_set fieldnames)
  then Ok (map (fun key => default EmptyString (d !! key)) fieldnames)
  else Raise ValueError.

(** What [writeheader] then [writerows] leave in the file opened with
    mode ["w"]. *)
Definition write_csv (fieldnames : list string) (csv_list : list row) : result string :=
  rows ← mapM (dict_to_list fieldnames) csv_list;
  Ok (writerow fieldnames +:+ String.concat EmptyString (map writerow rows)).

(** The body of the main loop for one file: the text written to
    [converted_<name>]. *)
Definition convert (content : string) : result string :=
  '(title, date) ← get_first_line_info content;
  t0 ← strptime date;
  csv_list ← create_writable_list content headers t0;
  write_csv headers csv_list.

(** What the script prints. *)
Inductive event : Type :=
  | Processing (name : string)
  | FirstLineInfo (name title date : string)
  | GotDictionary (name : string) (first : list row)
  | Written (name : string)
  | CreatingDetailedPlots
  | ConfigWarning
  | CsvConfigWarning (e : exn)
  | NoConfiguration
  | ConvertedFileMissing (name : string)
  | NoDataInRange (name : string)
  | PlotSaved (name : string)
  | PlotError (name : string) (e : exn).

(** A path that exists: a file readable with its text, a file without
    read permission, or a path where opening or reading raises [e] (a
    directory, bytes that are not text). *)
Inductive file : Type :=
  | Unreadable
  | Text (s : string)
  | Failing (e : exn).

(** The files the script touches: the entries of [measurements] in
    listing order, the files of [converted_measurements] by name, the
    configuration files by path, the names under [converted_measurements]
    that cannot be opened for writing, each with the exception this raises
    (a name that is too long, a directory of that name, a file or directory
    without write permission), and the standard output. *)
Record world : Type := mk_files {
  measurements : list (string * string);
  converted : gmap string string;
  configs : gmap string file;
  write_errors : gmap string exn;
  stdout : list event
}.

(** A world where every converted file can be written. *)
Definition mk_world (measurements : list (string * string))
    (converted : gmap string string) (configs : gmap string file)
    (stdout : list event) : world :=
  mk_files measurements converted configs ∅ stdout.

(** [print(...)]. *)
Definition print (ev : event) (w : world) : world :=
  mk_files (measurements w) (converted w) (configs w) (write_errors w)
           (stdout w ++ [ev]).

(** [open(output_file, "w", newline="")] on the file [name] of
    [converted_measurements].  Once the file is open, writing to it is
    taken to succeed. *)
Definition open_write (w : world) (name : string) : result unit :=
  match write_errors w !! name with
  | Some e => Raise e
  | None => Ok ()
  end.

(** Writing [text] to the file [name] of [converted_measurements], opened
    with mode ["w"]: what the file held is replaced. *)
Definition write_converted (name text : string) (w : world) : world :=
  mk_files (measurements w) (<[ name := text ]> (converted w)) (configs w)
           (write_errors w) (stdout w).

(** [get_csv_files]. *)
Definition get_csv_files (w : world) : list (string * string) :=
  filter (fun f => Is_true (endswith f.1 ".csv")) (measurements w).

(** One turn of the main loop. *)
Definition convert_one (w : world) (f : string * string) : result world :=
  let '(csv_file, content) := f in
  let w := print (Processing csv_file) w in
  '(title, date) ← get_first_line_info content;
  let w := print (FirstLineInfo csv_file title date) w in
  t0 ← strptime date;
  csv_list ← create_writable_list content headers t0;
  let w := print (GotDictionary csv_file (take 1 csv_list)) w in
  _ ← open_write w ("converted_" +:+ csv_file);
  text ← write_csv headers csv_list;
  let w := write_converted ("converted_" +:+ csv_file) text w in
  Ok (print (Written ("converted_" +:+ csv_file)) w).

(** [for x in l: acc = f(acc, x)], stopping at the first exception. *)
Fixpoint for_each {A St : Type} (f : St -> A -> result St) (l : list A)
    (acc : St) : result St :=
  match l with
  | [] => Ok acc
  | x :: xs => acc' ← f acc x; for_each f xs acc'
  end.

(** The main loop: no handler around any of its steps. *)
Definition convert_all (w : world) : result world :=
  for_each convert_one (get_csv_files w) w.

(** ** [converter.py]: configuration and detailed plots *)

(** A value built by [json.load]; numbers are kept as integers. *)
Inductive json : Type :=
  | JNull
  | JBool (b : bool)
  | JNum (n : Z)
  | JStr (s : string)
  | JList (l : list json)
  | JDict (d : list (string * json)).

(** The value under a key of a dict. *)
Fixpoint assoc {A : Type} (k : string) (d : list (string * A)) : option A :=
  match d with
  | [] => None
  | (k', v) :: d' => if String.eqb k k' then Some v else assoc k d'
  end.

(** [not v] is [negb (truthy v)]. *)
Definition truthy (v : json) : bool :=
  match v with
  | JNull => false
  | JBool b => b
  | JNum n => negb (n =? 0)
  | JStr s => negb (String.eqb s EmptyString)
  | JList l => negb (Nat.eqb (List.length l) 0)
  | JDict d => negb (Nat.eqb (List.length d) 0)
  end.

(** [v.get(key, dflt)]: only a dict has the method. *)
Definition dict_get (v : json) (key : string) (dflt : json) : result json :=
  match v with
  | JDict d => Ok (default dflt (assoc key d))
  | _ => Raise AttributeError
  end.

(** [v[key]] for a text key. *)
Definition subscript (v : json) (key : string) : result json :=
  match v with
  | JDict d => match assoc key d with Some x => Ok x | None => Raise KeyError end
  | _ => Raise TypeError
  end.

(** The characters of a text, each as a text. *)
Fixpoint chars (s : string) : list json :=
  match s with
  | EmptyString => []
  | String c s' => JStr (String c EmptyString) :: chars s'
  end.

(** [for x in v]: the items of a list, the keys of a dict, the characters
    of a text. *)
Definition iterate (v : json) : result (list json) :=
  match v with
  | JList l => Ok l
  | JDict d => Ok (map (fun kv => JStr kv.1) d)
  | JStr s => Ok (chars s)
  | _ => Raise TypeError
  end.

(** [open(path, "r")] on a configuration file, and reading it. *)
Definition open_read (w : world) (path : string) : result string :=
  match configs w !! path with
  | None => Raise FileNotFoundError
  | Some Unreadable => Raise PermissionError
  | Some (Text s) => Ok s
  | Some (Failing e) => Raise e
  end.

(** The white space [int] skips around a number: the ASCII white space of
    C, and the white space above code point 127, but not the separators
    of code points 28 to 31. *)
Definition int_space (c : ascii) : bool :=
  let n := N_of_ascii c in
  ((9 <=? n) && (n <=? 13) || (n =? 32) || (n =? 133) || (n =? 160))%N.

Fixpoint lskip (s : string) : string :=
  match s with
  | EmptyString => EmptyString
  | String c s' => if int_space c then lskip s' else s
  end.

Fixpoint rskip (s : string) : string :=
  match s with
  | EmptyString => EmptyString
  | String c s' =>
      match rskip s' with
      | EmptyString => if int_space c then EmptyString else String c EmptyString
      | r => String c r
      end
  end.

(** The number of decimal digits of a text, and the most [int] converts. *)
Fixpoint count_digits (s : string) : Z :=
  match s with
  | EmptyString => 0
  | String c s' => (if isdigit c then 1 else 0) + count_digits s'
  end.

Definition MAX_STR_DIGITS : Z := 4300.

(** The digits of [int(s)]: digits that single underscores may separate. *)
Fixpoint int_digits (acc : Z) (after_digit : bool) (s : string) : result Z :=
  match s with
  | EmptyString => if after_digit then Ok acc else Raise ValueError
  | String c s' =>
      if isdigit c then int_digits (10 * acc + digit_val c) true s'
      else if Ascii.eqb c "_"%char && after_digit then int_digits acc false s'
      else Raise ValueError
  end.

(** [int(s)] on text: surrounding white space, a sign, then at most 4300
    digits. *)
Definition int (s : string) : result Z :=
  if MAX_STR_DIGITS <? count_digits s then Raise ValueError
  else
    match rskip (lskip s) with
    | String c s' =>
        if Ascii.eqb c "-"%char then n ← int_digits 0 false s'; Ok (- n)
        else if Ascii.eqb c "+"%char then int_digits 0 false s'
        else int_digits 0 false (String c s')
    | EmptyString => Raise ValueError
    end.

(** [parse_time_duration]: the duration in seconds. *)
Definition parse_time_duration (duration_str : string) : result Z :=
  numbers ← mapM int (split COLON duration_str);
  '(hours, minutes) ← unpack2 numbers;
  timedelta hours minutes 0.

(** One row of the data frame read back from a converted file. *)
Record sample : Type := mk_sample {
  stamp : datetime;
  co2 : string
}.

(** A value used where text is needed: [e] is what the failing operation
    raises on anything else. *)
Definition as_text (v : json) (e : exn) : result string :=
  match v with
  | JStr s => Ok s
  | _ => Raise e
  end.

(** The window of a plot request, start and end, from the data frame and
    the values under [from] and [length]. *)
Definition plot_window (df : list sample) (start_time duration : json)
    : result (datetime * datetime) :=
  first ← getitem df 0;
  let measurement_date := stamp first in
  start_time_str ← as_text start_time TypeError;
  start_time ← strptime_HMS start_time_str;
  let start_datetime := combine measurement_date start_time in
  duration_str ← as_text duration AttributeError;
  duration ← parse_time_duration duration_str;
  end_datetime ← add start_datetime duration;
  Ok (start_datetime, end_datetime).

(** The mask [(stamp >= start) & (stamp <= end)]. *)
Definition in_window (start_datetime end_datetime : datetime) (r : sample) : bool :=
  le start_datetime (stamp r) && le (stamp r) end_datetime.

(** [df[mask]]. *)
Definition filter_window (start_datetime end_datetime : datetime)
    (df : list sample) : list sample :=
  filter (fun r => Is_true (in_window start_datetime end_datetime r)) df.

(** [DictReader]: the dict of one record under the field names; a short
    record leaves the last keys at [None]. *)
Definition dictreader_row (fieldnames record : list string)
    : gmap string (option string) :=
  let zipped : gmap string (option string) :=
    list_to_map (reverse (zip fieldnames (map Some record))) in
  foldl (fun d key => <[ key := None ]> d) zipped
        (drop (List.length record) fieldnames).

(** A cell as a value: text, or [None] when the record was too short. *)
Definition cell (v : option string) : json :=
  match v with
  | Some s => JStr s
  | None => JNull
  end.

(** [row[key]]. *)
Definition row_item (d : gmap string (option string)) (key : string)
    : result json :=
  match d !! key with
  | Some v => Ok (cell v)
  | None => Raise KeyError
  end.

(** The loop of [load_config_csv]: the first record gives the field
    names, blank records are skipped. *)
Definition add_plot_config (st : option (list string) * list json)
    (record : list string) : result (option (list string) * list json) :=
  match st with
  | (None, plots) => Ok (Some record, plots)
  | (Some fieldnames, plots) =>
      match record with
      | [] => Ok st
      | _ =>
          let r := dictreader_row fieldnames record in
          f ← row_item r "File";
          s ← row_item r "Start";
          d ← row_item r "Duration";
          Ok (Some fieldnames,
              plots ++ [JDict [("file", f); ("from", s); ("length", d)]])
      end
  end.

#[global] Instance exn_eq_dec : EqDecision exn.
Proof. solve_decision. Defined.

(** [except (classes)]. *)
Definition caught_by (classes : list exn) (e : exn) : bool :=
  bool_decide (e ∈ classes).

Section DetailedPlots.

(** The libraries the plotting code calls are taken as given:
    [json.loads] (which raises [JSONDecodeError] on a malformed document
    and may raise other exceptions), the data frame pandas
    builds from a converted file ([read_csv], [to_datetime],
    [to_numeric]), the drawing and saving of one figure, and [str] on a
    value that is not text.  Creating the output directories is assumed
    to succeed. *)
Variable json_loads : string -> result json.
Variable read_frame : string -> result (list sample).
Variable render : json -> json -> json -> list sample -> result unit.
Variable repr : json -> string.

(** [f"{v}"]. *)
Definition format (v : json) : string :=
  match v with
  | JStr s => s
  | _ => repr v
  end.

(** [load_config]. *)
Definition load_config (w : world) (config_path : string) : result (json * world) :=
  try_except
    (text ← open_read w config_path;
     v ← json_loads text;
     Ok (v, w))
    (caught_by [FileNotFoundError; JSONDecodeError])
    (fun _ => Ok (JDict [], print ConfigWarning w)).

(** [load_config_csv]. *)
Definition load_config_csv (w : world) (config_path : string)
    : result (json * world) :=
  try_except
    (text ← open_read w config_path;
     '(_, plots) ← fold_records add_plot_config (open_lines text) (None, []);
     Ok (JDict [("detailed_plots", JList plots)], w))
    (caught_by [FileNotFoundError; CsvError])
    (fun e => Ok (JDict [], print (CsvConfigWarning e) w)).

(** The first lines of [plot_detailed_co2_data]: the plot requests, or
    [None] when plotting is skipped. *)
Definition detailed_config (w : world) (config_path csv_config_path : string)
    : result (option json * world) :=
  '(config, w) ← load_config w config_path;
  first ← dict_get config "detailed_plots" JNull;
  '(config, w) ←
    (if negb (truthy first) then load_config_csv w csv_config_path
     else Ok (config, w));
  detailed ← dict_get config "detailed_plots" (JList []);
  if negb (truthy detailed) then Ok (None, print NoConfiguration w)
  else Ok (Some detailed, w).

(** The body of the [try] for one request whose converted file is
    [text]. *)
Definition plot_body (w : world) (plot_config csv_filename : json)
    (text : string) : result world :=
  df ← read_frame text;
  start_time ← subscript plot_config "from";
  duration ← subscript plot_config "length";
  '(start_datetime, end_datetime) ← plot_window df start_time duration;
  let filtered_df := filter_window start_datetime end_datetime df in
  match filtered_df with
  | [] => Ok (print (NoDataInRange (format csv_filename)) w)
  | _ =>
      _ ← render csv_filename start_time duration filtered_df;
      Ok (print (PlotSaved (format csv_filename)) w)
  end.

(** One turn of the loop over the requests. *)
Definition plot_one (w : world) (plot_config : json) : result world :=
  csv_filename ← subscript plot_config "file";
  let converted_filename := "converted_" +:+ format csv_filename in
  match converted w !! converted_filename with
  | None => Ok (print (ConvertedFileMissing converted_filename) w)
  | Some text =>
      try_except (plot_body w plot_config csv_filename text)
        (fun _ => true)
        (fun e => Ok (print (PlotError (format csv_filename) e) w))
  end.

(** [plot_detailed_co2_data]. *)
Definition plot_detailed_co2_data (w : world)
    (config_path csv_config_path : string) : result world :=
  '(detailed, w) ← detailed_config w config_path csv_config_path;
  match detailed with
  | None => Ok w
  | Some requests =>
      plot_configs ← iterate requests;
      for_each plot_one plot_configs w
  end.

(** The whole script: the main loop, then the detailed plots. *)
Definition script (w : world) : result world :=
  w ← convert_all w;
  plot_detailed_co2_data (print CreatingDetailedPlots w) "cfg.json" "cfg.csv".

End DetailedPlots.

(** ** Vocabulary of the statements and sample inputs *)

(** The same date [k] cycles of 400 years later. *)
Definition shift_year (k : Z) (ymd : Z * Z * Z) : Z * Z * Z :=
  let '(y, m, d) := ymd in (y + 400 * k, m, d).

(** What is checked of every day [r] of the first 400-year cycle. *)
Definition cycle_ok (r : Z) : bool :=
  let '(y, m, d) := ord2ymd (r + 1) in
  (ymd2ord y m d =? r + 1)
  && (1 <=? y) && (y <=? 400) && ((145730 <? r) || (y <=? 399))
  && (1 <=? m) && (m <=? 12) && (1 <=? d) && (d <=? days_in_month y m).

(** [p] holds of the [n] integers from [lo] on. *)
Fixpoint all_from (p : Z -> bool) (lo : Z) (n : nat) : bool :=
  match n with
  | O => true
  | S k => if p lo then all_from p (lo + 1) k else false
  end.

(** The text of a cell after its last colon, stripped. *)
Definition cell_value (d : string) : string :=
  strip (default EmptyString (last (split COLON d))).

(** [d[header] = value]. *)
Definition set_item (d : row) (hv : string * string) : row :=
  <[ hv.1 := hv.2 ]> d.

(** The dict the inner loop builds from the headers and [data]. *)
Definition row_of (hdrs data : list string) : row :=
  foldl set_item ∅ (zip hdrs data).

(** The total seconds of 9999-12-31 23:59:59. *)
Definition LAST_SECOND : Z := (MAXORDINAL + 1) * 86400 - 1.

(** The text of the time stamp of row [il]. *)
Definition stamp_text (t0 : datetime) (il : nat) : string :=
  match add t0 (Z.of_nat il * 2) with
  | Ok t => strftime t
  | Raise _ => EmptyString
  end.

(** The dict of the line at index [il]. *)
Definition expected_row (hdrs : list string) (t0 : datetime) (il : nat)
    (line : list string) : row :=
  row_of hdrs (map cell_value line ++ [stamp_text t0 il]).

(** A raw file of two data rows that crosses midnight. *)
Definition sample_file : string :=
  "Device XYZ Export 2024.01.15 23:59:59 end" +:+ String LF
  ("a:400,b:22.5,c:410,d:395" +:+ String LF
  ("a:401,b:22.6,c:410,d:395" +:+ String LF EmptyString)).

(** A raw file whose title carries the year 999. *)
Definition early_file : string :=
  "Device XYZ Export 0999.01.15 09:00:00 end" +:+ String LF
  ("a:400,b:22.5,c:410,d:395" +:+ String LF EmptyString).

(** The header row as [writeheader] writes it. *)
Definition HEADER_ROW : string :=
  "CO2(ppm),Temperature(C),Maximum_CO2(ppm),Minimum_CO2(ppm),Date_Of_Measurement(datetime)"
  +:+ CRLF.

(** The record written for the line at index [il]: the first five of its
    stripped cells followed by the time stamp. *)
Definition written_record (t0 : datetime) (il : nat) (line : list string)
    : list string :=
  take 5 (map cell_value line ++ [stamp_text t0 il]).

(** The name of the converted file. *)
Definition output_name (csv_file : string) : string := "converted_" +:+ csv_file.

(** The body of the main loop without its title: from the date text and
    the data records. *)
Definition convert_rows (date : string) (lines : list (list string))
    : result string :=
  t0 ← strptime date;
  csv_list ← transform_lines lines headers t0;
  write_csv headers csv_list.

(** The converted files after writing [outs] in order over [m]. *)
Definition write_all (outs : list (string * string)) (m : gmap string string)
    : gmap string string :=
  foldl (fun m kv => <[ kv.1 := kv.2 ]> m) m outs.

(** The texts the main loop writes, by output name, when the output
    files named in [errors] cannot be opened. *)
Definition outputs (errors : gmap string exn) (files : list (string * string))
    : result (list (string * string)) :=
  mapM (fun f =>
          text ← convert f.2;
          match errors !! output_name f.1 with
          | Some e => Raise e
          | None => Ok (output_name f.1, text)
          end) files.

(** A [measurements] directory with one raw file and one other file. *)
Definition sample_world : world :=
  mk_world [("day1.csv", sample_file); ("notes.txt", "not a measurement")]
           ∅ ∅ [].

(** The same measurements under another title. *)
Definition sample_file_retitled : string :=
  "Another title altogether 2024.01.15 23:59:59 x" +:+ String LF
  ("a:400,b:22.5,c:410,d:395" +:+ String LF
  ("a:401,b:22.6,c:410,d:395" +:+ String LF EmptyString)).

(** The world after printing the messages [evs] in order. *)
Definition prints (evs : list event) (w : world) : world :=
  mk_files (measurements w) (converted w) (configs w) (write_errors w)
    (stdout w ++ evs).

(** The request names a file. *)
Definition names_file (plot_config : json) : bool :=
  is_ok (subscript plot_config "file").

(** The message [ev] accounts for the request [plot_config], given the
    converted files: the warning that the converted file is missing when it
    is, and otherwise one of the three outcomes of the [try] block. *)
Definition accounts_for (repr : json -> string) (files : gmap string string)
    (plot_config : json) (ev : event) : Prop :=
  exists csv_filename,
    subscript plot_config "file" = Ok csv_filename
    /\ let name := format repr csv_filename in
       (files !! ("converted_" +:+ name) = None
        /\ ev = ConvertedFileMissing ("converted_" +:+ name))
       \/ (is_Some (files !! ("converted_" +:+ name))
           /\ (ev = NoDataInRange name \/ ev = PlotSaved name
               \/ exists e, ev = PlotError name e)).

(** Libraries for the examples: a data frame that cannot be built, a
    drawing that succeeds, no JSON document. *)
Definition failing_frame (text : string) : result (list sample) :=
  Raise ValueError.

Definition blank_render (name start duration : json) (df : list sample)
    : result unit := Ok ().

Definition no_repr (v : json) : string := EmptyString.

Definition no_json (text : string) : result json := Raise JSONDecodeError.

(** One converted file to plot and one raw file whose title has no space. *)
Definition plot_world : world :=
  mk_world [("bad.csv", "untitled")] (<[ "converted_a.csv" := HEADER_ROW ]> ∅) ∅ [].

(** A directory where the output of [day1.csv] cannot be opened. *)
Definition readonly_world : world :=
  mk_files [("day1.csv", sample_file)] ∅ ∅
           (<[ "converted_day1.csv" := OSError ]> ∅) [].

(** The plot request that [load_config_csv] builds from a record under the
    header [File,Start,Duration]. *)
Definition plot_of_record (record : list string) : json :=
  JDict [("file", cell (record !! 0%nat));
         ("from", cell (record !! 1%nat));
         ("length", cell (record !! 2%nat))].

(** The JSON configuration cannot be used, and [w1] is the world after the
    message this prints: the file is missing, or is not a JSON document, or
    is an object without a non-empty [detailed_plots]. *)
Definition json_falls_back (json_loads : string -> result json)
    (w : world) (config_path : string) (w1 : world) : Prop :=
  (configs w !! config_path = None /\ w1 = print ConfigWarning w)
  \/ (exists text, configs w !! config_path = Some (Text text)
        /\ json_loads text = Raise JSONDecodeError /\ w1 = print ConfigWarning w)
  \/ (exists text d, configs w !! config_path = Some (Text text)
        /\ json_loads text = Ok (JDict d)
        /\ truthy (default JNull (assoc "detailed_plots" d)) = false
        /\ w1 = w).

(** The CSV configuration gives no request, and [w2] is the world after the
    message this prints: the file is missing, or the reader rejects it, or
    it has no data record. *)
Definition csv_gives_nothing (w1 : world) (csv_config_path : string)
    (w2 : world) : Prop :=
  (configs w1 !! csv_config_path = None
   /\ w2 = print (CsvConfigWarning FileNotFoundError) w1)
  \/ (exists text, configs w1 !! csv_config_path = Some (Text text)
        /\ fold_records add_plot_config (open_lines text) (None, [])
           = Raise CsvError
        /\ w2 = print (CsvConfigWarning CsvError) w1)
  \/ (exists text fieldnames, configs w1 !! csv_config_path = Some (Text text)
        /\ fold_records add_plot_config (open_lines text) (None, [])
           = Ok (fieldnames, [])
        /\ w2 = w1).

(** A CSV configuration with one request. *)
Definition csv_config_text : string :=
  "File,Start,Duration" +:+ String LF
  ("a.csv,09:05:00,00:10" +:+ String LF EmptyString).

Definition csv_only_world : world :=
  mk_world [] ∅ (<[ "cfg.csv" := Text csv_config_text ]> ∅) [].

Definition no_config_world : world := mk_world [] ∅ ∅ [].

(** Rows of 2024-01-15 around the window 09:05:00 to 09:15:00. *)
Definition at_time (h mi s : Z) : sample :=
  mk_sample (mk_datetime 2024 1 15 h mi s) "400".

Definition sample_frame : list sample :=
  [at_time 9 0 0; at_time 9 4 59; at_time 9 5 0; at_time 9 10 0;
   at_time 9 15 0; at_time 9 15 1].

(** The title without its trailing note: what comes before the last space,
    or everything when there is no space. *)
Definition middle_region (rest : string) : string :=
  match rpartition SPACE rest with
  | Some (middle, _) => middle
  | None => rest
  end.








(** The text with every line end written as [\r\n]. *)
Fixpoint windows_newlines (s : string) : string :=
  match s with
  | EmptyString => EmptyString
  | String c s' =>
      if Ascii.eqb c LF then String CR (String LF (windows_newlines s'))
      else String c (windows_newlines s')
  end.

(** A quoted field is open, or its closing quote was just read. *)
Definition in_quotes (r : reader) : bool :=
  state_eqb (state r) IN_QUOTED_FIELD
  || state_eqb (state r) QUOTE_IN_QUOTED_FIELD.




(** A value that is not a JSON object, and one that is not a JSON array. *)
Definition not_object (v : json) : bool :=
  match v with JDict _ => false | _ => true end.


(** The plot request [load_config_csv] builds from a record when the
    columns [File], [Start] and [Duration] are at positions [i], [j] and
    [k] of the header. *)
Definition plot_of_columns (i j k : nat) (record : list string) : json :=
  JDict [("file", cell (record !! i));
         ("from", cell (record !! j));
         ("length", cell (record !! k))].

(** The records [DictReader] does not skip. *)
Definition nonblank (records : list (list string)) : list (list string) :=
  filter (fun r => r <> []) records.

(** A CSV configuration with its columns in another order, one more
    column, a blank line and a short record. *)
Definition reordered_config_text : string :=
  "Start,Note,File,Duration" +:+ String LF
  ("09:05:00,morning,a.csv,00:10" +:+ String LF
  (String LF
  ("10:00:00,short" +:+ String LF EmptyString))).

(** A data frame without rows. *)
Definition empty_frame (text : string) : result (list sample) := Ok [].

(** A data frame whatever the text. *)
Definition fixed_frame (text : string) : result (list sample) := Ok sample_frame.




(** The number of characters of the lines. *)
Definition total_length (lines : list string) : nat :=
  foldr (fun l n => (String.length l + n)%nat) 0%nat lines.

(** A line as a text file yields it: no line end inside, and at most one
    [\n], at its end. *)
Definition text_line (l : string) : Prop :=
  exists body,
    existsb is_newline body = false
    /\ (l = body \/ l = body +:+ String LF EmptyString).

(** The reader is not waiting for the end of a line, and its current field
    has at most [n] characters. *)
Definition fits (n : nat) (r : reader) : Prop :=
  (String.length (field r) <= n)%nat /\ state r <> EAT_CRNL.

(** A raw file whose title is quoted and spans two lines. *)
Definition two_line_title_file : string :=
  String QUOTE ("Device XYZ Export" +:+ String LF
    ("2024.01.15 09:00:00 end" +:+ String QUOTE (String LF
      ("a:400,b:22.5,c:410,d:395" +:+ String LF EmptyString)))).

(** * Properties *)

(** ** String methods *)

Section Appending.

Lemma append_cons (a : ascii) (r s : string) :
  String a r +:+ s = String a (r +:+ s).
Proof. reflexivity. Qed.

Lemma append_nil (s : string) : EmptyString +:+ s = s.
Proof. reflexivity. Qed.

End Appending.

Section StringFacts.

Variable sep : ascii.

Lemma split_not_nil (s : string) : split sep s <> [].
Proof.
  destruct s as [|c s]; simpl; [discriminate|].
  destruct (Ascii.eqb c sep); [discriminate|].
  destruct (split sep s); discriminate.
Qed.

Lemma split_no_sep (s : string) :
  contains sep s = false -> split sep s = [s].
Proof.
  induction s as [|c s IH]; simpl; [reflexivity|].
  intros H. apply orb_false_elim in H as [Hc Hs].
  rewrite Hc, (IH Hs). reflexivity.
Qed.

(** The last piece of a split only depends on what follows the last
    separator. *)
Lemma last_split_app (p v : string) :
  last (split sep (p +:+ String sep v)) = last (split sep v).
Proof.
  induction p as [|c p IH]; simpl.
  - rewrite Ascii.eqb_refl.
    destruct (split sep v) eqn:E; [by apply split_not_nil in E|done].
  - destruct (Ascii.eqb c sep).
    + rewrite <- IH.
      destruct (split sep (p +:+ String sep v)) eqn:E;
        [by apply split_not_nil in E|done].
    + rewrite <- IH.
      destruct (split sep (p +:+ String sep v)) as [|seg segs] eqn:E;
        [by apply split_not_nil in E|].
      destruct segs as [|seg' segs]; [|done].
      exfalso. clear IH.
      revert seg E. induction p as [|d p IHp]; simpl; intros seg E.
      * rewrite Ascii.eqb_refl in E.
        destruct (split sep v) eqn:E'; [by apply split_not_nil in E'|done].
      * destruct (Ascii.eqb d sep).
        -- destruct (split sep (p +:+ String sep v)) eqn:E';
             [by apply split_not_nil in E'|done].
        -- destruct (split sep (p +:+ String sep v)) as [|s1 [|s2 l]] eqn:E';
             [by apply split_not_nil in E'| |done].
           by eapply IHp.
Qed.

End StringFacts.

Section Partitions.

Variable sep : ascii.

Lemma partition_some (s a b : string) :
  partition sep s = Some (a, b) ->
  s = a +:+ String sep b /\ contains sep a = false.
Proof.
  revert a. induction s as [|c s IH]; intros a; simpl; [discriminate|].
  destruct (Ascii.eqb c sep) eqn:E.
  - apply Ascii.eqb_eq in E as ->. intros [= <- <-]. done.
  - destruct (partition sep s) as [[a' b']|]; [|discriminate].
    intros [= <- <-]. destruct (IH a' eq_refl) as [-> Ha].
    rewrite append_cons. simpl. rewrite E, Ha. done.
Qed.

Lemma partition_none (s : string) :
  partition sep s = None <-> contains sep s = false.
Proof.
  induction s as [|c s IH]; simpl; [done|].
  destruct (Ascii.eqb c sep); simpl; [done|].
  destruct (partition sep s) as [[a b]|]; [|tauto].
  split; [discriminate|]. intros H. by apply IH in H.
Qed.

Lemma partition_app (a b : string) :
  contains sep a = false -> partition sep (a +:+ String sep b) = Some (a, b).
Proof.
  induction a as [|c a IH]; intros H.
  - rewrite append_nil. simpl. by rewrite Ascii.eqb_refl.
  - simpl in H. apply orb_false_elim in H as [Hc Ha].
    rewrite append_cons. simpl. rewrite Hc, IH by done. reflexivity.
Qed.

Lemma rpartition_some (s a b : string) :
  rpartition sep s = Some (a, b) ->
  s = a +:+ String sep b /\ contains sep b = false.
Proof.
  revert a. induction s as [|c s IH]; intros a; simpl; [discriminate|].
  destruct (rpartition sep s) as [[a' b']|] eqn:E.
  - intros [= <- <-]. destruct (IH a' eq_refl) as [-> Hb]. done.
  - destruct (Ascii.eqb c sep) eqn:Ec; [|discriminate].
    apply Ascii.eqb_eq in Ec as ->. intros [= <- <-].
    split; [reflexivity|].
    clear IH. induction s as [|d s IHs]; simpl in *; [done|].
    destruct (rpartition sep s) as [[a' b']|]; [discriminate|].
    destruct (Ascii.eqb d sep); [discriminate|]. by apply IHs.
Qed.

Lemma rpartition_none (s : string) :
  rpartition sep s = None <-> contains sep s = false.
Proof.
  induction s as [|c s IH]; simpl; [done|].
  destruct (rpartition sep s) as [[a b]|].
  - split; [discriminate|]. intros H.
    apply orb_false_elim in H as [_ H]. by apply IH in H.
  - destruct (Ascii.eqb c sep); simpl; [done|tauto].
Qed.

End Partitions.

Section Tokens.

Lemma split_ws_not_nil (c : ascii) (s : string) :
  isspace c = false -> split_ws (String c s) <> [].
Proof.
  intros Hc. simpl. rewrite Hc.
  destruct s as [|c' s]; [done|].
  destruct (isspace c'); [done|]. by destruct (split_ws (String c' s)).
Qed.

(** A whitespace character separates the tokens on its two sides. *)
Lemma split_ws_app (a b : string) (c : ascii) :
  isspace c = true ->
  split_ws (a +:+ String c b) = split_ws a ++ split_ws b.
Proof.
  intros Hc. induction a as [|x a IH].
  - rewrite append_nil. simpl. by rewrite Hc.
  - rewrite append_cons.
    change (split_ws (String x (a +:+ String c b)))
      with (if isspace x then split_ws (a +:+ String c b)
            else match a +:+ String c b with
                 | EmptyString => [String x EmptyString]
                 | String c' _ =>
                     if isspace c'
                     then String x EmptyString :: split_ws (a +:+ String c b)
                     else match split_ws (a +:+ String c b) with
                          | t :: ts => String x t :: ts
                          | [] => [String x EmptyString]
                          end
                 end).
    change (split_ws (String x a))
      with (if isspace x then split_ws a
            else match a with
                 | EmptyString => [String x EmptyString]
                 | String c' _ =>
                     if isspace c' then String x EmptyString :: split_ws a
                     else match split_ws a with
                          | t :: ts => String x t :: ts
                          | [] => [String x EmptyString]
                          end
                 end).
    rewrite IH. destruct (isspace x); [reflexivity|].
    destruct a as [|y a].
    + rewrite append_nil, Hc. reflexivity.
    + rewrite append_cons. destruct (isspace y) eqn:Hy; [reflexivity|].
      pose proof (split_ws_not_nil y a Hy).
      destruct (split_ws (String y a)); [done|reflexivity].
Qed.

End Tokens.

Section DatetimeFacts.

Lemma is_leap_period (y k : Z) : is_leap (y + 400 * k) = is_leap y.
Proof.
  unfold is_leap.
  replace ((y + 400 * k) mod 4) with (y mod 4)
    by (replace (y + 400 * k) with (y + k * 100 * 4) by lia;
        symmetry; apply Z.mod_add; lia).
  replace ((y + 400 * k) mod 100) with (y mod 100)
    by (replace (y + 400 * k) with (y + k * 4 * 100) by lia;
        symmetry; apply Z.mod_add; lia).
  replace ((y + 400 * k) mod 400) with (y mod 400)
    by (replace (y + 400 * k) with (y + k * 400) by lia;
        symmetry; apply Z.mod_add; lia).
  reflexivity.
Qed.

Lemma days_before_year_period (y k : Z) :
  days_before_year (y + 400 * k) = days_before_year y + DI400Y * k.
Proof.
  unfold days_before_year, DI400Y. cbv zeta.
  replace (y + 400 * k - 1) with (y - 1 + k * 400) by lia.
  replace ((y - 1 + k * 400) / 4) with ((y - 1) / 4 + k * 100)
    by (replace (k * 400) with (k * 100 * 4) by lia;
        rewrite Z.div_add by lia; reflexivity).
  replace ((y - 1 + k * 400) / 100) with ((y - 1) / 100 + k * 4)
    by (replace (k * 400) with (k * 4 * 100) by lia;
        rewrite Z.div_add by lia; reflexivity).
  rewrite Z.div_add by lia. lia.
Qed.

Lemma ymd2ord_period (y m d k : Z) :
  ymd2ord (y + 400 * k) m d = ymd2ord y m d + DI400Y * k.
Proof.
  unfold ymd2ord, days_before_month.
  rewrite days_before_year_period, is_leap_period. lia.
Qed.

Lemma ord2ymd_period (n : Z) :
  ord2ymd n =
  shift_year ((n - 1) / DI400Y) (ord2ymd ((n - 1) mod DI400Y + 1)).
Proof.
  assert (Hr : 0 <= (n - 1) mod DI400Y < DI400Y)
    by (apply Z.mod_pos_bound; reflexivity).
  unfold ord2ymd. cbv zeta.
  replace ((n - 1) mod DI400Y + 1 - 1) with ((n - 1) mod DI400Y) by lia.
  rewrite (Z.div_small ((n - 1) mod DI400Y) DI400Y),
    (Z.mod_small ((n - 1) mod DI400Y) DI400Y) by exact Hr.
  set (r := (n - 1) mod DI400Y). set (q := (n - 1) / DI400Y).
  unfold shift_year.
  repeat match goal with
         | |- context [if ?b then _ else _] => destruct b
         end; f_equal; try f_equal; ring.
Qed.

Lemma all_from_spec (p : Z -> bool) (n : nat) (lo : Z) :
  all_from p lo n = true ->
  forall k, lo <= k < lo + Z.of_nat n -> p k = true.
Proof.
  revert lo. induction n as [|n IH]; simpl; intros lo H k Hk; [lia|].
  destruct (p lo) eqn:E; [|discriminate].
  destruct (Z.eq_dec k lo) as [->|]; [done|].
  apply (IH (lo + 1)); [done|lia].
Qed.

Lemma cycle_checked : all_from cycle_ok 0 (Z.to_nat DI400Y) = true.
Proof. vm_compute. reflexivity. Qed.

Lemma cycle_ok_all (r : Z) : 0 <= r < DI400Y -> cycle_ok r = true.
Proof.
  intros Hr. apply (all_from_spec _ _ _ cycle_checked).
  rewrite Z2Nat.id; [exact Hr|discriminate].
Qed.

(** The date of an ordinal is a valid date and has that ordinal. *)
Lemma ord2ymd_spec (n : Z) :
  1 <= n <= MAXORDINAL ->
  forall y m d, ord2ymd n = (y, m, d) ->
  valid_date y m d = true /\ ymd2ord y m d = n.
Proof.
  intros Hn y m d E.
  assert (Hr : 0 <= (n - 1) mod DI400Y < DI400Y)
    by (apply Z.mod_pos_bound; reflexivity).
  pose proof (cycle_ok_all _ Hr) as Hc.
  rewrite ord2ymd_period in E. unfold cycle_ok in Hc.
  pose proof (Z.div_mod (n - 1) DI400Y ltac:(discriminate)) as Hdm.
  set (r := (n - 1) mod DI400Y) in *. set (q := (n - 1) / DI400Y) in *.
  destruct (ord2ymd (r + 1)) as [[y0 m0] d0]. simpl in E.
  injection E as <- <- <-.
  rewrite !andb_true_iff in Hc.
  destruct Hc as (((((((E1 & E2) & E3) & E4) & E5) & E6) & E7) & E8).
  assert (Hq : 0 <= q <= 24).
  { unfold DI400Y, MAXORDINAL in *. lia. }
  split.
  - unfold valid_date, days_in_month, MINYEAR, MAXYEAR.
    rewrite is_leap_period. fold (days_in_month y0 m0).
    assert (y0 + 400 * q <= 9999).
    { destruct (Z.eq_dec q 24) as [->|]; [|lia].
      apply orb_prop in E4 as [E4|E4]; [|lia].
      unfold DI400Y, MAXORDINAL in *. lia. }
    repeat (apply andb_true_intro; split); lia.
  - rewrite ymd2ord_period. unfold DI400Y in *. lia.
Qed.

End DatetimeFacts.

Section DatetimeArithmetic.

Lemma seconds_of_day_split (secs : Z) :
  0 <= secs < 86400 ->
  secs / 3600 * 3600 + secs mod 3600 / 60 * 60 + secs mod 3600 mod 60 = secs
  /\ valid_time (secs / 3600) (secs mod 3600 / 60) (secs mod 3600 mod 60) = true.
Proof.
  intros H.
  pose proof (Z.div_mod secs 3600 ltac:(lia)).
  pose proof (Z.mod_pos_bound secs 3600 ltac:(lia)).
  pose proof (Z.div_mod (secs mod 3600) 60 ltac:(lia)).
  pose proof (Z.mod_pos_bound (secs mod 3600) 60 ltac:(lia)).
  assert (0 <= secs / 3600 <= 23)
    by (split; [apply Z.div_pos; lia|apply Z.lt_succ_r, Z.div_lt_upper_bound; lia]).
  assert (0 <= secs mod 3600 / 60 <= 59)
    by (split; [apply Z.div_pos; lia|apply Z.lt_succ_r, Z.div_lt_upper_bound; lia]).
  split; [lia|].
  unfold valid_time. repeat (apply andb_true_intro; split); lia.
Qed.

(** Adding a duration moves the time stamp by that many seconds, and
    gives a well-formed date and time. *)
Lemma add_spec (dt : datetime) (delta : Z) (t : datetime) :
  add dt delta = Ok t ->
  total_seconds t = total_seconds dt + delta /\ valid t = true.
Proof.
  unfold add. cbv zeta.
  set (total := total_seconds dt + delta).
  destruct ((0 <? total / 86400) && (total / 86400 <=? MAXORDINAL)) eqn:Hrange;
    [|discriminate].
  apply andb_prop in Hrange as [Hlo Hhi].
  destruct (ord2ymd (total / 86400)) as [[y m] d] eqn:E.
  intros [= <-].
  destruct (ord2ymd_spec (total / 86400) ltac:(lia) y m d E) as [Hv Ho].
  pose proof (Z.mod_pos_bound total 86400 ltac:(lia)) as Hs.
  destruct (seconds_of_day_split _ Hs) as [Hsplit Hvt].
  pose proof (Z.div_mod total 86400 ltac:(lia)).
  unfold total_seconds at 1, valid, toordinal, seconds_of_day. simpl.
  rewrite Ho, Hv, Hvt. split; [lia|reflexivity].
Qed.

(** The sum exists exactly when it falls on a day between 0001-01-01
    and 9999-12-31. *)
Lemma add_is_ok (dt : datetime) (delta : Z) :
  is_ok (add dt delta) = true <->
  86400 <= total_seconds dt + delta < (MAXORDINAL + 1) * 86400.
Proof.
  unfold add. cbv zeta.
  set (total := total_seconds dt + delta).
  pose proof (Z.div_mod total 86400 ltac:(lia)).
  pose proof (Z.mod_pos_bound total 86400 ltac:(lia)).
  destruct ((0 <? total / 86400) && (total / 86400 <=? MAXORDINAL)) eqn:Hrange.
  - apply andb_prop in Hrange as [Hlo Hhi].
    destruct (ord2ymd (total / 86400)) as [[y m] d]. simpl.
    split; [intros _|done]. unfold MAXORDINAL in *. lia.
  - simpl. split; [discriminate|]. intros Ht. exfalso.
    apply andb_false_iff in Hrange. unfold MAXORDINAL in *.
    destruct Hrange; lia.
Qed.

Lemma add_overflow (dt : datetime) (delta : Z) :
  is_ok (add dt delta) = false -> add dt delta = Raise OverflowError.
Proof.
  unfold add. cbv zeta.
  destruct (_ && _); [|done].
  destruct (ord2ymd _) as [[y m] d]. discriminate.
Qed.

Lemma timedelta_seconds (n : nat) :
  Z.of_nat n * 2 / 86400 <= 999999999 ->
  timedelta 0 0 (Z.of_nat n * 2) = Ok (Z.of_nat n * 2).
Proof.
  intros H. unfold timedelta. cbv zeta.
  replace (0 * 3600 + 0 * 60 + Z.of_nat n * 2) with (Z.of_nat n * 2) by lia.
  assert (0 <= Z.of_nat n * 2 / 86400) by (apply Z.div_pos; lia).
  destruct (_ && _) eqn:E; [done|].
  apply andb_false_iff in E. destruct E; lia.
Qed.

End DatetimeArithmetic.

(** Case analysis on an integer known to lie in a small range. *)
Ltac enum_range n tac :=
  let k := fresh "k" in
  let E := fresh "E" in
  remember (Z.to_nat n) as k eqn:E;
  assert (n = Z.of_nat k) by lia; subst n; clear E;
  repeat match goal with
         | j : nat |- _ => destruct j; [tac|try lia]
         end.

Section Formatting.

Lemma digit_spec (n : Z) :
  isdigit (digit n) = true /\ digit_val (digit n) = n mod 10
  /\ isspace (digit n) = false.
Proof.
  unfold digit.
  pose proof (Z.mod_pos_bound n 10 ltac:(lia)) as H.
  generalize dependent (n mod 10). intros k Hk.
  enum_range k ltac:(vm_compute; auto).
Qed.

Lemma p_char_digit (n : Z) (rest : string) :
  p_char any_digit (String (digit n) rest) = [(n mod 10, rest)].
Proof.
  destruct (digit_spec n) as (Hd & Hv & _).
  pose proof (Z.mod_pos_bound n 10 ltac:(lia)) as H.
  unfold p_char, any_digit, between. rewrite Hd, Hv. simpl.
  destruct (0 <=? n mod 10) eqn:E1; [|lia].
  destruct (n mod 10 <=? 9) eqn:E2; [|lia]. reflexivity.
Qed.

Lemma p_bind_single {A B : Type} (p : parser A) (k : A -> parser B)
    (s : string) (a : A) (r : string) :
  p s = [(a, r)] -> p_bind p k s = k a r.
Proof. intros H. unfold p_bind. rewrite H. simpl. apply app_nil_r. Qed.

Lemma p_two_digits (a b : Z) (rest : string) :
  p_two any_digit any_digit (String (digit a) (String (digit b) rest))
  = [(10 * (a mod 10) + b mod 10, rest)].
Proof.
  unfold p_two.
  rewrite (p_bind_single _ _ _ _ _ (p_char_digit a _)).
  rewrite (p_bind_single _ _ _ _ _ (p_char_digit b _)).
  reflexivity.
Qed.

Lemma p_Y_pad4 {A : Type} (k : Z -> parser A) (y : Z) (rest : string) :
  0 <= y <= 9999 ->
  p_bind p_Y k (pad4 y +:+ rest) = k y rest.
Proof.
  intros Hy. apply p_bind_single.
  unfold p_Y, pad4, pad2. rewrite !append_cons, append_nil.
  rewrite (p_bind_single _ _ _ _ _ (p_two_digits _ _ _)).
  rewrite (p_bind_single _ _ _ _ _ (p_two_digits _ _ _)).
  unfold p_ret. f_equal.
  f_equal.
  pose proof (Z.div_mod y 1000 ltac:(lia)).
  pose proof (Z.mod_pos_bound y 1000 ltac:(lia)).
  assert (0 <= y / 1000 <= 9)
    by (split; [apply Z.div_pos; lia|apply Z.lt_succ_r, Z.div_lt_upper_bound; lia]).
  rewrite (Z.mod_small (y / 1000) 10) by lia.
  replace ((y / 100) mod 10) with (y mod 1000 / 100).
  2:{ rewrite (Z.mod_eq y 1000), (Z.mod_eq (y / 100) 10) by lia.
      replace (y / 100 / 10) with (y / 1000)
        by (rewrite Z.div_div by lia; reflexivity).
      replace (y - 1000 * (y / 1000)) with (y + (- 10 * (y / 1000)) * 100) by lia.
      rewrite Z.div_add by lia. lia. }
  replace ((y / 10) mod 10) with (y mod 100 / 10).
  2:{ rewrite (Z.mod_eq y 100), (Z.mod_eq (y / 10) 10) by lia.
      replace (y / 10 / 10) with (y / 100)
        by (rewrite Z.div_div by lia; reflexivity).
      replace (y - 100 * (y / 100)) with (y + (- 10 * (y / 100)) * 10) by lia.
      rewrite Z.div_add by lia. lia. }
  replace (y mod 10) with (y mod 100 mod 10).
  2:{ replace 100 with (10 * 10) by lia.
      rewrite Z.rem_mul_r by lia.
      replace (y mod 10 + 10 * ((y / 10) mod 10)) with (y mod 10 + ((y / 10) mod 10) * 10) by lia.
      rewrite Z.mod_add, Z.mod_mod by lia. reflexivity. }
  replace (y mod 100) with (y mod 1000 mod 100).
  2:{ replace 1000 with (100 * 10) by lia.
      rewrite Z.rem_mul_r by lia.
      replace (y mod 100 + 100 * ((y / 100) mod 10))
        with (y mod 100 + ((y / 100) mod 10) * 100) by lia.
      rewrite Z.mod_add, Z.mod_mod by lia. reflexivity. }
  pose proof (Z.div_mod (y mod 1000) 100 ltac:(lia)).
  pose proof (Z.div_mod (y mod 1000 mod 100) 10 ltac:(lia)).
  lia.
Qed.

End Formatting.

(** Closes [((l ++ []) ++ ...) = l] whatever the form of [++]. *)
Ltac strip_nils :=
  repeat (etransitivity; [apply app_nil_r|]); reflexivity.

Section FieldParsers.

Context {A : Type}.
Variable k : Z -> parser A.
Variable rest : string.

Lemma p_m_pad2 (m : Z) :
  1 <= m <= 12 ->
  p_bind p_m (fun v => p_bind (p_lit DOT) (fun _ => k v))
    (pad2 m +:+ String DOT rest) = k m rest.
Proof.
  intros Hm.
  enum_range m ltac:(first [lia | cbv; strip_nils]).
Qed.

Lemma p_H_pad2 (h : Z) :
  0 <= h <= 23 ->
  p_bind p_H (fun v => p_bind (p_lit COLON) (fun _ => k v))
    (pad2 h +:+ String COLON rest) = k h rest.
Proof.
  intros Hh.
  enum_range h ltac:(first [lia | cbv; strip_nils]).
Qed.

Lemma p_M_pad2 (mi : Z) :
  0 <= mi <= 59 ->
  p_bind p_M (fun v => p_bind (p_lit COLON) (fun _ => k v))
    (pad2 mi +:+ String COLON rest) = k mi rest.
Proof.
  intros Hh.
  enum_range mi ltac:(first [lia | cbv; strip_nils]).
Qed.

Lemma p_d_pad2 (d : Z) :
  1 <= d <= 31 ->
  p_spaces rest = [] ->
  p_bind p_d (fun v => p_bind p_spaces (fun _ => k v))
    (pad2 d +:+ String SPACE rest) = k d rest.
Proof.
  intros Hd Hrest.
  assert (Hs : p_spaces (String " " rest) = [(0, rest)])
    by (simpl; rewrite Hrest; reflexivity).
  enum_range d ltac:(first [lia | cbv - [p_spaces]; rewrite ?Hs; cbv; strip_nils]).
Qed.

End FieldParsers.

Section Roundtrip.

Lemma p_S_pad2 {B : Type} (v : Z -> B) (s : Z) :
  0 <= s <= 59 ->
  p_bind p_S (fun x => p_ret (v x)) (pad2 s)
  = [(v s, EmptyString); (v (s / 10), String (digit s) EmptyString)].
Proof.
  intros Hs.
  enum_range s ltac:(first [lia | cbv; reflexivity]).
Qed.

Lemma p_spaces_digit (a : Z) (r : string) : p_spaces (String (digit a) r) = [].
Proof.
  destruct (digit_spec a) as (_ & _ & H). simpl. rewrite H. reflexivity.
Qed.

Lemma p_HMS_format (h mi s : Z) :
  valid_time h mi s = true ->
  p_HMS (pad2 h +:+ String COLON (pad2 mi +:+ String COLON (pad2 s)))
  = [((h, mi, s), EmptyString);
     ((h, mi, s / 10), String (digit s) EmptyString)].
Proof.
  unfold valid_time. rewrite !andb_true_iff.
  intros (((((H1 & H2) & H3) & H4) & H5) & H6).
  unfold p_HMS.
  rewrite p_H_pad2 by lia. rewrite p_M_pad2 by lia.
  apply (p_S_pad2 (fun x => (h, mi, x))). lia.
Qed.

Lemma p_lit_match {B : Type} (c : ascii) (k : Z -> parser B) (r : string) :
  p_bind (p_lit c) k (String c r) = k (digit_val c) r.
Proof.
  apply p_bind_single. unfold p_lit, p_char.
  rewrite Ascii.eqb_refl. reflexivity.
Qed.

Lemma year_text_pad4 (y : Z) : 1000 <= y -> year_text y = pad4 y.
Proof.
  intros H. unfold year_text.
  rewrite !(proj2 (Z.ltb_ge _ _)) by lia. reflexivity.
Qed.

Lemma strftime_shape (t : datetime) :
  1000 <= year t ->
  strftime t =
  pad4 (year t) +:+ String DOT (pad2 (month t) +:+ String DOT (pad2 (day t)
    +:+ String SPACE (pad2 (hour t) +:+ String COLON (pad2 (minute t)
    +:+ String COLON (pad2 (second t)))))).
Proof. intros H. unfold strftime. rewrite (year_text_pad4 _ H). reflexivity. Qed.

Lemma strftime_length (t : datetime) :
  1000 <= year t -> String.length (strftime t) = 19%nat.
Proof. intros H. rewrite (strftime_shape _ H). reflexivity. Qed.

Lemma days_in_month_bound (y m : Z) :
  1 <= m <= 12 -> 28 <= days_in_month y m <= 31.
Proof.
  intros Hm. unfold days_in_month.
  destruct ((m =? 2) && is_leap y); [lia|].
  enum_range m ltac:(first [lia | vm_compute; split; discriminate]).
Qed.

(** Parsing the text of a time stamp gives the time stamp back, from
    year 1000 on. *)
Lemma strptime_strftime (t : datetime) :
  valid t = true -> 1000 <= year t -> strptime (strftime t) = Ok t.
Proof.
  intros Hv Hy. pose proof Hv as Hv'.
  unfold valid in Hv. apply andb_prop in Hv as [Hd Ht].
  pose proof Hd as Hd'. unfold valid_date, MINYEAR, MAXYEAR in Hd.
  rewrite !andb_true_iff in Hd.
  destruct Hd as (((((H1 & H2) & H3) & H4) & H5) & H6).
  pose proof (days_in_month_bound (year t) (month t) ltac:(lia)) as Hdim.
  unfold strptime, first_match. rewrite (strftime_shape _ Hy).
  unfold p_YmdHMS.
  rewrite p_Y_pad4 by lia. cbv beta.
  rewrite p_lit_match. cbv beta.
  rewrite p_m_pad2 by lia. cbv beta.
  rewrite p_d_pad2; [|lia|unfold pad2; rewrite append_cons; apply p_spaces_digit].
  cbv beta. unfold p_bind at 1. rewrite (p_HMS_format _ _ _ Ht).
  simpl. unfold make. rewrite Hd', Ht. simpl.
  destruct t; reflexivity.
Qed.

Lemma make_valid (y m d h mi s : Z) (t : datetime) :
  make y m d h mi s = Ok t -> valid t = true.
Proof.
  unfold make. destruct (valid_date y m d && valid_time h mi s) eqn:E;
    [|discriminate].
  intros [= <-]. exact E.
Qed.

(** A parsed time stamp is a well-formed date and time. *)
Lemma strptime_valid (s : string) (t : datetime) :
  strptime s = Ok t -> valid t = true.
Proof.
  unfold strptime.
  destruct (first_match p_YmdHMS s) as [[[[y m] d] [[h mi] sec]]|];
    [|discriminate].
  apply make_valid.
Qed.

End Roundtrip.

Section Years.

Lemma seconds_of_day_valid (t : datetime) :
  valid t = true -> 0 <= seconds_of_day t < 86400.
Proof.
  unfold valid, valid_time. rewrite !andb_true_iff.
  intros (_ & ((((G1 & G2) & G3) & G4) & G5) & G6).
  unfold seconds_of_day. lia.
Qed.

Lemma days_before_month_bound (y m : Z) :
  1 <= m <= 12 -> 0 <= days_before_month y m <= 335.
Proof.
  intros Hm. unfold days_before_month.
  assert (0 <= b2z ((2 <? m) && is_leap y) <= 1)
    by (destruct (_ && _); simpl; lia).
  assert (0 <= table DAYS_BEFORE_MONTH m <= 334); [|lia].
  clear H. enum_range m ltac:(first [lia | vm_compute; split; discriminate]).
Qed.

Lemma valid_date_fields (y m d : Z) :
  valid_date y m d = true ->
  1 <= y <= 9999 /\ 1 <= m <= 12 /\ 1 <= d <= days_in_month y m.
Proof.
  unfold valid_date, MINYEAR, MAXYEAR. rewrite !andb_true_iff. lia.
Qed.

Lemma ordinal_from_1000 (y m d : Z) :
  valid_date y m d = true -> 1000 <= y -> 364878 <= ymd2ord y m d.
Proof.
  intros Hv Hy. destruct (valid_date_fields _ _ _ Hv) as (_ & Hm & Hd).
  pose proof (days_before_month_bound y m Hm).
  assert (364877 <= days_before_year y); [|unfold ymd2ord; lia].
  destruct (Z.eq_dec y 1000) as [->|Hne]; [vm_compute; discriminate|].
  unfold days_before_year. cbv zeta.
  assert ((y - 1) / 100 <= (y - 1) / 4)
    by (apply Z.div_le_compat_l; lia).
  assert (0 <= (y - 1) / 400) by (apply Z.div_pos; lia).
  lia.
Qed.

Lemma ordinal_before_1000 (y m d : Z) :
  valid_date y m d = true -> y <= 999 -> ymd2ord y m d <= 364877.
Proof.
  intros Hv Hy. destruct (valid_date_fields _ _ _ Hv) as (Hy1 & Hm & Hd).
  pose proof (days_before_month_bound y m Hm).
  pose proof (days_in_month_bound y m Hm).
  destruct (Z.eq_dec y 999) as [->|Hne].
  - assert (days_before_month 999 m + days_in_month 999 m <= 365).
    { clear Hv Hd H H0.
      enum_range m ltac:(first [lia | vm_compute; discriminate]). }
    unfold ymd2ord.
    change (days_before_year 999) with 364512. lia.
  - unfold ymd2ord, days_before_year. cbv zeta.
    assert ((y - 1) / 4 < 250) by (apply Z.div_lt_upper_bound; lia).
    assert (0 <= (y - 1) / 100) by (apply Z.div_pos; lia).
    assert ((y - 1) / 400 < 3) by (apply Z.div_lt_upper_bound; lia).
    lia.
Qed.

(** A time stamp that is not before one of year 1000 or later is itself
    of year 1000 or later. *)
Lemma year_after (t0 t : datetime) :
  valid t0 = true -> valid t = true -> 1000 <= year t0 ->
  total_seconds t0 <= total_seconds t -> 1000 <= year t.
Proof.
  intros Hv0 Hv Hy Hle.
  pose proof (seconds_of_day_valid _ Hv0).
  pose proof (seconds_of_day_valid _ Hv).
  unfold valid in Hv0, Hv.
  apply andb_prop in Hv0 as [Hd0 _]. apply andb_prop in Hv as [Hd _].
  pose proof (ordinal_from_1000 _ _ _ Hd0 Hy).
  destruct (Z_lt_le_dec (year t) 1000) as [Hlt|]; [|assumption].
  pose proof (ordinal_before_1000 _ _ _ Hd ltac:(lia)).
  unfold total_seconds, toordinal in Hle. lia.
Qed.

End Years.

Section RowTransformer.

Lemma strip_prefix_ok (d : string) : strip_prefix d = Ok (cell_value d).
Proof.
  unfold strip_prefix, cell_value, getitem_last.
  destruct (last (split COLON d)) eqn:E; [reflexivity|].
  apply last_None in E. by apply split_not_nil in E.
Qed.

Lemma mapM_strip_prefix (line : list string) :
  mapM strip_prefix line = Ok (map cell_value line).
Proof.
  induction line as [|c line IH]; simpl; [reflexivity|].
  rewrite strip_prefix_ok, IH. reflexivity.
Qed.

Lemma for_enumerate_cons {A St : Type} (f : St -> nat -> A -> result St)
    (i : nat) (x : A) (xs : list A) (acc : St) :
  for_enumerate f i (x :: xs) acc
  = acc' ← f acc i x; for_enumerate f (S i) xs acc'.
Proof. reflexivity. Qed.

Variable il : nat.
Variable data : list string.

Lemma store_header_first (h v : string) (csv_list : list row) :
  data !! 0%nat = Some v ->
  store_header il data csv_list 0 h = Ok (csv_list ++ [{[ h := v ]}]).
Proof. intros Hv. unfold store_header, getitem. rewrite Hv. reflexivity. Qed.

Lemma store_header_next (h v : string) (ih : nat) (csv_list : list row) (d : row) :
  data !! ih = Some v -> ih <> 0%nat -> csv_list !! il = Some d ->
  store_header il data csv_list ih h = Ok (<[ il := <[ h := v ]> d ]> csv_list).
Proof.
  intros Hv Hih Hd. unfold store_header, getitem. rewrite Hv, Hd.
  destruct ih; [done|reflexivity].
Qed.

Lemma store_header_missing (h : string) (ih : nat) (csv_list : list row) :
  data !! ih = None -> store_header il data csv_list ih h = Raise IndexError.
Proof. intros Hv. unfold store_header, getitem. rewrite Hv. reflexivity. Qed.

Lemma updated_last (csv_list : list row) (d d' : row) :
  length csv_list = il ->
  (csv_list ++ [d]) !! il = Some d
  /\ <[ il := d' ]> (csv_list ++ [d]) = csv_list ++ [d'].
Proof.
  intros <-. split.
  - apply list_lookup_middle. reflexivity.
  - rewrite insert_app_r_alt, Nat.sub_diag by lia. reflexivity.
Qed.

(** After the first header the remaining ones update the dict just
    appended. *)
Lemma store_rest_ok (hs : list string) (ih : nat) (csv_list : list row) (d : row) :
  length csv_list = il -> (0 < ih)%nat ->
  (ih + length hs <= length data)%nat ->
  for_enumerate (store_header il data) ih hs (csv_list ++ [d])
  = Ok (csv_list ++ [foldl set_item d (zip hs (drop ih data))]).
Proof.
  intros Hlen. revert ih d.
  induction hs as [|h hs IH]; intros ih d Hih Hdata.
  - reflexivity.
  - simpl in Hdata.
    destruct (lookup_lt_is_Some_2 data ih ltac:(lia)) as [v Hv].
    destruct (updated_last csv_list d (<[ h := v ]> d) Hlen) as [Hl Hi].
    rewrite for_enumerate_cons.
    rewrite (store_header_next h v ih _ d Hv ltac:(lia) Hl), Hi.
    simpl. rewrite IH by lia.
    rewrite (drop_S data v ih Hv). reflexivity.
Qed.

Lemma store_headers_ok (hdrs : list string) (csv_list : list row) :
  length csv_list = il -> hdrs <> [] ->
  (length hdrs <= length data)%nat ->
  for_enumerate (store_header il data) 0 hdrs csv_list
  = Ok (csv_list ++ [row_of hdrs data]).
Proof.
  intros Hlen Hne Hdata. destruct hdrs as [|h hs]; [done|]. simpl in Hdata.
  destruct (lookup_lt_is_Some_2 data 0 ltac:(lia)) as [v Hv].
  rewrite for_enumerate_cons, (store_header_first h v _ Hv).
  simpl. rewrite store_rest_ok by lia.
  unfold row_of. rewrite <- (drop_0 data) at 2.
  rewrite (drop_S data v 0 Hv). reflexivity.
Qed.

Lemma store_rest_short (hs : list string) (ih : nat) (csv_list : list row) (d : row) :
  length csv_list = il -> (0 < ih <= length data)%nat ->
  (length data < ih + length hs)%nat ->
  for_enumerate (store_header il data) ih hs (csv_list ++ [d])
  = Raise IndexError.
Proof.
  intros Hlen. revert ih d.
  induction hs as [|h hs IH]; intros ih d Hih Hdata; simpl in Hdata.
  - lia.
  - rewrite for_enumerate_cons.
    destruct (data !! ih) as [v|] eqn:Hv.
    + destruct (updated_last csv_list d (<[ h := v ]> d) Hlen) as [Hl Hi].
      rewrite (store_header_next h v ih _ d Hv ltac:(lia) Hl), Hi. simpl.
      apply lookup_lt_Some in Hv. apply IH; lia.
    + rewrite (store_header_missing h ih _ Hv). reflexivity.
Qed.

Lemma store_headers_short (hdrs : list string) (csv_list : list row) :
  length csv_list = il -> (0 < length data < length hdrs)%nat ->
  for_enumerate (store_header il data) 0 hdrs csv_list = Raise IndexError.
Proof.
  intros Hlen Hdata. destruct hdrs as [|h hs]; simpl in Hdata; [lia|].
  destruct (lookup_lt_is_Some_2 data 0 ltac:(lia)) as [v Hv].
  rewrite for_enumerate_cons, (store_header_first h v _ Hv). simpl.
  apply store_rest_short; lia.
Qed.

End RowTransformer.

Section Lines.

Lemma bind_ok {A B : Type} (a : A) (k : A -> result B) : (Ok a ≫= k) = k a.
Proof. reflexivity. Qed.

Lemma days_before_year_nonneg (y : Z) : 1 <= y -> 0 <= days_before_year y.
Proof.
  intros Hy. unfold days_before_year. cbv zeta.
  assert ((y - 1) / 100 <= (y - 1) / 4)
    by (apply Z.div_le_compat_l; lia).
  assert (0 <= (y - 1) / 400) by (apply Z.div_pos; lia).
  lia.
Qed.

Lemma total_seconds_valid (t : datetime) :
  valid t = true -> 86400 <= total_seconds t.
Proof.
  unfold valid, valid_date, valid_time, MINYEAR.
  rewrite !andb_true_iff.
  intros ((((((H1 & H2) & H3) & H4) & H5) & H6)
          & ((((G1 & G2) & G3) & G4) & G5) & G6).
  unfold total_seconds, toordinal, ymd2ord, seconds_of_day.
  pose proof (days_before_year_nonneg (year t) ltac:(lia)).
  assert (0 <= days_before_month (year t) (month t)).
  { unfold days_before_month.
    assert (0 <= b2z ((2 <? month t) && is_leap (year t)))
      by (destruct (_ && _); simpl; lia).
    assert (0 <= table DAYS_BEFORE_MONTH (month t)); [|lia].
    assert (Hm : 1 <= month t <= 12) by lia.
    generalize (month t) Hm. clear. intros m Hm.
    enum_range m ltac:(first [lia | vm_compute; discriminate]). }
  lia.
Qed.

Variable t0 : datetime.
Hypothesis t0_valid : valid t0 = true.

Lemma stamp_exists (il : nat) :
  total_seconds t0 + 2 * Z.of_nat il <= LAST_SECOND ->
  exists t, add t0 (Z.of_nat il * 2) = Ok t.
Proof.
  intros Hr. pose proof (total_seconds_valid _ t0_valid).
  destruct (add t0 (Z.of_nat il * 2)) as [t|e] eqn:E; [eauto|].
  assert (Hok : is_ok (add t0 (Z.of_nat il * 2)) = true).
  { apply add_is_ok. unfold LAST_SECOND in Hr. lia. }
  rewrite E in Hok. discriminate.
Qed.

Lemma row_data_ok (il : nat) (line : list string) :
  total_seconds t0 + 2 * Z.of_nat il <= LAST_SECOND ->
  row_data t0 il line = Ok (map cell_value line ++ [stamp_text t0 il]).
Proof.
  intros Hr. pose proof (total_seconds_valid _ t0_valid).
  destruct (stamp_exists il Hr) as [t Ht].
  unfold row_data, stamp_text.
  rewrite mapM_strip_prefix, bind_ok, timedelta_seconds, bind_ok, Ht;
    [reflexivity|].
  unfold LAST_SECOND, MAXORDINAL in Hr.
  apply Z.lt_succ_r, Z.div_lt_upper_bound; lia.
Qed.

Variable hdrs : list string.
Hypothesis hdrs_nonempty : hdrs <> [].

Lemma store_line_ok (csv_list : list row) (line : list string) :
  total_seconds t0 + 2 * Z.of_nat (length csv_list) <= LAST_SECOND ->
  (length hdrs <= S (length line))%nat ->
  store_line hdrs t0 csv_list (length csv_list) line
  = Ok (csv_list ++ [expected_row hdrs t0 (length csv_list) line]).
Proof.
  intros Hr Hlen. unfold store_line. rewrite row_data_ok by done. simpl.
  apply store_headers_ok; [done|done|].
  rewrite length_app, length_map. simpl. lia.
Qed.

Lemma store_line_short (csv_list : list row) (line : list string) :
  total_seconds t0 + 2 * Z.of_nat (length csv_list) <= LAST_SECOND ->
  (S (length line) < length hdrs)%nat ->
  store_line hdrs t0 csv_list (length csv_list) line = Raise IndexError.
Proof.
  intros Hr Hlen. unfold store_line. rewrite row_data_ok by done. simpl.
  apply store_headers_short; [done|].
  rewrite length_app, length_map. simpl. lia.
Qed.

(** Lines with enough cells: one dict per line, in order. *)
Lemma transform_from (lines : list (list string)) (acc : list row) :
  Forall (fun line => (length hdrs <= S (length line))%nat) lines ->
  total_seconds t0 + 2 * (Z.of_nat (length acc + length lines) - 1) <= LAST_SECOND ->
  for_enumerate (store_line hdrs t0) (length acc) lines acc
  = Ok (acc ++ imap (fun i => expected_row hdrs t0 (length acc + i)) lines).
Proof.
  revert acc. induction lines as [|line lines IH]; intros acc Hall Hr.
  - simpl. rewrite app_nil_r. reflexivity.
  - apply Forall_cons in Hall as [Hline Hall]. simpl in Hr.
    rewrite for_enumerate_cons, store_line_ok by (done || lia). simpl.
    replace (S (length acc))
      with (length (acc ++ [expected_row hdrs t0 (length acc) line]))
      by (rewrite length_app; simpl; lia).
    rewrite IH; [|done|rewrite length_app; simpl; lia].
    rewrite <- app_assoc. simpl. rewrite Nat.add_0_r. do 3 f_equal.
    apply imap_ext. intros i x _. simpl.
    rewrite length_app. simpl. f_equal. lia.
Qed.

Lemma transform_lines_ok (lines : list (list string)) :
  Forall (fun line => (length hdrs <= S (length line))%nat) lines ->
  total_seconds t0 + 2 * (Z.of_nat (length lines) - 1) <= LAST_SECOND ->
  transform_lines lines hdrs t0 = Ok (imap (expected_row hdrs t0) lines).
Proof.
  intros Hall Hr. unfold transform_lines.
  apply (transform_from lines [] Hall Hr).
Qed.

End Lines.

Section Timestamps.

Lemma expected_row_date (t0 : datetime) (il : nat) (line : list string) :
  length line = 4%nat ->
  expected_row headers t0 il line !! DATE_HEADER = Some (stamp_text t0 il).
Proof.
  intros Hlen.
  destruct line as [|c0 [|c1 [|c2 [|c3 [|c4 line]]]]]; try discriminate.
  unfold expected_row, row_of, headers, set_item. simpl.
  apply lookup_insert_eq.
Qed.

Lemma headers_nonempty : headers <> [].
Proof. discriminate. Qed.

End Timestamps.

(** C1 (synthesised time stamps, as amended): in a valid raw file (four
    cells in every data row, start time [t0], last row not after the year
    9999) the row transformer returns one row per data line, and the final
    field of row [N], the column [Date_Of_Measurement(datetime)], is the
    text that [strftime] gives for the instant [2 * N] seconds after [t0].
    When [t0] is of year 1000 or later this text has the nineteen
    characters of [YYYY.MM.DD HH:MM:SS] and is read back by the same
    format. *)
Theorem row_timestamp (content : string) (records : list (list string))
    (t0 : datetime) :
  valid t0 = true ->
  read_all (open_lines content) = Ok records ->
  Forall (fun line => length line = 4%nat) (drop 1 records) ->
  total_seconds t0 + 2 * (Z.of_nat (length (drop 1 records)) - 1) <= LAST_SECOND ->
  exists rows,
    create_writable_list content headers t0 = Ok rows
    /\ length rows = length (drop 1 records)
    /\ forall N, (N < length rows)%nat ->
       exists r t,
         rows !! N = Some r
         /\ add t0 (2 * Z.of_nat N) = Ok t
         /\ total_seconds t = total_seconds t0 + 2 * Z.of_nat N
         /\ r !! DATE_HEADER = Some (strftime t)
         /\ (1000 <= year t0 ->
             1000 <= year t
             /\ String.length (strftime t) = 19%nat
             /\ strptime (strftime t) = Ok t).
Proof.
  intros Hvalid Hread Hcells Hrange.
  set (lines := drop 1 records) in *.
  exists (imap (expected_row headers t0) lines).
  split; [|split].
  - unfold create_writable_list. rewrite Hread, bind_ok. fold lines.
    apply transform_lines_ok; [done|discriminate| |done].
    eapply Forall_impl; [exact Hcells|]. simpl. intros line ->. lia.
  - apply length_imap.
  - intros N HN. rewrite length_imap in HN.
    destruct (lookup_lt_is_Some_2 lines N HN) as [line Hline].
    assert (Hlen : length line = 4%nat)
      by (exact (proj1 (Forall_lookup _ _) Hcells N line Hline)).
    destruct (stamp_exists t0 Hvalid N ltac:(lia)) as [t Ht].
    destruct (add_spec _ _ _ Ht) as [Hsec Hvt].
    exists (expected_row headers t0 N line), t.
    rewrite list_lookup_imap, Hline. simpl.
    replace (2 * Z.of_nat N) with (Z.of_nat N * 2) by lia.
    split; [done|]. split; [done|]. split; [lia|]. split.
    + rewrite (expected_row_date _ _ _ Hlen). unfold stamp_text.
      rewrite Ht. reflexivity.
    + intros Hyear.
      assert (Hy : 1000 <= year t)
        by (apply (year_after t0 t Hvalid Hvt Hyear); lia).
      split; [exact Hy|]. split.
      * exact (strftime_length t Hy).
      * exact (strptime_strftime t Hvt Hy).
Qed.

Lemma row_timestamp_witness :
  exists rows,
    create_writable_list sample_file headers
      (mk_datetime 2024 1 15 23 59 59) = Ok rows
    /\ length rows = 2%nat
    /\ forall N, (N < length rows)%nat ->
       exists r t,
         rows !! N = Some r
         /\ add (mk_datetime 2024 1 15 23 59 59) (2 * Z.of_nat N) = Ok t
         /\ total_seconds t
            = total_seconds (mk_datetime 2024 1 15 23 59 59) + 2 * Z.of_nat N
         /\ r !! DATE_HEADER = Some (strftime t)
         /\ String.length (strftime t) = 19%nat
         /\ strptime (strftime t) = Ok t.
Proof.
  destruct (row_timestamp sample_file
              [ ["Device XYZ Export 2024.01.15 23:59:59 end"];
                ["a:400"; "b:22.5"; "c:410"; "d:395"];
                ["a:401"; "b:22.6"; "c:410"; "d:395"] ]
              (mk_datetime 2024 1 15 23 59 59))
    as (rows & Hrows & Hlen & Hall).
  - reflexivity.
  - vm_compute. reflexivity.
  - repeat constructor.
  - vm_compute. discriminate.
  - exists rows. split; [exact Hrows|]. split; [exact Hlen|].
    intros N HN. destruct (Hall N HN) as (r & t & H1 & H2 & H3 & H4 & H5).
    destruct (H5 ltac:(simpl; lia)) as (_ & H6 & H7).
    exists r, t. repeat split; assumption.
Defined.

(** C1, the claim as first stated, fails below year 1000: the title date
    [0999.01.15 09:00:00] is accepted, and the time stamp of row 0 is
    written [999.01.15 09:00:00], eighteen characters that are not of the
    form [YYYY.MM.DD HH:MM:SS] and that the format does not read back. *)
Lemma early_year_unpadded :
  get_first_line_info early_file
  = Ok ("Device XYZ Export 0999.01.15 09:00:00 end", "0999.01.15 09:00:00")
  /\ strptime "0999.01.15 09:00:00" = Ok (mk_datetime 999 1 15 9 0 0)
  /\ (exists r,
        create_writable_list early_file headers (mk_datetime 999 1 15 9 0 0)
        = Ok [r]
        /\ r !! DATE_HEADER = Some "999.01.15 09:00:00")
  /\ String.length "999.01.15 09:00:00" <> 19%nat
  /\ strptime "999.01.15 09:00:00" = Raise ValueError.
Proof.
  split; [vm_compute; reflexivity|]. split; [vm_compute; reflexivity|].
  split.
  - eexists. split; [vm_compute; reflexivity|]. vm_compute. reflexivity.
  - split; [discriminate|vm_compute; reflexivity].
Qed.

(** C7 (cell de-prefixing): for every prefix and every value without a
    colon, the cell [prefix:value] is transformed into [value] stripped of
    its surrounding whitespace. *)
Theorem strip_prefix_roundtrip (prefix value : string) :
  contains COLON value = false ->
  strip_prefix (prefix +:+ String COLON value) = Ok (strip value).
Proof.
  intros Hv. unfold strip_prefix, getitem_last.
  rewrite last_split_app, (split_no_sep _ _ Hv). reflexivity.
Qed.

Lemma strip_prefix_roundtrip_witness :
  contains COLON " 22.5 " = false /\
  strip_prefix ("temp:inner:" +:+ String COLON " 22.5 ") = Ok "22.5".
Proof.
  split; [reflexivity|].
  exact (strip_prefix_roundtrip "temp:inner:" " 22.5 " eq_refl).
Defined.

Section Misaligned.

Lemma for_enumerate_app {A St : Type} (f : St -> nat -> A -> result St)
    (l1 l2 : list A) (i : nat) (acc : St) :
  for_enumerate f i (l1 ++ l2) acc
  = acc' ← for_enumerate f i l1 acc;
    for_enumerate f (i + length l1) l2 acc'.
Proof.
  revert i acc. induction l1 as [|x l1 IH]; intros i acc; simpl.
  - rewrite Nat.add_0_r. reflexivity.
  - destruct (f acc i x) as [acc'|e]; simpl; [|reflexivity].
    rewrite IH. replace (S i + length l1)%nat with (i + S (length l1))%nat by lia.
    reflexivity.
Qed.

(** With five cells or more the columns take the first five values. *)
Lemma expected_row_columns (t0 : datetime) (il : nat) (line : list string)
    (i : nat) (h c : string) :
  (4 < length line)%nat ->
  headers !! i = Some h -> line !! i = Some c ->
  expected_row headers t0 il line !! h = Some (cell_value c).
Proof.
  intros Hlen Hh Hc.
  destruct line as [|c0 [|c1 [|c2 [|c3 [|c4 line]]]]]; simpl in Hlen; try lia.
  unfold expected_row, row_of, headers, set_item in *. simpl.
  do 5 (destruct i as [|i]; [simpl in Hh, Hc; simplify_eq; by simplify_map_eq|]).
  discriminate.
Qed.

End Misaligned.

(** C3 as the code has it (no column-count validation): when every data
    row has at least four cells the row transformer completes, and a row
    with more than four cells is silently misaligned, its columns taking
    the first five cell values, so that [Date_Of_Measurement(datetime)]
    holds the fifth cell and not the time stamp; a row with fewer than four
    cells makes the row transformer raise [IndexError]. *)
Theorem column_count_unchecked (t0 : datetime) (lines : list (list string)) :
  valid t0 = true ->
  total_seconds t0 + 2 * (Z.of_nat (length lines) - 1) <= LAST_SECOND ->
  (Forall (fun line => (4 <= length line)%nat) lines ->
   exists rows,
     transform_lines lines headers t0 = Ok rows
     /\ length rows = length lines
     /\ forall N line, lines !! N = Some line -> (4 < length line)%nat ->
        exists r, rows !! N = Some r
          /\ forall i h c, headers !! i = Some h -> line !! i = Some c ->
             r !! h = Some (cell_value c))
  /\ (forall before line after,
        lines = before ++ line :: after ->
        Forall (fun line => (4 <= length line)%nat) before ->
        (length line < 4)%nat ->
        transform_lines lines headers t0 = Raise IndexError).
Proof.
  intros Hvalid Hrange. split.
  - intros Hall. exists (imap (expected_row headers t0) lines).
    split; [|split].
    + apply transform_lines_ok; [done|discriminate| |done].
      eapply Forall_impl; [exact Hall|]. simpl. lia.
    + apply length_imap.
    + intros N line Hline Hlen.
      exists (expected_row headers t0 N line).
      rewrite list_lookup_imap, Hline. split; [reflexivity|].
      intros i h c. by apply expected_row_columns.
  - intros before line after -> Hall Hlen.
    rewrite length_app in Hrange. simpl in Hrange.
    unfold transform_lines. rewrite for_enumerate_app.
    change (for_enumerate (store_line headers t0) 0 before [])
      with (transform_lines before headers t0).
    rewrite (transform_lines_ok t0 Hvalid headers headers_nonempty before);
      [|eapply Forall_impl; [exact Hall|]; simpl; lia|lia].
    rewrite bind_ok, for_enumerate_cons. simpl.
    replace (length before)
      with (length (imap (expected_row headers t0) before))
      by apply length_imap.
    rewrite store_line_short; [reflexivity|done| |simpl; lia].
    rewrite length_imap. lia.
Qed.

Lemma column_count_unchecked_witness :
  (exists rows,
     transform_lines [["a:1"; "b:2"; "c:3"; "d:4"; "e:5"; "f:6"]] headers
       (mk_datetime 2024 1 15 9 0 0) = Ok rows
     /\ length rows = 1%nat
     /\ forall N line,
        [["a:1"; "b:2"; "c:3"; "d:4"; "e:5"; "f:6"]] !! N = Some line ->
        (4 < length line)%nat ->
        exists r, rows !! N = Some r
          /\ forall i h c, headers !! i = Some h -> line !! i = Some c ->
             r !! h = Some (cell_value c))
  /\ transform_lines [["a:1"; "b:2"; "c:3"; "d:4"]; ["a:1"; "b:2"]] headers
       (mk_datetime 2024 1 15 9 0 0) = Raise IndexError.
Proof.
  split.
  - apply (proj1 (column_count_unchecked (mk_datetime 2024 1 15 9 0 0)
                    [["a:1"; "b:2"; "c:3"; "d:4"; "e:5"; "f:6"]]
                    eq_refl ltac:(vm_compute; discriminate))).
    repeat constructor; simpl; lia.
  - apply (proj2 (column_count_unchecked (mk_datetime 2024 1 15 9 0 0)
                    [["a:1"; "b:2"; "c:3"; "d:4"]; ["a:1"; "b:2"]]
                    eq_refl ltac:(vm_compute; discriminate))
             [["a:1"; "b:2"; "c:3"; "d:4"]] ["a:1"; "b:2"] []).
    + reflexivity.
    + repeat constructor; simpl; lia.
    + simpl; lia.
Defined.

(** C3 as stated fails: a data row of three cells does not complete, the
    row transformer raises [IndexError]. *)
Lemma short_row_raises :
  length ["a:1"; "b:2"; "c:3"] <> 4%nat
  /\ transform_lines [["a:1"; "b:2"; "c:3"]] headers
       (mk_datetime 2024 1 15 9 0 0) = Raise IndexError
  /\ create_writable_list
       ("Device XYZ Export 2024.01.15 09:00:00 end" +:+ String LF "a:1,b:2,c:3")
       headers (mk_datetime 2024 1 15 9 0 0) = Raise IndexError.
Proof. split; [discriminate|split; vm_compute; reflexivity]. Qed.

(** ** The rows the transformer returns, and the file written from them *)

Section Returned.

Lemma row_data_inv (t0 : datetime) (il : nat) (line data : list string) :
  row_data t0 il line = Ok data ->
  is_ok (add t0 (Z.of_nat il * 2)) = true
  /\ data = map cell_value line ++ [stamp_text t0 il].
Proof.
  unfold row_data. rewrite mapM_strip_prefix, bind_ok.
  unfold timedelta. cbv zeta.
  replace (0 * 3600 + 0 * 60 + Z.of_nat il * 2) with (Z.of_nat il * 2) by lia.
  destruct (_ && _); [|discriminate]. rewrite bind_ok.
  unfold stamp_text. destruct (add t0 _) as [t|]; [|discriminate].
  rewrite bind_ok. intros [= <-]. split; reflexivity.
Qed.

Variable hdrs : list string.
Hypothesis hdrs_nonempty : hdrs <> [].
Variable t0 : datetime.

Lemma store_line_inv (csv_list : list row) (line : list string)
    (rows : list row) :
  store_line hdrs t0 csv_list (length csv_list) line = Ok rows ->
  is_ok (add t0 (Z.of_nat (length csv_list) * 2)) = true
  /\ (length hdrs <= S (length line))%nat
  /\ rows = csv_list ++ [expected_row hdrs t0 (length csv_list) line].
Proof.
  intros H. unfold store_line in H.
  destruct (row_data t0 (length csv_list) line) as [data|] eqn:E;
    [|discriminate].
  rewrite bind_ok in H. destruct (row_data_inv _ _ _ _ E) as [Hadd ->].
  split; [exact Hadd|].
  destruct (le_lt_dec (length hdrs) (S (length line))) as [Hle|Hlt].
  - split; [exact Hle|].
    rewrite store_headers_ok in H;
      [ injection H as <-; reflexivity | reflexivity | exact hdrs_nonempty | ].
    rewrite length_app, length_map. simpl. lia.
  - rewrite store_headers_short in H; [discriminate|reflexivity|].
    rewrite length_app, length_map. simpl. lia.
Qed.

Lemma transform_inv (lines : list (list string)) :
  forall (acc rows : list row),
  for_enumerate (store_line hdrs t0) (length acc) lines acc = Ok rows ->
  rows = acc ++ imap (fun i => expected_row hdrs t0 (length acc + i)) lines
  /\ Forall (fun line => (length hdrs <= S (length line))%nat) lines
  /\ forall il, (il < length lines)%nat ->
     is_ok (add t0 (Z.of_nat (length acc + il) * 2)) = true.
Proof.
  induction lines as [|line lines IH]; intros acc rows H.
  - injection H as <-. simpl. rewrite app_nil_r.
    split; [reflexivity|]. split; [constructor|]. intros il Hil. simpl in Hil. lia.
  - rewrite for_enumerate_cons in H.
    destruct (store_line hdrs t0 acc (length acc) line) as [acc'|] eqn:E;
      [|discriminate].
    rewrite bind_ok in H.
    destruct (store_line_inv _ _ _ E) as (Hadd & Hlen & ->).
    replace (S (length acc))
      with (length (acc ++ [expected_row hdrs t0 (length acc) line])) in H
      by (rewrite length_app; simpl; lia).
    destruct (IH _ _ H) as (-> & Hall & Hadds).
    split; [|split].
    + rewrite <- app_assoc. simpl. rewrite Nat.add_0_r. do 2 f_equal.
      apply imap_ext. intros i x _. simpl.
      rewrite length_app. simpl. f_equal. lia.
    + constructor; assumption.
    + intros [|il] Hil.
      * rewrite Nat.add_0_r. exact Hadd.
      * simpl in Hil. specialize (Hadds il ltac:(lia)).
        rewrite length_app in Hadds. simpl in Hadds.
        replace (length acc + S il)%nat with (length acc + 1 + il)%nat by lia.
        exact Hadds.
Qed.

End Returned.

Section Written.

Lemma set_items_other (l : list (string * string)) (d : row) (h : string) :
  h ∉ map fst l -> foldl set_item d l !! h = d !! h.
Proof.
  revert d; induction l as [|[k v] l IH]; intros d Hh; [reflexivity|].
  simpl in Hh. apply not_elem_of_cons in Hh as [Hne Hh].
  simpl. rewrite IH by exact Hh. unfold set_item. simpl.
  apply lookup_insert_ne. congruence.
Qed.

Lemma set_items_dom (l : list (string * string)) (d : row) :
  dom (foldl set_item d l) = dom d ∪ list_to_set (map fst l).
Proof.
  revert d; induction l as [|[k v] l IH]; intros d; simpl.
  - symmetry. apply union_empty_r_L.
  - rewrite IH. unfold set_item. simpl. rewrite dom_insert_L.
    rewrite (union_comm_L {[k]} (dom d)), <- union_assoc_L. reflexivity.
Qed.

Lemma row_of_dom (hdrs data : list string) :
  (length hdrs <= length data)%nat ->
  dom (row_of hdrs data) = list_to_set hdrs.
Proof.
  intros Hlen. unfold row_of. rewrite set_items_dom, dom_empty_L.
  change (map fst (zip hdrs data)) with ((zip hdrs data).*1).
  rewrite fst_zip by exact Hlen. apply union_empty_l_L.
Qed.

Lemma set_items_lookup (hs ds : list string) :
  forall (d : row) (i : nat) (h v : string),
  NoDup hs -> hs !! i = Some h -> ds !! i = Some v ->
  foldl set_item d (zip hs ds) !! h = Some v.
Proof.
  revert ds; induction hs as [|h0 hs IH]; intros ds d i h v Hnd Hh Hv.
  - destruct i; discriminate.
  - apply NoDup_cons in Hnd as [Hh0 Hnd].
    destruct ds as [|v0 ds]; [destruct i; discriminate|].
    destruct i as [|i]; simpl in *.
    + injection Hh as ->. injection Hv as ->.
      rewrite set_items_other.
      * unfold set_item. simpl. apply lookup_insert_eq.
      * change (map fst (zip hs ds)) with ((zip hs ds).*1).
        intros Hin. apply Hh0.
        apply list_elem_of_fmap in Hin as ([a b] & -> & Hin). simpl.
        apply elem_of_zip_l in Hin. exact Hin.
    + eapply IH; eassumption.
Qed.

Lemma dict_to_list_row_of (hdrs data : list string) :
  NoDup hdrs -> (length hdrs <= length data)%nat ->
  dict_to_list hdrs (row_of hdrs data) = Ok (take (length hdrs) data).
Proof.
  intros Hnd Hlen. unfold dict_to_list.
  rewrite bool_decide_true by (rewrite row_of_dom by exact Hlen; reflexivity).
  f_equal. apply list_eq. intros i.
  rewrite list_lookup_fmap.
  destruct (hdrs !! i) as [h|] eqn:Eh; simpl.
  - pose proof (lookup_lt_Some _ _ _ Eh) as Hi.
    rewrite lookup_take_lt by exact Hi.
    destruct (lookup_lt_is_Some_2 data i ltac:(lia)) as [v Ev].
    rewrite Ev. unfold row_of.
    rewrite (set_items_lookup hdrs data ∅ i h v Hnd Eh Ev). reflexivity.
  - apply lookup_ge_None in Eh. symmetry. apply lookup_take_ge. exact Eh.
Qed.

Lemma mapM_cons {A B : Type} (f : A -> result B) (x : A) (xs : list A) :
  mapM f (x :: xs) = y ← f x; ys ← mapM f xs; Ok (y :: ys).
Proof. reflexivity. Qed.

Lemma map_imap {A B C : Type} (g : B -> C) (l : list A) :
  forall f : nat -> A -> B,
  map g (imap f l) = imap (fun i x => g (f i x)) l.
Proof.
  induction l as [|x l IH]; intros f; [reflexivity|].
  rewrite !imap_cons. simpl. f_equal. apply IH.
Qed.

Lemma writeheader_text : writerow headers = HEADER_ROW.
Proof. vm_compute. reflexivity. Qed.

Lemma headers_nodup : NoDup headers.
Proof.
  assert (H : bool_decide (NoDup headers) = true) by (vm_compute; reflexivity).
  apply bool_decide_eq_true in H. exact H.
Qed.

Lemma written_records (t0 : datetime) (lines : list (list string)) (n : nat) :
  Forall (fun line => (length headers <= S (length line))%nat) lines ->
  mapM (dict_to_list headers)
    (imap (fun i => expected_row headers t0 (n + i)) lines)
  = Ok (imap (fun i => written_record t0 (n + i)) lines).
Proof.
  revert n; induction lines as [|line lines IH]; intros n Hall;
    [reflexivity|].
  apply Forall_cons in Hall as [Hline Hall].
  rewrite !imap_cons, mapM_cons. cbv beta.
  change (expected_row headers t0 (n + 0) line)
    with (row_of headers (map cell_value line ++ [stamp_text t0 (n + 0)])).
  rewrite (dict_to_list_row_of headers);
    [|exact headers_nodup
     |rewrite length_app, length_map; simpl in Hline |- *; lia].
  rewrite bind_ok.
  rewrite (imap_ext _ (fun i => expected_row headers t0 (S n + i)))
    by (intros i x _; simpl; do 2 f_equal; lia).
  rewrite IH by exact Hall. rewrite bind_ok.
  f_equal. f_equal.
  apply imap_ext. intros i x _. simpl. f_equal. lia.
Qed.

Lemma written_rows (t0 : datetime) (lines : list (list string))
    (rows : list row) :
  transform_lines lines headers t0 = Ok rows ->
  write_csv headers rows
  = Ok (HEADER_ROW
        +:+ String.concat EmptyString
              (imap (fun il line => writerow (written_record t0 il line))
                 lines)).
Proof.
  intros H. unfold transform_lines in H.
  destruct (transform_inv headers headers_nonempty t0 lines [] rows H)
    as (-> & Hall & _).
  change ([] ++ imap (fun i => expected_row headers t0 (length [] + i)) lines)
    with (imap (fun i => expected_row headers t0 (0 + i)) lines).
  unfold write_csv.
  rewrite (written_records t0 lines 0 Hall). rewrite bind_ok.
  rewrite writeheader_text. do 3 f_equal.
  apply map_imap.
Qed.

(** The writer accepts whatever the row transformer returns. *)
Lemma rows_written (content : string) (t0 : datetime) (csv_list : list row) :
  create_writable_list content headers t0 = Ok csv_list ->
  exists text, write_csv headers csv_list = Ok text.
Proof.
  unfold create_writable_list.
  destruct (read_all (open_lines content)) as [records|]; [|discriminate].
  rewrite bind_ok. intros H. rewrite (written_rows _ _ _ H). eauto.
Qed.

End Written.

Section Conversion.

Lemma write_csv_nil : write_csv headers [] = Ok HEADER_ROW.
Proof. vm_compute. reflexivity. Qed.

(** The text written depends on the title only through the date and
    time read from it. *)
Lemma convert_eq (content title date : string) (records : list (list string)) :
  get_first_line_info content = Ok (title, date) ->
  read_all (open_lines content) = Ok records ->
  convert content = convert_rows date (drop 1 records).
Proof.
  intros Hinfo Hread. unfold convert, convert_rows, create_writable_list.
  rewrite Hinfo, bind_ok.
  destruct (strptime date) as [t0|e]; [|reflexivity].
  rewrite !bind_ok, Hread, bind_ok. reflexivity.
Qed.

(** One turn of the main loop fails when [convert] does, or when the
    output file cannot be opened; otherwise it writes [convert content]
    under the output name, whatever was there. *)
Lemma convert_one_spec (w : world) (csv_file content : string) :
  match convert content with
  | Ok text =>
      match write_errors w !! output_name csv_file with
      | None =>
          exists w', convert_one w (csv_file, content) = Ok w'
            /\ converted w' = <[ output_name csv_file := text ]> (converted w)
            /\ measurements w' = measurements w
            /\ configs w' = configs w
            /\ write_errors w' = write_errors w
      | Some e => convert_one w (csv_file, content) = Raise e
      end
  | Raise e => convert_one w (csv_file, content) = Raise e
  end.
Proof.
  unfold convert, convert_one.
  destruct (get_first_line_info content) as [[title date]|e]; [|reflexivity].
  rewrite !bind_ok.
  destruct (strptime date) as [t0|e]; [|reflexivity].
  rewrite !bind_ok.
  destruct (create_writable_list content headers t0) as [csv_list|e] eqn:Er;
    [|reflexivity].
  rewrite !bind_ok.
  destruct (rows_written _ _ _ Er) as [text ->].
  unfold open_write, output_name. cbn [write_errors print].
  destruct (write_errors w !! ("converted_" +:+ csv_file)); [reflexivity|].
  rewrite !bind_ok. eexists. split; [reflexivity|]. simpl. done.
Qed.

End Conversion.

(** C9 (title-only file): when the raw file holds one record, the title,
    the row transformer returns the empty list and the text to write is
    the fixed header row and nothing else; this is what the converted file
    holds afterwards, unless it cannot be opened for writing, in which case
    the exception of [open] ends the turn of the loop. *)
Theorem title_only_file (content title date csv_file : string)
    (record : list string) (t0 : datetime) (w : world) :
  read_all (open_lines content) = Ok [record] ->
  get_first_line_info content = Ok (title, date) ->
  strptime date = Ok t0 ->
  create_writable_list content headers t0 = Ok []
  /\ convert content = Ok HEADER_ROW
  /\ match write_errors w !! output_name csv_file with
     | None =>
         exists w', convert_one w (csv_file, content) = Ok w'
           /\ converted w' !! output_name csv_file = Some HEADER_ROW
     | Some e => convert_one w (csv_file, content) = Raise e
     end.
Proof.
  intros Hread Hinfo Ht0.
  assert (Hc : convert content = Ok HEADER_ROW).
  { rewrite (convert_eq _ _ _ _ Hinfo Hread). unfold convert_rows.
    rewrite Ht0, bind_ok. simpl. exact write_csv_nil. }
  split; [|split; [exact Hc|]].
  - unfold create_writable_list. rewrite Hread. reflexivity.
  - pose proof (convert_one_spec w csv_file content) as Hone.
    rewrite Hc in Hone.
    destruct (write_errors w !! output_name csv_file) as [e|]; [exact Hone|].
    destruct Hone as (w' & Hw' & Hconv & _).
    exists w'. split; [exact Hw'|]. rewrite Hconv. apply lookup_insert_eq.
Qed.

Lemma title_only_file_witness :
  create_writable_list "Device XYZ Export 2024.01.15 09:00:00 end" headers
    (mk_datetime 2024 1 15 9 0 0) = Ok []
  /\ convert "Device XYZ Export 2024.01.15 09:00:00 end" = Ok HEADER_ROW
  /\ exists w',
       convert_one (mk_world [] ∅ ∅ [])
         ("day1.csv", "Device XYZ Export 2024.01.15 09:00:00 end") = Ok w'
       /\ converted w' !! output_name "day1.csv" = Some HEADER_ROW.
Proof.
  destruct (title_only_file "Device XYZ Export 2024.01.15 09:00:00 end"
              "Device XYZ Export 2024.01.15 09:00:00 end" "2024.01.15 09:00:00"
              "day1.csv" ["Device XYZ Export 2024.01.15 09:00:00 end"]
              (mk_datetime 2024 1 15 9 0 0) (mk_world [] ∅ ∅ []))
    as (H1 & H2 & H3).
  - vm_compute. reflexivity.
  - vm_compute. reflexivity.
  - vm_compute. reflexivity.
  - split; [exact H1|]. split; [exact H2|]. exact H3.
Defined.

Section Rerun.

Lemma write_all_other (outs : list (string * string)) (m : gmap string string)
    (k : string) :
  k ∉ map fst outs -> write_all outs m !! k = m !! k.
Proof.
  revert m. induction outs as [|[k0 v0] outs IH]; intros m Hk; [done|].
  simpl in *. apply not_elem_of_cons in Hk as [Hne Hk].
  unfold write_all in *. simpl. rewrite IH by done.
  by rewrite lookup_insert_ne.
Qed.

Lemma write_all_agree (outs : list (string * string))
    (m1 m2 : gmap string string) :
  (forall k, k ∉ map fst outs -> m1 !! k = m2 !! k) ->
  write_all outs m1 = write_all outs m2.
Proof.
  revert m1 m2. induction outs as [|[k0 v0] outs IH]; intros m1 m2 H.
  - apply map_eq. intros k. apply H. simpl. apply not_elem_of_nil.
  - unfold write_all in *. simpl. apply IH. intros k Hk.
    destruct (decide (k0 = k)) as [->|Hne].
    + by rewrite !lookup_insert_eq.
    + rewrite !lookup_insert_ne by done. apply H. simpl.
      apply not_elem_of_cons. split; [congruence|done].
Qed.

(** Writing the same files a second time changes nothing. *)
Lemma write_all_idem (outs : list (string * string)) (m : gmap string string) :
  write_all outs (write_all outs m) = write_all outs m.
Proof. apply write_all_agree. intros k Hk. by apply write_all_other. Qed.

Lemma for_each_cons {A St : Type} (f : St -> A -> result St) (x : A)
    (xs : list A) (acc : St) :
  for_each f (x :: xs) acc = acc' ← f acc x; for_each f xs acc'.
Proof. reflexivity. Qed.

Lemma outputs_cons (errors : gmap string exn) (csv_file content : string)
    (files : list (string * string)) :
  outputs errors ((csv_file, content) :: files)
  = text ← convert content;
    _ ← match errors !! output_name csv_file with
        | Some e => Raise e
        | None => Ok ()
        end;
    outs ← outputs errors files;
    Ok ((output_name csv_file, text) :: outs).
Proof.
  unfold outputs. simpl. destruct (convert content); [|reflexivity].
  rewrite !bind_ok. destruct (errors !! output_name csv_file); reflexivity.
Qed.

Lemma for_each_convert (files : list (string * string)) (w : world) :
  match outputs (write_errors w) files with
  | Ok outs =>
      exists w', for_each convert_one files w = Ok w'
        /\ converted w' = write_all outs (converted w)
        /\ measurements w' = measurements w
        /\ configs w' = configs w
        /\ write_errors w' = write_errors w
  | Raise e => for_each convert_one files w = Raise e
  end.
Proof.
  revert w. induction files as [|[csv_file content] files IH]; intros w.
  - simpl. eexists. repeat split; reflexivity.
  - rewrite outputs_cons, for_each_cons.
    pose proof (convert_one_spec w csv_file content) as Hone.
    destruct (convert content) as [text|e]; [|by rewrite Hone].
    rewrite bind_ok.
    destruct (write_errors w !! output_name csv_file) as [e|];
      [by rewrite Hone|].
    destruct Hone as (w1 & -> & Hconv & Hmeas & Hcfg & Herr).
    rewrite !bind_ok. specialize (IH w1). rewrite Herr in IH.
    destruct (outputs (write_errors w) files) as [outs|e]; [|exact IH].
    destruct IH as (w' & -> & Hconv' & Hmeas' & Hcfg' & Herr').
    rewrite bind_ok.
    exists w'. split; [reflexivity|].
    rewrite Hconv', Hconv, Hmeas', Hmeas, Hcfg', Hcfg, Herr'. done.
Qed.

End Rerun.

(** C8 (running twice): a second run over the unchanged input succeeds and
    leaves every converted file as the first run wrote it; each file is
    written under [converted_<name>] over whatever was there; and two raw
    files that differ only in their title text, with the same date and time
    and the same data records, give the same bytes: the title is not
    written. *)
Theorem rerun_identical :
  (forall w w1, convert_all w = Ok w1 ->
     exists w2, convert_all w1 = Ok w2 /\ converted w2 = converted w1)
  /\ (forall w w' csv_file content text,
        convert content = Ok text ->
        convert_one w (csv_file, content) = Ok w' ->
        converted w' !! ("converted_" +:+ csv_file) = Some text)
  /\ (forall c1 c2 title1 title2 date r1 r2 lines,
        get_first_line_info c1 = Ok (title1, date) ->
        get_first_line_info c2 = Ok (title2, date) ->
        read_all (open_lines c1) = Ok (r1 :: lines) ->
        read_all (open_lines c2) = Ok (r2 :: lines) ->
        convert c1 = convert c2).
Proof.
  split; [|split].
  - intros w w1 Hrun. unfold convert_all in *.
    pose proof (for_each_convert (get_csv_files w) w) as H1.
    destruct (outputs (write_errors w) (get_csv_files w)) as [outs|e] eqn:Houts;
      [|rewrite H1 in Hrun; discriminate].
    destruct H1 as (w1' & Hw1 & Hconv & Hmeas & _ & Herr).
    rewrite Hw1 in Hrun. injection Hrun as ->.
    assert (Hfiles : get_csv_files w1 = get_csv_files w)
      by (unfold get_csv_files; rewrite Hmeas; reflexivity).
    rewrite Hfiles.
    pose proof (for_each_convert (get_csv_files w) w1) as H2.
    rewrite Herr, Houts in H2. destruct H2 as (w2 & Hw2 & Hconv2 & _).
    exists w2. split; [exact Hw2|].
    rewrite Hconv2, Hconv. apply write_all_idem.
  - intros w w' csv_file content text Hc Hone.
    pose proof (convert_one_spec w csv_file content) as H.
    rewrite Hc in H.
    destruct (write_errors w !! output_name csv_file) as [e|];
      [rewrite H in Hone; discriminate|].
    destruct H as (w'' & Hw'' & Hconv & _).
    rewrite Hw'' in Hone. injection Hone as <-.
    rewrite Hconv. apply lookup_insert_eq.
  - intros c1 c2 title1 title2 date r1 r2 lines H1 H2 R1 R2.
    rewrite (convert_eq _ _ _ _ H1 R1), (convert_eq _ _ _ _ H2 R2).
    reflexivity.
Qed.

Lemma rerun_identical_witness :
  (exists w1 w2,
     convert_all sample_world = Ok w1
     /\ convert_all w1 = Ok w2 /\ converted w2 = converted w1)
  /\ convert sample_file = convert sample_file_retitled.
Proof.
  split.
  - destruct (convert_all sample_world) as [w1|e] eqn:E;
      [|vm_compute in E; discriminate].
    destruct (proj1 rerun_identical sample_world w1 E) as (w2 & H2 & H3).
    exists w1, w2. split; [reflexivity|]. split; assumption.
  - apply (proj2 (proj2 rerun_identical) sample_file sample_file_retitled
             "Device XYZ Export 2024.01.15 23:59:59 end"
             "Another title altogether 2024.01.15 23:59:59 x"
             "2024.01.15 23:59:59"
             ["Device XYZ Export 2024.01.15 23:59:59 end"]
             ["Another title altogether 2024.01.15 23:59:59 x"]
             [["a:400"; "b:22.5"; "c:410"; "d:395"];
              ["a:401"; "b:22.6"; "c:410"; "d:395"]]);
      vm_compute; reflexivity.
Defined.

(** ** The loop over the plot requests *)

Section PlotLoop.

Variable read_frame : string -> result (list sample).
Variable render : json -> json -> json -> list sample -> result unit.
Variable repr : json -> string.

Lemma prints_nil (w : world) : prints [] w = w.
Proof. destruct w. unfold prints. simpl. now rewrite app_nil_r. Qed.

Lemma prints_cons (ev : event) (evs : list event) (w : world) :
  prints (ev :: evs) w = prints evs (print ev w).
Proof. unfold prints, print. simpl. now rewrite <- app_assoc. Qed.

Lemma plot_body_prints (w w' : world) (plot_config csv_filename : json)
    (text : string) :
  plot_body read_frame render repr w plot_config csv_filename text = Ok w' ->
  w' = print (NoDataInRange (format repr csv_filename)) w
  \/ w' = print (PlotSaved (format repr csv_filename)) w.
Proof.
  unfold plot_body. intros H.
  destruct (read_frame text) as [df|]; [|discriminate]. rewrite bind_ok in H.
  destruct (subscript plot_config "from") as [start_time|]; [|discriminate].
  rewrite bind_ok in H.
  destruct (subscript plot_config "length") as [duration|]; [|discriminate].
  rewrite bind_ok in H.
  destruct (plot_window df start_time duration) as [[s e]|]; [|discriminate].
  rewrite bind_ok in H.
  destruct (filter_window s e df) as [|r rs].
  - injection H as <-. now left.
  - destruct (render csv_filename start_time duration (r :: rs));
      [|discriminate].
    rewrite bind_ok in H. injection H as <-. now right.
Qed.

Lemma plot_one_prints (w : world) (plot_config : json) :
  names_file plot_config = true ->
  exists ev,
    plot_one read_frame render repr w plot_config = Ok (print ev w)
    /\ accounts_for repr (converted w) plot_config ev.
Proof.
  unfold names_file, plot_one, accounts_for. intros Hf.
  destruct (subscript plot_config "file") as [csv_filename|]; [|discriminate].
  rewrite bind_ok. cbv zeta.
  destruct (converted w !! ("converted_" +:+ format repr csv_filename))
    as [text|] eqn:Hfound.
  - unfold try_except.
    destruct (plot_body read_frame render repr w plot_config csv_filename text)
      as [w'|e] eqn:Hbody.
    + destruct (plot_body_prints _ _ _ _ _ Hbody) as [-> | ->];
        eexists; (split; [reflexivity|]); exists csv_filename;
        (split; [reflexivity|]); right; rewrite Hfound; eauto.
    + eexists. split; [reflexivity|]. exists csv_filename.
      split; [reflexivity|]. right. rewrite Hfound. eauto.
  - eexists. split; [reflexivity|]. exists csv_filename.
    split; [reflexivity|]. left. rewrite Hfound. eauto.
Qed.

Lemma plot_loop_prints (requests : list json) :
  forall w,
  Forall (fun c => names_file c = true) requests ->
  exists evs,
    for_each (plot_one read_frame render repr) requests w = Ok (prints evs w)
    /\ Forall2 (accounts_for repr (converted w)) requests evs.
Proof.
  induction requests as [|c requests IH]; intros w Hall.
  - exists []. rewrite prints_nil. split; [reflexivity|constructor].
  - apply Forall_cons in Hall as [Hc Hall].
    destruct (plot_one_prints w c Hc) as (ev & Hone & Hev).
    destruct (IH (print ev w) Hall) as (evs & Hrest & Hevs).
    exists (ev :: evs). rewrite for_each_cons, Hone, bind_ok, Hrest.
    rewrite prints_cons. split; [reflexivity|].
    constructor; [exact Hev|exact Hevs].
Qed.

Lemma subscript_raises (v : json) (key : string) (e : exn) :
  subscript v key = Raise e -> e = KeyError \/ e = TypeError.
Proof.
  destruct v; simpl; try (intros [= <-]; now right).
  destruct (assoc key d); [discriminate|]. intros [= <-]. now left.
Qed.

Lemma plot_body_raises (w w' : world) (plot_config csv_filename : json)
    (text : string) (e : exn) :
  plot_body read_frame render repr w plot_config csv_filename text = Raise e ->
  plot_body read_frame render repr w' plot_config csv_filename text = Raise e.
Proof.
  unfold plot_body.
  destruct (read_frame text) as [df|]; [|exact id]. rewrite !bind_ok.
  destruct (subscript plot_config "from") as [start_time|]; [|exact id].
  rewrite !bind_ok.
  destruct (subscript plot_config "length") as [duration|]; [|exact id].
  rewrite !bind_ok.
  destruct (plot_window df start_time duration) as [[s e']|]; [|exact id].
  rewrite !bind_ok.
  destruct (filter_window s e' df) as [|r rs]; [discriminate|].
  destruct (render csv_filename start_time duration (r :: rs));
    [discriminate|exact id].
Qed.

Lemma prints_app (evs1 evs2 : list event) (w : world) :
  prints (evs1 ++ evs2) w = prints evs2 (prints evs1 w).
Proof. unfold prints. simpl. now rewrite app_assoc. Qed.

Lemma plot_one_caught (w : world) (plot_config csv_filename : json)
    (text : string) (e : exn) :
  subscript plot_config "file" = Ok csv_filename ->
  converted w !! ("converted_" +:+ format repr csv_filename) = Some text ->
  plot_body read_frame render repr w plot_config csv_filename text = Raise e ->
  plot_one read_frame render repr w plot_config
  = Ok (prints [PlotError (format repr csv_filename) e] w).
Proof.
  intros Hfile Hfound Hbody. unfold plot_one. rewrite Hfile, bind_ok.
  cbv zeta. rewrite Hfound. unfold try_except. rewrite Hbody. reflexivity.
Qed.

End PlotLoop.

Section Asymmetry.

Lemma for_each_app {A St : Type} (f : St -> A -> result St) (l1 l2 : list A)
    (acc : St) :
  for_each f (l1 ++ l2) acc = acc' ← for_each f l1 acc; for_each f l2 acc'.
Proof.
  revert acc. induction l1 as [|x l1 IH]; intros acc; simpl; [reflexivity|].
  destruct (f acc x); simpl; [apply IH|reflexivity].
Qed.

(** A failure of one phase is a failure of the turn of the main loop. *)
Lemma convert_one_raises (w : world) (csv_file content : string) (e : exn) :
  convert content = Raise e -> convert_one w (csv_file, content) = Raise e.
Proof.
  intros H. pose proof (convert_one_spec w csv_file content) as Hone.
  rewrite H in Hone. exact Hone.
Qed.

(** So is a failure to open the output file, once the rows are there. *)
Lemma convert_one_unwritable (w : world) (csv_file content title date : string)
    (t0 : datetime) (csv_list : list row) (e : exn) :
  get_first_line_info content = Ok (title, date) ->
  strptime date = Ok t0 ->
  create_writable_list content headers t0 = Ok csv_list ->
  write_errors w !! output_name csv_file = Some e ->
  convert_one w (csv_file, content) = Raise e.
Proof.
  intros Hinfo Ht Hrows Herr.
  pose proof (convert_one_spec w csv_file content) as Hone.
  destruct (rows_written _ _ _ Hrows) as [text Htext].
  assert (Hc : convert content = Ok text).
  { unfold convert. rewrite Hinfo, bind_ok, Ht, bind_ok, Hrows, bind_ok.
    exact Htext. }
  rewrite Hc, Herr in Hone. exact Hone.
Qed.

End Asymmetry.

(** C4 (asymmetric error handling): whatever the libraries do, an
    exception raised in the body of one detailed plot, once the converted
    file is found, is caught and printed: the loop over the requests has
    then printed one message for each earlier request followed by the error
    message of this one, has changed no file, and goes on with the later
    requests (it ends normally when each of them names a file).  An
    exception raised while converting a file (reading the header, parsing
    the date, transforming the rows, opening the output file) is caught
    nowhere: the main loop and the whole script end with it. *)
Theorem error_handling_asymmetric
    (json_loads : string -> result json)
    (read_frame : string -> result (list sample))
    (render : json -> json -> json -> list sample -> result unit)
    (repr : json -> string) :
  (forall w before plot_config after csv_filename text e,
     Forall (fun c => names_file c = true) before ->
     subscript plot_config "file" = Ok csv_filename ->
     converted w !! ("converted_" +:+ format repr csv_filename) = Some text ->
     plot_body read_frame render repr w plot_config csv_filename text = Raise e ->
     exists evs,
       length evs = length before
       /\ for_each (plot_one read_frame render repr)
            (before ++ plot_config :: after) w
          = for_each (plot_one read_frame render repr) after
              (mk_files (measurements w) (converted w) (configs w)
                 (write_errors w)
                 (stdout w ++ evs ++ [PlotError (format repr csv_filename) e]))
       /\ (Forall (fun c => names_file c = true) after ->
           exists evs',
             length evs' = length after
             /\ for_each (plot_one read_frame render repr)
                  (before ++ plot_config :: after) w
                = Ok (mk_files (measurements w) (converted w) (configs w)
                        (write_errors w)
                        (stdout w ++ evs
                         ++ PlotError (format repr csv_filename) e :: evs'))))
  /\ (forall w before f after w' e,
        get_csv_files w = before ++ f :: after ->
        for_each convert_one before w = Ok w' ->
        convert_one w' f = Raise e ->
        convert_all w = Raise e
        /\ script json_loads read_frame render repr w = Raise e)
  /\ (forall w csv_file content e,
        (get_first_line_info content = Raise e
         \/ (exists title date,
               get_first_line_info content = Ok (title, date)
               /\ (strptime date = Raise e
                   \/ exists t0, strptime date = Ok t0
                      /\ (create_writable_list content headers t0 = Raise e
                          \/ exists csv_list,
                             create_writable_list content headers t0 = Ok csv_list
                             /\ write_errors w !! output_name csv_file
                                = Some e)))) ->
        convert_one w (csv_file, content) = Raise e).
Proof.
  split; [|split].
  - intros w before plot_config after csv_filename text e Hall Hfile Hfound Hbody.
    destruct (plot_loop_prints read_frame render repr before w Hall)
      as (evs & Hloop & Hevs).
    assert (Hone : plot_one read_frame render repr (prints evs w) plot_config
                   = Ok (prints [PlotError (format repr csv_filename) e]
                           (prints evs w))).
    { apply (plot_one_caught read_frame render repr _ _ csv_filename text).
      - exact Hfile.
      - exact Hfound.
      - exact (plot_body_raises read_frame render repr w _ _ _ _ _ Hbody). }
    assert (Hhere : for_each (plot_one read_frame render repr)
                      (before ++ plot_config :: after) w
                    = for_each (plot_one read_frame render repr) after
                        (prints (evs ++ [PlotError (format repr csv_filename) e])
                           w)).
    { rewrite for_each_app, Hloop, bind_ok, for_each_cons, Hone, bind_ok.
      now rewrite prints_app. }
    exists evs. split; [symmetry; exact (Forall2_length _ _ _ Hevs)|].
    split; [exact Hhere|]. intros Hafter.
    destruct (plot_loop_prints read_frame render repr after
                (prints (evs ++ [PlotError (format repr csv_filename) e]) w)
                Hafter) as (evs' & Hrest & Hevs').
    exists evs'. split; [symmetry; exact (Forall2_length _ _ _ Hevs')|].
    rewrite Hhere, Hrest, <- prints_app, <- app_assoc. reflexivity.
  - intros w before f after w' e Hfiles Hbefore Hf.
    assert (Hall : convert_all w = Raise e).
    { unfold convert_all. rewrite Hfiles, for_each_app, Hbefore, bind_ok.
      rewrite for_each_cons, Hf. reflexivity. }
    split; [exact Hall|]. unfold script. rewrite Hall. reflexivity.
  - intros w csv_file content e
      [H|(title & date & H & [Ht|(t0 & Ht & [Hc|(l & Hc & Hw)])])].
    + apply convert_one_raises. unfold convert. now rewrite H.
    + apply convert_one_raises. unfold convert. now rewrite H, bind_ok, Ht.
    + apply convert_one_raises. unfold convert.
      now rewrite H, bind_ok, Ht, bind_ok, Hc.
    + exact (convert_one_unwritable w csv_file content title date t0 l e
               H Ht Hc Hw).
Qed.

Lemma error_handling_asymmetric_witness :
  (exists evs,
     length evs = 0%nat
     /\ for_each (plot_one failing_frame blank_render no_repr)
          ([] ++ JDict [("file", JStr "a.csv")]
              :: [JDict [("file", JStr "b.csv")]]) plot_world
        = Ok (mk_files (measurements plot_world) (converted plot_world)
                (configs plot_world) (write_errors plot_world)
                (stdout plot_world ++ evs
                 ++ [PlotError "a.csv" ValueError;
                     ConvertedFileMissing "converted_b.csv"])))
  /\ (convert_all plot_world = Raise IndexError
      /\ script no_json failing_frame blank_render no_repr plot_world
         = Raise IndexError)
  /\ convert_one plot_world ("bad.csv", "untitled") = Raise IndexError
  /\ convert_one readonly_world ("day1.csv", sample_file) = Raise OSError.
Proof.
  destruct (error_handling_asymmetric no_json failing_frame blank_render no_repr)
    as (Hplot & Hconv & Hphase).
  split; [|split; [|split]].
  - destruct (Hplot plot_world [] (JDict [("file", JStr "a.csv")])
                [JDict [("file", JStr "b.csv")]] (JStr "a.csv")
                HEADER_ROW ValueError) as (evs & Hlen & Hgo & _);
      [constructor|reflexivity|reflexivity|reflexivity|].
    exists evs. split; [exact Hlen|]. rewrite Hgo.
    destruct evs; [reflexivity|discriminate].
  - apply (Hconv plot_world [] ("bad.csv", "untitled") [] plot_world IndexError);
      vm_compute; reflexivity.
  - apply (Hphase plot_world "bad.csv" "untitled" IndexError).
    left. vm_compute. reflexivity.
  - apply (Hphase readonly_world "day1.csv" sample_file OSError).
    right. do 2 eexists. split; [vm_compute; reflexivity|].
    right. eexists. split; [vm_compute; reflexivity|].
    right. eexists. split; [vm_compute; reflexivity|]. reflexivity.
Defined.

Section Records.

(** Folding over the reader is folding over the records it yields. *)
Lemma fold_from_records {St : Type} (f : St -> list string -> result St)
    (lines : list string) :
  forall (r : reader) (seen records : list (list string)) (acc : St),
    fold_from (fun acc rec => Ok (acc ++ [rec])) r lines seen = Ok records ->
    exists more, records = seen ++ more
      /\ fold_from f r lines acc = for_each f more acc.
Proof.
  induction lines as [|l lines IH]; intros r seen records acc; simpl.
  - destruct (pending r); intros [= <-].
    + eexists [_]. split; [reflexivity|]. simpl. by destruct (f acc _).
    + exists []. rewrite app_nil_r. done.
  - destruct (process_line r l) as [r'|e]; simpl; [|discriminate].
    destruct (state_eqb (state r') START_RECORD).
    + intros H.
      destruct (IH parse_reset (seen ++ [fields r']) records) with (acc := acc)
        as (more & -> & _); [exact H|].
      exists (fields r' :: more). rewrite <- app_assoc. split; [reflexivity|].
      simpl. destruct (f acc (fields r')) as [acc'|e]; simpl; [|reflexivity].
      destruct (IH parse_reset (seen ++ [fields r']) _ acc' H)
        as (more' & Heq & Hfold).
      apply app_inv_head in Heq. subst more'. exact Hfold.
    + intros H. apply (IH r' seen records acc H).
Qed.

Lemma fold_records_read_all {St : Type} (f : St -> list string -> result St)
    (lines : list string) (records : list (list string)) (acc : St) :
  read_all lines = Ok records ->
  fold_records f lines acc = for_each f records acc.
Proof.
  intros H. unfold read_all, fold_records in *.
  destruct (fold_from_records f lines parse_reset [] records acc H)
    as (more & -> & Hfold). exact Hfold.
Qed.

Lemma add_plot_config_row (plots : list json) (record : list string) :
  length record = 3%nat ->
  add_plot_config (Some ["File"; "Start"; "Duration"], plots) record
  = Ok (Some ["File"; "Start"; "Duration"], plots ++ [plot_of_record record]).
Proof.
  intros Hlen. destruct record as [|f [|s [|d [|x record]]]]; try discriminate.
  reflexivity.
Qed.

Lemma add_plot_config_rows (rows : list (list string)) (plots : list json) :
  Forall (fun r => length r = 3%nat) rows ->
  for_each add_plot_config rows (Some ["File"; "Start"; "Duration"], plots)
  = Ok (Some ["File"; "Start"; "Duration"], plots ++ map plot_of_record rows).
Proof.
  revert plots. induction rows as [|r rows IH]; intros plots Hall.
  - simpl. rewrite app_nil_r. reflexivity.
  - apply Forall_cons in Hall as [Hr Hall].
    rewrite for_each_cons, add_plot_config_row, bind_ok, IH by done.
    rewrite <- app_assoc. reflexivity.
Qed.

End Records.

Section Fallback.

Variable json_loads : string -> result json.
Variable read_frame : string -> result (list sample).
Variable render : json -> json -> json -> list sample -> result unit.
Variable repr : json -> string.

Lemma load_config_falls_back (w w1 : world) (config_path : string) :
  json_falls_back json_loads w config_path w1 ->
  exists config,
    load_config json_loads w config_path = Ok (config, w1)
    /\ (first ← dict_get config "detailed_plots" JNull; Ok (truthy first))
       = Ok false
    /\ configs w1 = configs w.
Proof.
  unfold load_config, open_read, try_except.
  intros [[Hf ->]|[(text & Hf & Hj & ->)|(text & d & Hf & Hj & Ht & ->)]];
    rewrite Hf; simpl; rewrite ?Hj; simpl.
  - exists (JDict []). done.
  - exists (JDict []). done.
  - exists (JDict d). simpl. rewrite Ht. done.
Qed.

Lemma load_config_csv_nothing (w1 w2 : world) (csv_config_path : string) :
  csv_gives_nothing w1 csv_config_path w2 ->
  exists config,
    load_config_csv w1 csv_config_path = Ok (config, w2)
    /\ dict_get config "detailed_plots" (JList []) = Ok (JList []).
Proof.
  unfold load_config_csv, open_read, try_except.
  intros [[Hf ->]|[(text & Hf & He & ->)|(text & fn & Hf & He & ->)]];
    rewrite Hf; simpl; rewrite ?He; simpl.
  - exists (JDict []). done.
  - exists (JDict []). done.
  - exists (JDict [("detailed_plots", JList [])]). done.
Qed.

Lemma load_config_csv_rows (w1 : world) (csv_config_path text : string)
    (rows : list (list string)) :
  configs w1 !! csv_config_path = Some (Text text) ->
  read_all (open_lines text) = Ok (["File"; "Start"; "Duration"] :: rows) ->
  Forall (fun r => length r = 3%nat) rows ->
  load_config_csv w1 csv_config_path
  = Ok (JDict [("detailed_plots", JList (map plot_of_record rows))], w1).
Proof.
  intros Hf Hread Hrows. unfold load_config_csv, open_read, try_except.
  rewrite Hf, bind_ok, (fold_records_read_all _ _ _ _ Hread).
  rewrite for_each_cons. simpl add_plot_config. rewrite bind_ok.
  rewrite add_plot_config_rows by done. reflexivity.
Qed.

End Fallback.

(** C5 as the code has it (configuration loading): when the JSON
    configuration is missing, is not a JSON document, or is an object
    without a non-empty [detailed_plots], the loader turns to the CSV
    configuration, whose records under the header [File,Start,Duration]
    become requests of the shape file/from/length; and when the CSV
    configuration is missing, is rejected by the CSV reader or has no data
    record, no configuration results and the detailed plots are skipped
    with a message, without any exception. *)
Theorem config_fallback
    (json_loads : string -> result json)
    (read_frame : string -> result (list sample))
    (render : json -> json -> json -> list sample -> result unit)
    (repr : json -> string)
    (w w1 : world) (config_path csv_config_path : string) :
  json_falls_back json_loads w config_path w1 ->
  (forall text rows,
     configs w !! csv_config_path = Some (Text text) ->
     read_all (open_lines text) = Ok (["File"; "Start"; "Duration"] :: rows) ->
     rows <> [] ->
     Forall (fun r => length r = 3%nat) rows ->
     detailed_config json_loads w config_path csv_config_path
     = Ok (Some (JList (map plot_of_record rows)), w1))
  /\ (forall w2,
        csv_gives_nothing w1 csv_config_path w2 ->
        detailed_config json_loads w config_path csv_config_path
        = Ok (None, print NoConfiguration w2)
        /\ plot_detailed_co2_data json_loads read_frame render repr w
             config_path csv_config_path
           = Ok (print NoConfiguration w2)).
Proof.
  intros Hjson.
  destruct (load_config_falls_back json_loads w w1 config_path Hjson)
    as (config & Hload & Hfirst & Hcfg).
  assert (Hstart :
    detailed_config json_loads w config_path csv_config_path
    = '(config, w) ← load_config_csv w1 csv_config_path;
      detailed ← dict_get config "detailed_plots" (JList []);
      if negb (truthy detailed) then Ok (None, print NoConfiguration w)
      else Ok (Some detailed, w)).
  { unfold detailed_config. rewrite Hload, bind_ok.
    destruct (dict_get config "detailed_plots" JNull) as [first|e];
      [|discriminate].
    simpl in Hfirst. injection Hfirst as Hfirst.
    rewrite bind_ok, Hfirst. reflexivity. }
  split.
  - intros text rows Hf Hread Hne Hrows. rewrite Hstart.
    rewrite <- Hcfg in Hf.
    rewrite (load_config_csv_rows w1 csv_config_path text rows Hf Hread Hrows).
    rewrite bind_ok. simpl.
    destruct rows; [done|reflexivity].
  - intros w2 Hcsv.
    destruct (load_config_csv_nothing w1 w2 csv_config_path Hcsv)
      as (config' & Hload' & Hget).
    assert (Hd : detailed_config json_loads w config_path csv_config_path
                 = Ok (None, print NoConfiguration w2)).
    { rewrite Hstart, Hload', bind_ok, Hget. reflexivity. }
    split; [exact Hd|].
    unfold plot_detailed_co2_data. rewrite Hd. reflexivity.
Qed.

Lemma config_fallback_witness :
  detailed_config no_json csv_only_world "cfg.json" "cfg.csv"
  = Ok (Some (JList [JDict [("file", JStr "a.csv"); ("from", JStr "09:05:00");
                            ("length", JStr "00:10")]]),
        print ConfigWarning csv_only_world)
  /\ plot_detailed_co2_data no_json failing_frame blank_render no_repr
       no_config_world "cfg.json" "cfg.csv"
     = Ok (print NoConfiguration
             (print (CsvConfigWarning FileNotFoundError)
                (print ConfigWarning no_config_world))).
Proof.
  split.
  - apply (proj1 (config_fallback no_json failing_frame blank_render no_repr
                    csv_only_world (print ConfigWarning csv_only_world)
                    "cfg.json" "cfg.csv"
                    (or_introl (conj eq_refl eq_refl)))
             csv_config_text [["a.csv"; "09:05:00"; "00:10"]]).
    + reflexivity.
    + vm_compute. reflexivity.
    + discriminate.
    + repeat constructor.
  - apply (proj2 (config_fallback no_json failing_frame blank_render no_repr
                    no_config_world (print ConfigWarning no_config_world)
                    "cfg.json" "cfg.csv"
                    (or_introl (conj eq_refl eq_refl)))).
    left. split; reflexivity.
Defined.

(** C5 as stated fails: a JSON configuration that exists but cannot be read
    is fatal, although the CSV configuration is there; so is a CSV
    configuration without a [File] column. *)
Lemma unreadable_config_is_fatal :
  plot_detailed_co2_data no_json failing_frame blank_render no_repr
    (mk_world [] ∅
       (<[ "cfg.json" := Unreadable ]> (<[ "cfg.csv" := Text csv_config_text ]> ∅))
       [])
    "cfg.json" "cfg.csv"
  = Raise PermissionError
  /\ plot_detailed_co2_data no_json failing_frame blank_render no_repr
       (mk_world [] ∅
          (<[ "cfg.csv" := Text ("Name,Start,Duration" +:+ String LF
                                  "a.csv,09:05:00,00:10") ]> ∅)
          [])
       "cfg.json" "cfg.csv"
     = Raise KeyError.
Proof. split; vm_compute; reflexivity. Qed.

Section Window.

Lemma le_iff (a b : datetime) :
  le a b = true <-> total_seconds a <= total_seconds b.
Proof. unfold le. apply Z.leb_le. Qed.

Lemma in_window_iff (s e : datetime) (r : sample) :
  in_window s e r = true <->
  total_seconds s <= total_seconds (stamp r) <= total_seconds e.
Proof.
  unfold in_window. rewrite andb_true_iff, !le_iff. reflexivity.
Qed.

Lemma filter_window_iff (s e : datetime) (df : list sample) (r : sample) :
  r ∈ filter_window s e df <->
  r ∈ df /\ total_seconds s <= total_seconds (stamp r) <= total_seconds e.
Proof.
  unfold filter_window. rewrite list_elem_of_filter, Is_true_true, in_window_iff.
  tauto.
Qed.

(** Facts about a decimal digit character. *)
Lemma digit_char (c : ascii) :
  isdigit c = true ->
  int_space c = false
  /\ Ascii.eqb c COLON = false
  /\ Ascii.eqb c "-"%char = false
  /\ Ascii.eqb c "+"%char = false
  /\ 0 <= digit_val c <= 9.
Proof.
  destruct c as [[] [] [] [] [] [] [] []]; vm_compute; intros H;
    try discriminate; repeat split; discriminate.
Qed.

(** A duration written [HH:MM] with four digits is not negative. *)
Lemma hhmm_duration (h1 h2 m1 m2 : ascii) :
  isdigit h1 = true -> isdigit h2 = true ->
  isdigit m1 = true -> isdigit m2 = true ->
  exists d,
    parse_time_duration
      (String h1 (String h2 (String COLON (String m1 (String m2 EmptyString)))))
    = Ok d /\ 0 <= d.
Proof.
  intros H1 H2 H3 H4.
  destruct (digit_char _ H1) as (S1 & C1 & N1 & P1 & V1).
  destruct (digit_char _ H2) as (S2 & C2 & N2 & P2 & V2).
  destruct (digit_char _ H3) as (S3 & C3 & N3 & P3 & V3).
  destruct (digit_char _ H4) as (S4 & C4 & N4 & P4 & V4).
  assert (Hint : forall a b, isdigit a = true -> isdigit b = true ->
            int (String a (String b EmptyString))
            = Ok (10 * (10 * 0 + digit_val a) + digit_val b)).
  { intros a b Ha Hb.
    destruct (digit_char _ Ha) as (Sa & _ & Na & Pa & _).
    destruct (digit_char _ Hb) as (Sb & _ & _ & _ & _).
    unfold int. cbn [count_digits lskip]. rewrite Ha, Hb, Sa.
    cbn [rskip]. rewrite Sb.
    change (MAX_STR_DIGITS <? 1 + (1 + 0)) with false. cbv iota.
    rewrite Na, Pa. cbn [int_digits]. rewrite Ha, Hb. reflexivity. }
  unfold parse_time_duration. simpl. rewrite C1, C2.
  change (Ascii.eqb COLON COLON) with true. simpl. rewrite C3, C4. simpl.
  rewrite !Hint by done. simpl.
  set (h := 10 * (10 * 0 + digit_val h1) + digit_val h2).
  set (m := 10 * (10 * 0 + digit_val m1) + digit_val m2).
  assert (0 <= h <= 99) by lia. assert (0 <= m <= 99) by lia.
  unfold timedelta. cbv zeta.
  assert (0 <= (h * 3600 + m * 60 + 0) / 86400 <= 5).
  { split; [apply Z.div_pos; lia|].
    apply Z.lt_succ_r, Z.div_lt_upper_bound; lia. }
  destruct (_ && _) eqn:E.
  - eexists. split; [reflexivity|lia].
  - apply andb_false_iff in E. destruct E; lia.
Qed.

End Window.

(** C6 (window of a detailed plot): the window starts at the date of the
    first row combined with the configured time of day and ends that start
    plus the parsed duration; with a duration that is not negative (as every
    [hh:mm] text is), a row stamped exactly at the start or exactly at the
    end is kept by the filter, and a row stamped one second before the start
    or one second after the end is dropped. *)
Theorem window_inclusive (df : list sample) (start_time_str duration_str : string)
    (s e : datetime) (d : Z) :
  plot_window df (JStr start_time_str) (JStr duration_str) = Ok (s, e) ->
  parse_time_duration duration_str = Ok d ->
  0 <= d ->
  (exists first time,
     df !! 0%nat = Some first
     /\ strptime_HMS start_time_str = Ok time
     /\ s = combine (stamp first) time
     /\ add s d = Ok e
     /\ total_seconds e = total_seconds s + d)
  /\ (forall r, r ∈ df -> stamp r = s \/ stamp r = e ->
        r ∈ filter_window s e df)
  /\ (forall r t, add s (-1) = Ok t \/ add e 1 = Ok t -> stamp r = t ->
        r ∉ filter_window s e df).
Proof.
  intros Hwin Hdur Hd. unfold plot_window, getitem, as_text in Hwin.
  destruct (df !! 0%nat) as [first|] eqn:Hfirst; [|discriminate].
  rewrite !bind_ok in Hwin.
  destruct (strptime_HMS start_time_str) as [time|] eqn:Htime; [|discriminate].
  rewrite !bind_ok, Hdur, bind_ok in Hwin.
  destruct (add (combine (stamp first) time) d) as [e'|] eqn:Hadd;
    [|discriminate].
  rewrite bind_ok in Hwin. injection Hwin as <- <-.
  destruct (add_spec _ _ _ Hadd) as [Hsec _].
  split; [|split].
  - exists first, time. done.
  - intros r Hr Hstamp. apply filter_window_iff. split; [done|].
    destruct Hstamp as [-> | ->]; lia.
  - intros r t Ht Hstamp Hin. apply filter_window_iff in Hin as [_ Hin].
    rewrite Hstamp in Hin.
    destruct Ht as [Ht|Ht]; apply add_spec in Ht as [Ht _]; lia.
Qed.

Lemma window_inclusive_witness :
  ((at_time 9 5 0 ∈ filter_window (mk_datetime 2024 1 15 9 5 0)
                      (mk_datetime 2024 1 15 9 15 0) sample_frame)
   /\ (at_time 9 15 0 ∈ filter_window (mk_datetime 2024 1 15 9 5 0)
                         (mk_datetime 2024 1 15 9 15 0) sample_frame))
  /\ ((at_time 9 4 59 ∉ filter_window (mk_datetime 2024 1 15 9 5 0)
                          (mk_datetime 2024 1 15 9 15 0) sample_frame)
      /\ (at_time 9 15 1 ∉ filter_window (mk_datetime 2024 1 15 9 5 0)
                             (mk_datetime 2024 1 15 9 15 0) sample_frame)).
Proof.
  destruct (window_inclusive sample_frame "09:05:00" "00:10"
              (mk_datetime 2024 1 15 9 5 0) (mk_datetime 2024 1 15 9 15 0) 600
              ltac:(vm_compute; reflexivity) ltac:(vm_compute; reflexivity)
              ltac:(lia))
    as (_ & Hin & Hout).
  split; split.
  - apply Hin; [|left; reflexivity]. apply list_elem_of_In; simpl; auto 10.
  - apply Hin; [|right; reflexivity]. apply list_elem_of_In; simpl; auto 10.
  - apply (Hout _ (mk_datetime 2024 1 15 9 4 59));
      [left; vm_compute; reflexivity|reflexivity].
  - apply (Hout _ (mk_datetime 2024 1 15 9 15 1));
      [right; vm_compute; reflexivity|reflexivity].
Defined.

(** With a negative duration the end comes before the start and even the
    row stamped at the start is filtered out. *)
Lemma negative_duration_window :
  plot_window sample_frame (JStr "09:05:00") (JStr "-1:00")
  = Ok (mk_datetime 2024 1 15 9 5 0, mk_datetime 2024 1 15 8 5 0)
  /\ filter_window (mk_datetime 2024 1 15 9 5 0) (mk_datetime 2024 1 15 8 5 0)
       sample_frame = [].
Proof. split; vm_compute; reflexivity. Qed.

Section Title.

Lemma middle_region_spec (rest : string) :
  (contains SPACE rest = false /\ middle_region rest = rest)
  \/ (exists note, rest = middle_region rest +:+ String SPACE note
        /\ contains SPACE note = false).
Proof.
  unfold middle_region.
  destruct (rpartition SPACE rest) as [[m note]|] eqn:E.
  - right. exists note. by apply rpartition_some.
  - left. by apply rpartition_none in E.
Qed.

Lemma middle_region_tokens (rest : string) :
  (length (split_ws (middle_region rest)) <= length (split_ws rest))%nat.
Proof.
  destruct (middle_region_spec rest) as [[_ ->]|(note & Hrest & _)]; [lia|].
  rewrite Hrest at 2. rewrite split_ws_app by reflexivity.
  rewrite length_app. lia.
Qed.

Lemma title_no_space (title : string) :
  contains SPACE title = false -> title_date_time title = Raise IndexError.
Proof.
  intros H. apply partition_none in H.
  unfold title_date_time, split1. rewrite H. reflexivity.
Qed.

Lemma title_with_space (first rest : string) :
  contains SPACE first = false ->
  title_date_time (first +:+ String SPACE rest)
  = unpack2 (drop 2 (split_ws (middle_region rest))).
Proof.
  intros H. unfold title_date_time, split1.
  rewrite (partition_app _ _ _ H). unfold getitem at 1. simpl.
  unfold middle_region, rsplit1.
  destruct (rpartition SPACE rest) as [[m note]|]; reflexivity.
Qed.

Lemma unpack2_drop2 (l : list string) :
  length l <> 4%nat -> unpack2 (drop 2 l) = Raise ValueError.
Proof.
  intros H. destruct l as [|a [|b [|c [|d [|e l]]]]]; simpl in *; done.
Qed.

Lemma header_of_record (content title : string) (more : list string)
    (later : list string) :
  iternext (open_lines content) = Ok (title :: more, later) ->
  get_first_line_info content
  = '(date, time) ← title_date_time title;
    Ok (title, date +:+ " " +:+ time).
Proof. intros H. unfold get_first_line_info. rewrite H. reflexivity. Qed.

End Title.

(** C2 as the code has it (header parser): with [title] the first field of
    the first record, the parser cuts the title at its first space and
    drops what follows the last space of the remainder (the trailing note);
    the region in between must hold exactly four whitespace tokens, and the
    parser returns the last two of them joined by a space.  A title without
    a space raises [IndexError]; a middle region that does not hold exactly
    four tokens raises [ValueError], as happens whenever fewer than four
    tokens follow the first one. *)
Theorem header_parser (content title : string) (more later : list string) :
  iternext (open_lines content) = Ok (title :: more, later) ->
  (contains SPACE title = false ->
   get_first_line_info content = Raise IndexError)
  /\ (forall first rest,
        title = first +:+ String SPACE rest ->
        contains SPACE first = false ->
        ((contains SPACE rest = false /\ middle_region rest = rest)
         \/ (exists note, rest = middle_region rest +:+ String SPACE note
               /\ contains SPACE note = false))
        /\ (forall a b date time,
              split_ws (middle_region rest) = [a; b; date; time] ->
              get_first_line_info content
              = Ok (title, date +:+ " " +:+ time))
        /\ (length (split_ws (middle_region rest)) <> 4%nat ->
            get_first_line_info content = Raise ValueError)
        /\ ((length (split_ws rest) < 4)%nat ->
            get_first_line_info content = Raise ValueError)).
Proof.
  intros Hrec. rewrite (header_of_record _ _ _ _ Hrec). split.
  - intros H. rewrite (title_no_space _ H). reflexivity.
  - intros first rest -> Hfirst. rewrite (title_with_space _ _ Hfirst).
    split; [apply middle_region_spec|]. split; [|split].
    + intros a b date time ->. reflexivity.
    + intros H. rewrite (unpack2_drop2 _ H). reflexivity.
    + intros H. pose proof (middle_region_tokens rest).
      rewrite unpack2_drop2 by lia. reflexivity.
Qed.

Lemma header_parser_witness :
  get_first_line_info "Device XYZ Export 2024.01.15 09:00:00 end"
  = Ok ("Device XYZ Export 2024.01.15 09:00:00 end", "2024.01.15 09:00:00")
  /\ get_first_line_info "Device 2024.01.15 09:00:00 end" = Raise ValueError
  /\ get_first_line_info "Untitled" = Raise IndexError.
Proof.
  split; [|split].
  - destruct (proj2 (header_parser "Device XYZ Export 2024.01.15 09:00:00 end"
                       "Device XYZ Export 2024.01.15 09:00:00 end" [] []
                       ltac:(vm_compute; reflexivity))
                "Device" "XYZ Export 2024.01.15 09:00:00 end" eq_refl eq_refl)
      as (_ & Hok & _).
    apply (Hok "XYZ" "Export" "2024.01.15" "09:00:00").
    vm_compute. reflexivity.
  - destruct (proj2 (header_parser "Device 2024.01.15 09:00:00 end"
                       "Device 2024.01.15 09:00:00 end" [] []
                       ltac:(vm_compute; reflexivity))
                "Device" "2024.01.15 09:00:00 end" eq_refl eq_refl)
      as (_ & _ & _ & Hshort).
    apply Hshort. vm_compute. lia.
  - apply (proj1 (header_parser "Untitled" "Untitled" [] []
                    ltac:(vm_compute; reflexivity))).
    reflexivity.
Defined.

(** C2 as stated fails: after the first token of this title five
    space-separated segments remain and the last two tokens of the middle
    region are the date and the time, yet the parser raises [ValueError]
    instead of returning them. *)
Lemma long_title_rejected :
  (4 <= length (split SPACE "XYZ Export Extra 2024.01.15 09:00:00 end"))%nat
  /\ split_ws (middle_region "XYZ Export Extra 2024.01.15 09:00:00 end")
     = ["XYZ"; "Export"; "Extra"; "2024.01.15"; "09:00:00"]
  /\ get_first_line_info "Device XYZ Export Extra 2024.01.15 09:00:00 end"
     = Raise ValueError.
Proof. split; [|split]; vm_compute; (reflexivity || lia). Qed.

Section Reader.

Lemma process_chars_app (a b : string) (r : reader) :
  process_chars r (a +:+ b) = r' ← process_chars r a; process_chars r' b.
Proof.
  revert r. induction a as [|c a IH]; intros r.
  - reflexivity.
  - rewrite append_cons. simpl.
    destruct (parse_process_char r (Some c)); simpl; [apply IH|reflexivity].
Qed.





End Reader.

Section FirstField.

Lemma string_length_app (a b : string) :
  String.length (a +:+ b) = (String.length a + String.length b)%nat.
Proof.
  induction a as [|c a IH]; [reflexivity|].
  rewrite append_cons. simpl. by rewrite IH.
Qed.













End FirstField.




(** ** The listing of the raw files *)

Section Listing.

Lemma substring_all (s : string) : substring 0 (String.length s) s = s.
Proof. induction s as [|c s IH]; simpl; [reflexivity|]. now rewrite IH. Qed.

Lemma substring_suffix (a b : string) :
  substring (String.length a) (String.length b) (a +:+ b) = b.
Proof.
  induction a as [|c a IH].
  - rewrite append_nil. apply substring_all.
  - rewrite append_cons. simpl. exact IH.
Qed.

Lemma substring_split (s : string) (n k : nat) :
  (n + k = String.length s)%nat ->
  s = substring 0 n s +:+ substring n k s.
Proof.
  revert n; induction s as [|c s IH]; intros n Hn; simpl in Hn.
  - assert (n = 0%nat) by lia. assert (k = 0%nat) by lia. subst.
    reflexivity.
  - destruct n as [|n].
    + simpl in Hn. subst k. simpl substring at 1. rewrite append_nil.
      symmetry. apply (substring_all (String c s)).
    + simpl. rewrite append_cons. f_equal. apply IH. lia.
Qed.

Lemma endswith_iff (s suffix : string) :
  endswith s suffix = true <-> exists stem, s = stem +:+ suffix.
Proof.
  unfold endswith. rewrite andb_true_iff, Nat.leb_le, String.eqb_eq. split.
  - intros [Hk Hs].
    exists (substring 0 (String.length s - String.length suffix) s).
    pose proof (substring_split s
      (String.length s - String.length suffix) (String.length suffix)) as E.
    rewrite Hs in E. apply E. lia.
  - intros [stem ->]. rewrite string_length_app. split; [lia|].
    replace (String.length stem + String.length suffix
             - String.length suffix)%nat
      with (String.length stem) by lia.
    apply substring_suffix.
Qed.

End Listing.

(** X1 ([get_csv_files]): the listing keeps exactly the entries of the
    directory whose name is some stem followed by [.csv], and keeps them in
    the order of the directory listing. *)
Theorem csv_files_listed (w : world) :
  (forall name content,
     (name, content) ∈ get_csv_files w <->
     (name, content) ∈ measurements w /\ exists stem, name = stem +:+ ".csv")
  /\ get_csv_files w `sublist_of` measurements w.
Proof.
  split.
  - intros name content. unfold get_csv_files.
    rewrite list_elem_of_filter. simpl.
    rewrite Is_true_true, endswith_iff. tauto.
  - apply sublist_filter.
Qed.

Lemma csv_files_listed_witness :
  ("day1.csv", sample_file) ∈ get_csv_files sample_world
  /\ get_csv_files sample_world `sublist_of` measurements sample_world.
Proof.
  destruct (csv_files_listed sample_world) as [H1 H2]. split; [|exact H2].
  apply H1. split.
  - vm_compute. apply list_elem_of_here.
  - exists "day1". reflexivity.
Defined.

(** ** What the main loop leaves behind *)

Section MainLoop.

Lemma output_name_inj (a b : string) : output_name a = output_name b -> a = b.
Proof.
  unfold output_name. intros H.
  repeat rewrite append_cons in H. rewrite !append_nil in H.
  congruence.
Qed.

Lemma write_all_lookup (outs : list (string * string))
    (m : gmap string string) (k v : string) :
  NoDup (map fst outs) -> (k, v) ∈ outs -> write_all outs m !! k = Some v.
Proof.
  revert m; induction outs as [|[k' v'] outs IH]; intros m Hnd Hin.
  - inversion Hin.
  - simpl in Hnd. apply NoDup_cons in Hnd as [Hk' Hnd].
    change (write_all ((k', v') :: outs) m)
      with (write_all outs (<[ k' := v' ]> m)).
    apply elem_of_cons in Hin as [Heq|Hin].
    + injection Heq as -> ->.
      rewrite write_all_other by exact Hk'. apply lookup_insert_eq.
    + apply IH; assumption.
Qed.

Lemma outputs_spec (errors : gmap string exn)
    (files : list (string * string)) :
  forall outs, outputs errors files = Ok outs ->
  map fst outs = map (fun f => output_name f.1) files
  /\ forall name content, (name, content) ∈ files ->
     exists text, convert content = Ok text /\ (output_name name, text) ∈ outs.
Proof.
  induction files as [|[name0 content0] files IH]; intros outs H.
  - injection H as <-. split; [reflexivity|]. intros ? ? Hin. inversion Hin.
  - rewrite outputs_cons in H.
    destruct (convert content0) as [text0|] eqn:E0; [|discriminate].
    rewrite bind_ok in H.
    destruct (errors !! output_name name0); [discriminate|].
    rewrite bind_ok in H.
    destruct (outputs errors files) as [outs'|] eqn:E1; [|discriminate].
    rewrite bind_ok in H. injection H as <-.
    destruct (IH outs' eq_refl) as [Hk Hin']. split.
    + simpl. now rewrite Hk.
    + intros name content Hin. apply elem_of_cons in Hin as [Heq|Hin].
      * injection Heq as -> ->. exists text0. split; [exact E0|].
        apply elem_of_cons. now left.
      * destruct (Hin' name content Hin) as (text & Ht & Ho).
        exists text. split; [exact Ht|]. apply elem_of_cons. now right.
Qed.

Lemma output_names_nodup (files : list (string * string)) :
  NoDup (map fst files) -> NoDup (map (fun f => output_name f.1) files).
Proof.
  induction files as [|[name content] files IH]; simpl; intros H.
  - constructor.
  - apply NoDup_cons in H as [Hn H]. apply NoDup_cons. split; [|auto].
    intros Hin. apply Hn.
    apply list_elem_of_fmap in Hin as ([name' content'] & Heq & Hin).
    simpl in Heq. apply output_name_inj in Heq as ->.
    apply list_elem_of_fmap. exists (name', content'). split; [reflexivity|exact Hin].
Qed.

Lemma main_loop_written (w w1 : world) :
  NoDup (map fst (get_csv_files w)) ->
  convert_all w = Ok w1 ->
  exists outs,
    converted w1 = write_all outs (converted w)
    /\ NoDup (map fst outs)
    /\ map fst outs = map (fun f => output_name f.1) (get_csv_files w)
    /\ (forall name content, (name, content) ∈ get_csv_files w ->
          exists text, convert content = Ok text
            /\ (output_name name, text) ∈ outs)
    /\ measurements w1 = measurements w
    /\ configs w1 = configs w.
Proof.
  intros Hnd H. unfold convert_all in H.
  pose proof (for_each_convert (get_csv_files w) w) as Hloop.
  destruct (outputs (write_errors w) (get_csv_files w)) as [outs|e] eqn:Eo;
    [|rewrite H in Hloop; discriminate].
  destruct Hloop as (w' & Hw' & Hconv & Hm & Hc & _).
  rewrite H in Hw'. injection Hw' as <-.
  destruct (outputs_spec _ _ _ Eo) as [Hkeys Hall].
  exists outs. repeat split; try assumption.
  rewrite Hkeys. now apply output_names_nodup.
Qed.

End MainLoop.

(** X2 (main loop, lines 338-379): when the names of the listed files are
    distinct and the loop returns, every listed file has its converted
    file, holding the text that converting its content gives; every other
    file of [converted_measurements] is as it was (nothing is removed), and
    the raw files and the configuration files are not touched. *)
Theorem convert_all_outputs (w w1 : world) :
  NoDup (map fst (get_csv_files w)) ->
  convert_all w = Ok w1 ->
  (forall name content, (name, content) ∈ get_csv_files w ->
     exists text, convert content = Ok text
       /\ converted w1 !! ("converted_" +:+ name) = Some text)
  /\ (forall k, k ∉ map (fun f => "converted_" +:+ f.1) (get_csv_files w) ->
        converted w1 !! k = converted w !! k)
  /\ measurements w1 = measurements w
  /\ configs w1 = configs w.
Proof.
  intros Hnd H.
  destruct (main_loop_written w w1 Hnd H)
    as (outs & Hconv & Hnd' & Hkeys & Hall & Hm & Hc).
  split; [|split; [|split; assumption]].
  - intros name content Hin.
    destruct (Hall name content Hin) as (text & Ht & Ho).
    exists text. split; [exact Ht|]. rewrite Hconv.
    apply write_all_lookup; [exact Hnd'|exact Ho].
  - intros k Hk. rewrite Hconv. apply write_all_other. now rewrite Hkeys.
Qed.

Lemma convert_all_outputs_witness :
  NoDup (map fst (get_csv_files sample_world))
  /\ exists w1 text,
       convert_all sample_world = Ok w1
       /\ convert sample_file = Ok text
       /\ converted w1 !! "converted_day1.csv" = Some text
       /\ converted w1 !! "converted_notes.txt" = None
       /\ measurements w1 = measurements sample_world.
Proof.
  assert (Hnd : NoDup (map fst (get_csv_files sample_world))).
  { vm_compute. apply NoDup_singleton. }
  split; [exact Hnd|].
  destruct (convert_all sample_world) as [w1|e] eqn:E;
    [|vm_compute in E; discriminate].
  destruct (convert_all_outputs sample_world w1 Hnd E) as (H1 & H2 & H3 & _).
  destruct (H1 "day1.csv" sample_file) as (text & Ht & Hl).
  { vm_compute. apply list_elem_of_here. }
  exists w1, text. split; [reflexivity|]. split; [exact Ht|].
  split; [exact Hl|]. split; [|exact H3].
  rewrite H2; [reflexivity|].
  vm_compute. intros Hin. apply list_elem_of_singleton in Hin. discriminate.
Defined.

(** ** The range of the time stamps *)

Section Range.

Variable t0 : datetime.
Hypothesis t0_valid : valid t0 = true.

Lemma stamp_in_range (il : nat) :
  is_ok (add t0 (Z.of_nat il * 2)) = true <->
  total_seconds t0 + 2 * Z.of_nat il <= LAST_SECOND.
Proof.
  pose proof (total_seconds_valid _ t0_valid).
  rewrite add_is_ok. unfold LAST_SECOND. lia.
Qed.

Lemma row_data_overflow (il : nat) (line : list string) :
  LAST_SECOND < total_seconds t0 + 2 * Z.of_nat il ->
  row_data t0 il line = Raise OverflowError.
Proof.
  intros Hr. unfold row_data. rewrite mapM_strip_prefix, bind_ok.
  unfold timedelta. cbv zeta.
  destruct (_ && _); [|reflexivity]. rewrite bind_ok.
  replace (0 * 3600 + 0 * 60 + Z.of_nat il * 2) with (Z.of_nat il * 2) by lia.
  rewrite add_overflow; [reflexivity|].
  apply not_true_is_false. rewrite stamp_in_range. lia.
Qed.

End Range.

(** X3 ([create_writable_list], lines 53-71): for a valid start time and a
    non-empty header list, the loop over the lines returns exactly when
    every line has at least one cell fewer than there are headers and every
    row's time stamp stays within year 9999; what it returns is then one
    dict per line, in order, built from the stripped cells and the time
    stamp of the row. *)
Theorem transform_lines_iff (hdrs : list string) (t0 : datetime)
    (lines : list (list string)) (rows : list row) :
  hdrs <> [] ->
  valid t0 = true ->
  transform_lines lines hdrs t0 = Ok rows <->
  Forall (fun line => (length hdrs <= S (length line))%nat) lines
  /\ (forall il, (il < length lines)%nat ->
        total_seconds t0 + 2 * Z.of_nat il <= LAST_SECOND)
  /\ rows = imap (expected_row hdrs t0) lines.
Proof.
  intros Hne Hv. split.
  - intros H. unfold transform_lines in H.
    destruct (transform_inv hdrs Hne t0 lines [] rows H) as (-> & Hall & Hadds).
    split; [exact Hall|]. split; [|reflexivity].
    intros il Hil. apply (stamp_in_range t0 Hv). exact (Hadds il Hil).
  - intros (Hall & Hr & ->).
    destruct lines as [|line lines]; [reflexivity|].
    apply transform_lines_ok; try assumption.
    specialize (Hr (length lines) ltac:(simpl; lia)). simpl length. lia.
Qed.

Lemma transform_lines_iff_witness :
  transform_lines [["a:1"; "b:2"; "c:3"; "d:4"]] headers
    (mk_datetime 2024 1 15 9 0 0)
  = Ok [expected_row headers (mk_datetime 2024 1 15 9 0 0) 0
          ["a:1"; "b:2"; "c:3"; "d:4"]]
  <-> Forall (fun line => (length headers <= S (length line))%nat)
        [["a:1"; "b:2"; "c:3"; "d:4"]]
      /\ (forall il, (il < 1)%nat ->
            total_seconds (mk_datetime 2024 1 15 9 0 0) + 2 * Z.of_nat il
            <= LAST_SECOND)
      /\ [expected_row headers (mk_datetime 2024 1 15 9 0 0) 0
            ["a:1"; "b:2"; "c:3"; "d:4"]]
         = imap (expected_row headers (mk_datetime 2024 1 15 9 0 0))
             [["a:1"; "b:2"; "c:3"; "d:4"]].
Proof.
  apply (transform_lines_iff headers (mk_datetime 2024 1 15 9 0 0)
           [["a:1"; "b:2"; "c:3"; "d:4"]]
           [expected_row headers (mk_datetime 2024 1 15 9 0 0) 0
              ["a:1"; "b:2"; "c:3"; "d:4"]]).
  - discriminate.
  - reflexivity.
Defined.

(** X4 (lines 61-65 before lines 67-71): the time stamp of a row is
    computed before its cells are stored, so the first row whose time stamp
    would pass 9999-12-31 23:59:59 makes the loop raise [OverflowError],
    whatever the number of its cells. *)
Theorem stamp_overflow (t0 : datetime) (before after : list (list string))
    (line : list string) :
  valid t0 = true ->
  Forall (fun line => (4 <= length line)%nat) before ->
  LAST_SECOND - 2 < total_seconds t0 + 2 * (Z.of_nat (length before) - 1)
                  <= LAST_SECOND ->
  transform_lines (before ++ line :: after) headers t0 = Raise OverflowError.
Proof.
  intros Hv Hall Hr. unfold transform_lines.
  rewrite for_enumerate_app.
  change (for_enumerate (store_line headers t0) 0 before [])
    with (transform_lines before headers t0).
  rewrite (transform_lines_ok t0 Hv headers headers_nonempty before);
    [|eapply Forall_impl; [exact Hall|]; simpl; intros; lia|lia].
  rewrite bind_ok, for_enumerate_cons. unfold store_line.
  rewrite (row_data_overflow t0 Hv) by (simpl; lia). reflexivity.
Qed.

Lemma stamp_overflow_witness :
  transform_lines
    ([["a:1"; "b:2"; "c:3"; "d:4"]] ++ ["a:1"] :: [])
    headers (mk_datetime 9999 12 31 23 59 58)
  = Raise OverflowError.
Proof.
  apply (stamp_overflow (mk_datetime 9999 12 31 23 59 58)
           [["a:1"; "b:2"; "c:3"; "d:4"]] [] ["a:1"]).
  - reflexivity.
  - repeat constructor.
  - vm_compute. split; [reflexivity|discriminate].
Defined.

(** X5 (lines 46-73 with lines 370-376): whenever the row transformer
    returns, every dict has exactly the five headers as its keys, so the
    [DictWriter] cannot reject a row: the file is the header row followed,
    for each line in order, by the record of its first five values, the
    stripped cells and then the time stamp, each ended by [\r\n]. *)
Theorem written_file (t0 : datetime) (lines : list (list string))
    (rows : list row) :
  transform_lines lines headers t0 = Ok rows ->
  length rows = length lines
  /\ Forall (fun r => dom r = list_to_set headers) rows
  /\ write_csv headers rows
     = Ok (HEADER_ROW
           +:+ String.concat EmptyString
                 (imap (fun il line => writerow (written_record t0 il line))
                    lines)).
Proof.
  intros H. pose proof H as H'. unfold transform_lines in H'.
  destruct (transform_inv headers headers_nonempty t0 lines [] rows H')
    as (Hrows & Hall & _).
  subst rows.
  change ([] ++ imap (fun i => expected_row headers t0 (length [] + i)) lines)
    with (imap (fun i => expected_row headers t0 (0 + i)) lines) in *.
  split; [apply length_imap|]. split.
  - apply Forall_forall. intros r Hr.
    apply elem_of_lookup_imap in Hr as (i & line & -> & Hi).
    unfold expected_row. apply row_of_dom.
    rewrite length_app, length_map. simpl.
    rewrite Forall_forall in Hall.
    specialize (Hall line (list_elem_of_lookup_2 _ _ _ Hi)). simpl in Hall. lia.
  - exact (written_rows t0 lines _ H).
Qed.

Lemma written_file_witness :
  write_csv headers
    [expected_row headers (mk_datetime 2024 1 15 9 0 0) 0
       ["a:1"; "b:2"; "c:3"; "d:4"]]
  = Ok (HEADER_ROW +:+ "1,2,3,4,2024.01.15 09:00:00" +:+ CRLF).
Proof.
  destruct (written_file (mk_datetime 2024 1 15 9 0 0)
              [["a:1"; "b:2"; "c:3"; "d:4"]]
              [expected_row headers (mk_datetime 2024 1 15 9 0 0) 0
                 ["a:1"; "b:2"; "c:3"; "d:4"]])
    as (_ & _ & Hw).
  - reflexivity.
  - rewrite Hw. vm_compute. reflexivity.
Defined.

(** ** Cells, tokens and line ends *)

Section Cells.

Lemma split_segments (sep : ascii) (s : string) :
  Forall (fun seg => contains sep seg = false) (split sep s).
Proof.
  induction s as [|c s IH]; simpl.
  - repeat constructor.
  - destruct (Ascii.eqb c sep) eqn:E.
    + constructor; [reflexivity|exact IH].
    + destruct (split sep s) as [|seg segs].
      * repeat constructor. simpl. now rewrite E.
      * apply Forall_cons in IH as [Hseg Hsegs].
        constructor; [|exact Hsegs]. simpl. now rewrite E, Hseg.
Qed.

Lemma lstrip_contains (c : ascii) (s : string) :
  contains c s = false -> contains c (lstrip s) = false.
Proof.
  induction s as [|d s IH]; simpl; [reflexivity|].
  intros H. apply orb_false_iff in H as [H1 H2].
  destruct (isspace d); [auto|]. simpl. now rewrite H1, H2.
Qed.

Lemma rstrip_contains (c : ascii) (s : string) :
  contains c s = false -> contains c (rstrip s) = false.
Proof.
  induction s as [|d s IH]; simpl; [reflexivity|].
  intros H. apply orb_false_iff in H as [H1 H2]. specialize (IH H2).
  destruct (rstrip s) as [|e r].
  - destruct (isspace d); [reflexivity|]. simpl. now rewrite H1.
  - simpl. rewrite H1. exact IH.
Qed.

Lemma rstrip_cons (c : ascii) (s : string) :
  isspace c = false -> rstrip (String c s) = String c (rstrip s).
Proof. intros H. simpl. destruct (rstrip s); [now rewrite H|reflexivity]. Qed.

Lemma rstrip_idem (s : string) : rstrip (rstrip s) = rstrip s.
Proof.
  induction s as [|c s IH]; [reflexivity|].
  simpl. destruct (rstrip s) as [|e r] eqn:E.
  - destruct (isspace c) eqn:Hc; [reflexivity|]. simpl. now rewrite Hc.
  - change (rstrip (String c (String e r))) with
      (match rstrip (String e r) with
       | EmptyString => if isspace c then EmptyString else String c EmptyString
       | r' => String c r'
       end).
    rewrite IH. reflexivity.
Qed.

Lemma lstrip_head (s : string) :
  lstrip s = EmptyString
  \/ exists c r, lstrip s = String c r /\ isspace c = false.
Proof.
  induction s as [|c s IH]; simpl; [now left|].
  destruct (isspace c) eqn:E; [exact IH|]. right. eauto.
Qed.

Lemma strip_idem (s : string) : strip (strip s) = strip s.
Proof.
  unfold strip. destruct (lstrip_head s) as [->|(c & r & -> & Hc)].
  - reflexivity.
  - rewrite (rstrip_cons c r Hc). simpl lstrip. rewrite Hc.
    rewrite <- (rstrip_cons c r Hc). apply rstrip_idem.
Qed.

Lemma split_ws_tokens (s : string) :
  Forall (fun t => t <> EmptyString /\ existsb isspace t = false) (split_ws s).
Proof.
  induction s as [|c s IH]; [constructor|].
  cbn [split_ws]. destruct (isspace c) eqn:Hc; [exact IH|].
  destruct s as [|c' s'].
  - repeat constructor; [discriminate|]. simpl. now rewrite Hc.
  - destruct (isspace c') eqn:Hc'.
    + constructor; [|exact IH]. split; [discriminate|]. simpl. now rewrite Hc.
    + destruct (split_ws (String c' s')) as [|t ts].
      * repeat constructor; [discriminate|]. simpl. now rewrite Hc.
      * apply Forall_cons in IH as [[_ Ht] Hts].
        constructor; [|exact Hts]. split; [discriminate|].
        simpl. now rewrite Hc, Ht.
Qed.

End Cells.

(** X6 (line 60, [d.split(":")[-1].strip()]): taking the value of a cell
    never raises, whatever the cell holds; the value has no colon and no
    white space at either end, and a cell without a colon is kept whole,
    stripped. *)
Theorem cell_value_total (d : string) :
  exists v,
    strip_prefix d = Ok v
    /\ contains COLON v = false
    /\ strip v = v
    /\ (contains COLON d = false -> v = strip d).
Proof.
  exists (cell_value d). split; [apply strip_prefix_ok|].
  unfold cell_value. split; [|split].
  - unfold strip. apply rstrip_contains, lstrip_contains.
    pose proof (split_segments COLON d) as Hall.
    destruct (last (split COLON d)) as [v|] eqn:E; [|reflexivity].
    rewrite Forall_forall in Hall. apply Hall.
    apply last_Some in E as [l' ->]. apply elem_of_app. right.
    apply list_elem_of_here.
  - apply strip_idem.
  - intros H. rewrite split_no_sep by exact H. reflexivity.
Qed.

Lemma cell_value_total_witness :
  exists v,
    strip_prefix "22.5 C " = Ok v
    /\ contains COLON v = false
    /\ strip v = v
    /\ (contains COLON "22.5 C " = false -> v = strip "22.5 C ").
Proof. exact (cell_value_total "22.5 C "). Defined.

(** X7 (lines 39-44): when the header parser returns, the second component
    is made of two tokens of the title joined by one space, neither empty
    and neither holding white space, and the first component is the first
    field of the first record. *)
Theorem header_date_shape (content title text : string) :
  get_first_line_info content = Ok (title, text) ->
  (exists more later, iternext (open_lines content) = Ok (title :: more, later))
  /\ exists date time,
       text = date +:+ " " +:+ time
       /\ date <> EmptyString /\ time <> EmptyString
       /\ existsb isspace date = false /\ existsb isspace time = false.
Proof.
  unfold get_first_line_info. intros H.
  destruct (iternext (open_lines content)) as [[record later]|] eqn:E;
    [|discriminate].
  destruct record as [|title' more]; [discriminate|].
  change (('(date, time) ← title_date_time title';
           Ok (title', date +:+ " " +:+ time)) = Ok (title, text)) in H.
  destruct (title_date_time title') as [[date time]|] eqn:Et; [|discriminate].
  injection H as <- <-.
  split; [eauto|]. exists date, time. split; [reflexivity|].
  unfold title_date_time in Et.
  destruct (getitem (split1 SPACE title') 1) as [rest|]; [|discriminate].
  rewrite bind_ok in Et.
  destruct (getitem (rsplit1 SPACE rest) 0) as [middle|]; [|discriminate].
  rewrite bind_ok in Et.
  pose proof (split_ws_tokens middle) as Hall.
  apply (Forall_drop _ 2) in Hall.
  destruct (drop 2 (split_ws middle)) as [|a [|b [|? ?]]]; try discriminate.
  injection Et as -> ->.
  apply Forall_cons in Hall as [[Hd1 Hd2] Hall].
  apply Forall_cons in Hall as [[Ht1 Ht2] _].
  repeat split; assumption.
Qed.

Lemma header_date_shape_witness :
  (exists more later,
     iternext (open_lines "Device XYZ Export 2024.01.15   09:00:00 end")
     = Ok ("Device XYZ Export 2024.01.15   09:00:00 end" :: more, later))
  /\ exists date time,
       "2024.01.15 09:00:00" = date +:+ " " +:+ time
       /\ date <> EmptyString /\ time <> EmptyString
       /\ existsb isspace date = false /\ existsb isspace time = false.
Proof.
  apply (header_date_shape "Device XYZ Export 2024.01.15   09:00:00 end"
           "Device XYZ Export 2024.01.15   09:00:00 end" "2024.01.15 09:00:00").
  vm_compute. reflexivity.
Defined.

(** X8 (line 39, [next(reader)[0]]): a file that begins with an empty line
    makes the header parser raise [IndexError], whatever follows, and an
    empty file makes it raise [StopIteration]; the row transformer returns
    no row for an empty file. *)
Theorem blank_first_line (rest : string) (hdrs : list string) (t0 : datetime) :
  get_first_line_info (String LF rest) = Raise IndexError
  /\ get_first_line_info (String CR rest) = Raise IndexError
  /\ get_first_line_info EmptyString = Raise StopIteration
  /\ create_writable_list EmptyString hdrs t0 = Ok [].
Proof.
  repeat split; try reflexivity.
  unfold get_first_line_info, open_lines.
  change (universal_newlines (String CR rest))
    with (match rest with
          | String c' s'' =>
              if Ascii.eqb c' LF then String LF (universal_newlines s'')
              else String LF (universal_newlines rest)
          | EmptyString => String LF EmptyString
          end).
  destruct rest as [|c' s'']; [reflexivity|].
  destruct (Ascii.eqb c' LF); reflexivity.
Qed.

(** ** Line ends and the first line *)

Section LineEnds.

Lemma universal_newlines_id (s : string) :
  contains CR s = false -> universal_newlines s = s.
Proof.
  induction s as [|c s IH]; [reflexivity|].
  intros H. simpl in H. apply orb_false_iff in H as [Hc Hs].
  cbn [universal_newlines]. rewrite Hc. now rewrite IH.
Qed.

Lemma universal_windows_newlines (s : string) :
  contains CR s = false -> universal_newlines (windows_newlines s) = s.
Proof.
  induction s as [|c s IH]; [reflexivity|].
  intros H. simpl in H. apply orb_false_iff in H as [Hc Hs].
  cbn [windows_newlines]. destruct (Ascii.eqb c LF) eqn:El.
  - apply Ascii.eqb_eq in El as ->.
    change (universal_newlines (String CR (String LF (windows_newlines s))))
      with (String LF (universal_newlines (windows_newlines s))).
    now rewrite IH.
  - cbn [universal_newlines]. rewrite Hc. now rewrite IH.
Qed.

Lemma same_lines (c1 c2 : string) :
  open_lines c1 = open_lines c2 ->
  get_first_line_info c1 = get_first_line_info c2
  /\ (forall hdrs t0,
        create_writable_list c1 hdrs t0 = create_writable_list c2 hdrs t0)
  /\ convert c1 = convert c2.
Proof.
  intros H.
  assert (H1 : get_first_line_info c1 = get_first_line_info c2)
    by (unfold get_first_line_info; now rewrite H).
  assert (H2 : forall hdrs t0,
             create_writable_list c1 hdrs t0 = create_writable_list c2 hdrs t0)
    by (intros; unfold create_writable_list; now rewrite H).
  split; [exact H1|]. split; [exact H2|].
  unfold convert. rewrite H1.
  destruct (get_first_line_info c2) as [[title date]|]; [|reflexivity].
  rewrite !bind_ok.
  destruct (strptime date) as [t0|]; [|reflexivity].
  rewrite !bind_ok. now rewrite H2.
Qed.

End LineEnds.

Section FirstLine.

Lemma step_unquoted (r r' : reader) (c : ascii) :
  in_quotes r = false -> Ascii.eqb c QUOTE = false ->
  parse_process_char r (Some c) = Ok r' -> in_quotes r' = false.
Proof.
  destruct r as [st fs f]. unfold in_quotes. cbn [state].
  intros Hq Hc H.
  destruct st; try discriminate;
    unfold parse_process_char, parse_add_char in H; cbn [state] in H;
    rewrite ?Hc in H;
    repeat match type of H with
           | context [if ?b then _ else _] => destruct b
           end;
    try discriminate; injection H as <-; reflexivity.
Qed.

Lemma chars_unquoted (s : string) :
  forall r r', in_quotes r = false -> contains QUOTE s = false ->
  process_chars r s = Ok r' -> in_quotes r' = false.
Proof.
  induction s as [|c s IH]; intros r r' Hq Hs H.
  - injection H as <-. exact Hq.
  - simpl in Hs. apply orb_false_iff in Hs as [Hc Hs].
    cbn [process_chars] in H.
    destruct (parse_process_char r (Some c)) as [r1|] eqn:E; [|discriminate].
    rewrite bind_ok in H.
    exact (IH r1 r' (step_unquoted r r1 c Hq Hc E) Hs H).
Qed.

Lemma end_of_line_unquoted (r r' : reader) :
  in_quotes r = false ->
  parse_process_char r None = Ok r' -> state r' = START_RECORD.
Proof.
  destruct r as [st fs f]. unfold in_quotes. cbn [state].
  intros Hq H. destruct st; try discriminate;
    injection H as <-; reflexivity.
Qed.

Lemma first_line_record (l : string) (later : list string) :
  contains QUOTE l = false ->
  iternext (l :: later)
  = r ← process_line parse_reset l; Ok (fields r, later).
Proof.
  intros Hl. unfold iternext. cbn [iternext_from].
  destruct (process_line parse_reset l) as [r|] eqn:E; [|reflexivity].
  rewrite !bind_ok. unfold process_line in E.
  destruct (process_chars parse_reset l) as [r1|] eqn:E1; [|discriminate].
  rewrite bind_ok in E.
  pose proof (chars_unquoted l parse_reset r1 eq_refl Hl E1) as Hq.
  rewrite (end_of_line_unquoted r1 r Hq E). reflexivity.
Qed.

End FirstLine.

(** X9 (lines 37 and 50, [open(file_path, "r")]): the raw files are read
    with universal newlines, so a file whose lines end in [\r\n] is read,
    and converted, exactly as the same file with [\n] line ends. *)
Theorem newline_conventions (content : string) :
  contains CR content = false ->
  open_lines (windows_newlines content) = open_lines content
  /\ get_first_line_info (windows_newlines content) = get_first_line_info content
  /\ (forall hdrs t0,
        create_writable_list (windows_newlines content) hdrs t0
        = create_writable_list content hdrs t0)
  /\ convert (windows_newlines content) = convert content.
Proof.
  intros H.
  assert (Hl : open_lines (windows_newlines content) = open_lines content).
  { unfold open_lines.
    now rewrite universal_windows_newlines, universal_newlines_id. }
  split; [exact Hl|]. apply same_lines. exact Hl.
Qed.

Lemma newline_conventions_witness :
  open_lines (windows_newlines sample_file) = open_lines sample_file
  /\ get_first_line_info (windows_newlines sample_file)
     = get_first_line_info sample_file
  /\ (forall hdrs t0,
        create_writable_list (windows_newlines sample_file) hdrs t0
        = create_writable_list sample_file hdrs t0)
  /\ convert (windows_newlines sample_file) = convert sample_file.
Proof.
  apply (newline_conventions sample_file). vm_compute. reflexivity.
Defined.

(** X10 (line 39, [next(reader)]): the header parser consumes one record;
    when the first line holds no quote character that record ends with the
    line, so nothing after the first line changes what the header parser
    returns or raises. *)
Theorem first_line_only (c1 c2 l : string) (later1 later2 : list string) :
  open_lines c1 = l :: later1 ->
  open_lines c2 = l :: later2 ->
  contains QUOTE l = false ->
  get_first_line_info c1 = get_first_line_info c2.
Proof.
  intros H1 H2 Hl. unfold get_first_line_info.
  rewrite H1, H2, !first_line_record by exact Hl.
  destruct (process_line parse_reset l) as [r|]; reflexivity.
Qed.

Lemma first_line_only_witness :
  get_first_line_info sample_file
  = get_first_line_info
      ("Device XYZ Export 2024.01.15 23:59:59 end" +:+ String LF
       (String QUOTE "unclosed")).
Proof.
  apply (first_line_only sample_file
           ("Device XYZ Export 2024.01.15 23:59:59 end" +:+ String LF
            (String QUOTE "unclosed"))
           ("Device XYZ Export 2024.01.15 23:59:59 end" +:+ String LF EmptyString)
           ["a:400,b:22.5,c:410,d:395" +:+ String LF EmptyString;
            "a:401,b:22.6,c:410,d:395" +:+ String LF EmptyString]
           [String QUOTE "unclosed"]);
    vm_compute; reflexivity.
Defined.

(** ** Durations *)

Section Durations.

Lemma int_digits_raises (s : string) :
  forall acc b e, int_digits acc b s = Raise e -> e = ValueError.
Proof.
  induction s as [|c s IH]; intros acc b e H; cbn [int_digits] in H.
  - destruct b; [discriminate|congruence].
  - destruct (isdigit c); [eauto|].
    destruct (_ && _); [eauto|congruence].
Qed.

Lemma int_raises (s : string) (e : exn) : int s = Raise e -> e = ValueError.
Proof.
  unfold int. destruct (MAX_STR_DIGITS <? count_digits s); [congruence|].
  destruct (rskip (lskip s)) as [|c s']; [congruence|].
  destruct (Ascii.eqb c "-").
  - destruct (int_digits 0 false s') eqn:E; [discriminate|].
    intros [= <-]. eapply int_digits_raises, E.
  - destruct (Ascii.eqb c "+"); apply int_digits_raises.
Qed.

Lemma mapM_raises {A B : Type} (f : A -> result B) (P : exn -> Prop)
    (l : list A) (e : exn) :
  (forall x e, f x = Raise e -> P e) -> mapM f l = Raise e -> P e.
Proof.
  intros Hf. induction l as [|x l IH]; [discriminate|].
  cbn [mapM]. destruct (f x) eqn:E; [|intros [= <-]; eauto].
  rewrite bind_ok. destruct (mapM f l); [discriminate|].
  intros [= <-]. auto.
Qed.

Lemma mapM_length {A B : Type} (f : A -> result B) (l : list A) :
  forall r, mapM f l = Ok r -> length r = length l.
Proof.
  induction l as [|x l IH]; intros r; cbn [mapM].
  - intros [= <-]. reflexivity.
  - destruct (f x); [|discriminate]. rewrite bind_ok.
    destruct (mapM f l) as [ys|]; [|discriminate].
    rewrite bind_ok. intros [= <-]. simpl. f_equal. now apply IH.
Qed.

Lemma unpack2_length {A : Type} (l : list A) :
  length l <> 2%nat -> unpack2 l = Raise ValueError.
Proof. destruct l as [|a [|b [|c l]]]; simpl; intros H; congruence. Qed.








End Durations.

(** X11 ([parse_time_duration], lines 133-134): a duration text that is not
    made of exactly two colon-separated parts raises [ValueError], and
    whatever the text the function raises nothing but [ValueError] or
    [OverflowError]. *)
Theorem duration_parts (duration_str : string) :
  (length (split COLON duration_str) <> 2%nat ->
   parse_time_duration duration_str = Raise ValueError)
  /\ (forall e, parse_time_duration duration_str = Raise e ->
        e = ValueError \/ e = OverflowError).
Proof.
  unfold parse_time_duration. split.
  - intros Hlen.
    destruct (mapM int (split COLON duration_str)) as [numbers|e] eqn:E.
    + rewrite bind_ok, unpack2_length; [reflexivity|].
      now rewrite (mapM_length _ _ _ E).
    + rewrite (mapM_raises int (fun e => e = ValueError) _ _ int_raises E).
      reflexivity.
  - intros e.
    destruct (mapM int (split COLON duration_str)) as [numbers|e'] eqn:E.
    + rewrite bind_ok. destruct numbers as [|a [|b [|c l]]];
        try (intros [= <-]; now left).
      simpl. unfold timedelta. cbv zeta. destruct (_ && _); [discriminate|].
      intros [= <-]. now right.
    + intros [= <-]. left.
      exact (mapM_raises int (fun e => e = ValueError) _ _ int_raises E).
Qed.

Lemma duration_parts_witness :
  parse_time_duration "01:30:00" = Raise ValueError.
Proof.
  apply (proj1 (duration_parts "01:30:00")). vm_compute. discriminate.
Defined.



(** ** The configuration files *)

Section ConfigFiles.

Variable json_loads : string -> result json.

Lemma load_config_reads (w : world) (config_path text : string) (v : json) :
  configs w !! config_path = Some (Text text) ->
  json_loads text = Ok v ->
  load_config json_loads w config_path = Ok (v, w).
Proof.
  intros Hc Hj. unfold load_config, open_read. rewrite Hc, bind_ok, Hj.
  reflexivity.
Qed.


End ConfigFiles.

Section DictRows.

Lemma set_none_other (l : list string) (d : gmap string (option string))
    (key : string) :
  key ∉ l -> foldl (fun d key => <[ key := None ]> d) d l !! key = d !! key.
Proof.
  revert d; induction l as [|k l IH]; intros d Hk; [reflexivity|].
  apply not_elem_of_cons in Hk as [Hne Hk]. simpl.
  rewrite IH by exact Hk. apply lookup_insert_ne. congruence.
Qed.

Lemma set_none_here (l : list string) (d : gmap string (option string))
    (key : string) :
  key ∈ l -> foldl (fun d key => <[ key := None ]> d) d l !! key = Some None.
Proof.
  revert d; induction l as [|k l IH]; intros d Hk; [inversion Hk|].
  simpl. destruct (decide (key ∈ l)) as [Hin|Hnin].
  - apply IH. exact Hin.
  - rewrite set_none_other by exact Hnin.
    apply elem_of_cons in Hk as [->|Hk]; [|contradiction].
    apply lookup_insert_eq.
Qed.

Lemma zip_keys_nodup {B : Type} (l : list string) (k : list B) :
  NoDup l -> NoDup (zip l k).*1.
Proof.
  revert k; induction l as [|x l IH]; intros k Hnd; [constructor|].
  apply NoDup_cons in Hnd as [Hx Hnd].
  destruct k as [|y k]; [constructor|]. simpl. apply NoDup_cons.
  split; [|auto]. intros Hin. apply Hx.
  apply list_elem_of_fmap in Hin as ([a b] & -> & Hin). simpl.
  exact (elem_of_zip_l _ _ _ _ Hin).
Qed.

Variable fieldnames : list string.
Variable record : list string.

Lemma dictreader_missing (key : string) :
  key ∉ fieldnames -> dictreader_row fieldnames record !! key = None.
Proof.
  intros Hk. unfold dictreader_row.
  rewrite set_none_other.
  - apply not_elem_of_list_to_map_1. rewrite fmap_reverse, elem_of_reverse.
    intros Hin. apply Hk.
    apply list_elem_of_fmap in Hin as ([a b] & -> & Hin). simpl.
    exact (elem_of_zip_l _ _ _ _ Hin).
  - intros Hin. apply Hk. rewrite <- (take_drop (length record) fieldnames).
    apply elem_of_app. now right.
Qed.

Lemma dictreader_present (key : string) :
  key ∈ fieldnames -> is_Some (dictreader_row fieldnames record !! key).
Proof.
  intros Hk. unfold dictreader_row.
  destruct (decide (key ∈ drop (length record) fieldnames)) as [Hin|Hnin].
  - rewrite set_none_here by exact Hin. eauto.
  - rewrite set_none_other by exact Hnin.
    rewrite <- (take_drop (length record) fieldnames) in Hk.
    apply elem_of_app in Hk as [Hk|Hk]; [|contradiction].
    apply list_elem_of_lookup in Hk as [i Hi].
    apply lookup_take_Some in Hi as [Hi Hlt].
    destruct (lookup_lt_is_Some_2 record i Hlt) as [v Hv].
    apply not_eq_None_Some. intros Hnone.
    apply not_elem_of_list_to_map in Hnone. apply Hnone.
    rewrite fmap_reverse, elem_of_reverse.
    apply list_elem_of_fmap. exists (key, Some v). split; [reflexivity|].
    apply list_elem_of_lookup. exists i.
    apply lookup_zip_with_Some. exists key, (Some v).
    split; [reflexivity|]. split; [exact Hi|].
    change (map Some record) with (Some <$> record).
    rewrite list_lookup_fmap, Hv. reflexivity.
Qed.

Hypothesis fieldnames_nodup : NoDup fieldnames.

Lemma dictreader_lookup (key : string) (i : nat) :
  fieldnames !! i = Some key ->
  dictreader_row fieldnames record !! key = Some (record !! i).
Proof.
  intros Hi. unfold dictreader_row.
  destruct (record !! i) as [v|] eqn:Hv.
  - rewrite set_none_other.
    + apply elem_of_list_to_map.
      * rewrite fmap_reverse, reverse_Permutation.
        apply zip_keys_nodup, fieldnames_nodup.
      * apply elem_of_reverse, list_elem_of_lookup. exists i.
        apply lookup_zip_with_Some. exists key, (Some v).
        split; [reflexivity|]. split; [exact Hi|].
        change (map Some record) with (Some <$> record).
        rewrite list_lookup_fmap, Hv. reflexivity.
    + intros Hin. apply list_elem_of_lookup in Hin as [j Hj].
      rewrite lookup_drop in Hj.
      pose proof (NoDup_lookup _ _ _ _ fieldnames_nodup Hi Hj) as Heq.
      apply lookup_lt_Some in Hv. lia.
  - apply set_none_here. apply list_elem_of_lookup.
    apply lookup_ge_None in Hv.
    exists (i - length record)%nat. rewrite lookup_drop.
    replace (length record + (i - length record))%nat with i by lia.
    exact Hi.
Qed.

End DictRows.

Section CsvRequests.

Variable fieldnames : list string.

Lemma add_plot_config_blank (plots : list json) :
  add_plot_config (Some fieldnames, plots) [] = Ok (Some fieldnames, plots).
Proof. reflexivity. Qed.

Lemma add_plot_config_nonblank (plots : list json) (record : list string) :
  record <> [] ->
  add_plot_config (Some fieldnames, plots) record
  = (let r := dictreader_row fieldnames record in
     f ← row_item r "File";
     s ← row_item r "Start";
     d ← row_item r "Duration";
     Ok (Some fieldnames,
         plots ++ [JDict [("file", f); ("from", s); ("length", d)]])).
Proof. destruct record; [congruence|reflexivity]. Qed.

Lemma row_item_missing (record : list string) (key : string) :
  key ∉ fieldnames ->
  row_item (dictreader_row fieldnames record) key = Raise KeyError.
Proof.
  intros Hk. unfold row_item. now rewrite dictreader_missing.
Qed.

Lemma row_item_raises (record : list string) (key : string) (e : exn) :
  row_item (dictreader_row fieldnames record) key = Raise e -> e = KeyError.
Proof. unfold row_item. destruct (_ !! key); congruence. Qed.

Lemma missing_column_record (plots : list json) (record : list string) :
  ~ ("File" ∈ fieldnames /\ "Start" ∈ fieldnames /\ "Duration" ∈ fieldnames) ->
  record <> [] ->
  add_plot_config (Some fieldnames, plots) record = Raise KeyError.
Proof.
  intros Hmiss Hrec. rewrite add_plot_config_nonblank by exact Hrec.
  cbv zeta.
  destruct (row_item (dictreader_row fieldnames record) "File") as [f|e] eqn:Ef;
    [|now rewrite (row_item_raises _ _ _ Ef)].
  rewrite bind_ok.
  destruct (row_item (dictreader_row fieldnames record) "Start") as [s|e] eqn:Es;
    [|now rewrite (row_item_raises _ _ _ Es)].
  rewrite bind_ok.
  destruct (row_item (dictreader_row fieldnames record) "Duration") as [d|e] eqn:Ed;
    [|now rewrite (row_item_raises _ _ _ Ed)].
  exfalso. apply Hmiss.
  repeat split;
    match goal with
    | |- ?key ∈ _ =>
        destruct (decide (key ∈ fieldnames)) as [Hin|Hnin]; [exact Hin|];
        pose proof (row_item_missing record key Hnin) as Hr; congruence
    end.
Qed.

Lemma missing_column_records (records : list (list string)) (plots : list json) :
  ~ ("File" ∈ fieldnames /\ "Start" ∈ fieldnames /\ "Duration" ∈ fieldnames) ->
  nonblank records <> [] ->
  for_each add_plot_config records (Some fieldnames, plots) = Raise KeyError.
Proof.
  intros Hmiss. induction records as [|record records IH]; intros Hne.
  - now contradiction Hne.
  - rewrite for_each_cons. destruct record as [|c record].
    + rewrite add_plot_config_blank, bind_ok. apply IH.
      intros H. apply Hne. unfold nonblank in *.
      rewrite filter_cons_False; [exact H|]. intros Hn. now apply Hn.
    + rewrite missing_column_record; [reflexivity|exact Hmiss|discriminate].
Qed.

Hypothesis fieldnames_nodup : NoDup fieldnames.
Variables i j k : nat.
Hypothesis file_column : fieldnames !! i = Some "File".
Hypothesis start_column : fieldnames !! j = Some "Start".
Hypothesis duration_column : fieldnames !! k = Some "Duration".

Lemma named_columns_record (plots : list json) (record : list string) :
  record <> [] ->
  add_plot_config (Some fieldnames, plots) record
  = Ok (Some fieldnames, plots ++ [plot_of_columns i j k record]).
Proof.
  intros Hrec. rewrite add_plot_config_nonblank by exact Hrec.
  cbv zeta. unfold row_item.
  rewrite (dictreader_lookup fieldnames record fieldnames_nodup _ _ file_column).
  rewrite bind_ok.
  rewrite (dictreader_lookup fieldnames record fieldnames_nodup _ _ start_column).
  rewrite bind_ok.
  rewrite (dictreader_lookup fieldnames record fieldnames_nodup _ _ duration_column).
  reflexivity.
Qed.

Lemma named_columns_records (records : list (list string)) :
  forall plots,
  for_each add_plot_config records (Some fieldnames, plots)
  = Ok (Some fieldnames,
        plots ++ map (plot_of_columns i j k) (nonblank records)).
Proof.
  induction records as [|record records IH]; intros plots.
  - simpl. now rewrite app_nil_r.
  - rewrite for_each_cons. destruct record as [|c record].
    + rewrite add_plot_config_blank, bind_ok, IH. unfold nonblank.
      rewrite filter_cons_False; [reflexivity|]. intros Hn. now apply Hn.
    + rewrite named_columns_record by discriminate.
      rewrite bind_ok, IH. unfold nonblank.
      rewrite filter_cons_True by discriminate.
      simpl. now rewrite <- app_assoc.
Qed.

End CsvRequests.



(** X14 (line 153, [config.get]): a [cfg.json] that parses to anything but
    an object (a list, a text, a number, [true], [null]) has no [get]
    method: plotting raises [AttributeError], with no fall-back to the CSV
    configuration. *)
Theorem json_not_object
    (json_loads : string -> result json)
    (read_frame : string -> result (list sample))
    (render : json -> json -> json -> list sample -> result unit)
    (repr : json -> string)
    (w : world) (config_path csv_config_path text : string) (v : json) :
  configs w !! config_path = Some (Text text) ->
  json_loads text = Ok v ->
  not_object v = true ->
  plot_detailed_co2_data json_loads read_frame render repr w
    config_path csv_config_path
  = Raise AttributeError.
Proof.
  intros Hc Hj Hv. unfold plot_detailed_co2_data, detailed_config.
  rewrite (load_config_reads json_loads w config_path text _ Hc Hj), bind_ok.
  destruct v; try discriminate; reflexivity.
Qed.

Lemma json_not_object_witness :
  plot_detailed_co2_data (fun _ => Ok (JList [])) failing_frame blank_render
    no_repr (mk_world [] ∅ (<[ "cfg.json" := Text "[]" ]> ∅) [])
    "cfg.json" "cfg.csv"
  = Raise AttributeError.
Proof.
  apply (json_not_object (fun _ => Ok (JList [])) failing_frame blank_render
           no_repr (mk_world [] ∅ (<[ "cfg.json" := Text "[]" ]> ∅) [])
           "cfg.json" "cfg.csv" "[]" (JList []));
    reflexivity.
Defined.



(** X16 ([load_config_csv], lines 108-115): the columns are found by name,
    so their order does not matter and other columns are ignored; blank
    lines give no request, and a record too short to reach a column gives
    [None] for it instead of an error. *)
Theorem csv_columns_by_name (w : world) (config_path text : string)
    (fieldnames : list string) (records : list (list string)) (i j k : nat) :
  configs w !! config_path = Some (Text text) ->
  read_all (open_lines text) = Ok (fieldnames :: records) ->
  NoDup fieldnames ->
  fieldnames !! i = Some "File" ->
  fieldnames !! j = Some "Start" ->
  fieldnames !! k = Some "Duration" ->
  load_config_csv w config_path
  = Ok (JDict [("detailed_plots",
                JList (map (plot_of_columns i j k) (nonblank records)))], w).
Proof.
  intros Hc Hr Hnd Hi Hj Hk. unfold load_config_csv, open_read.
  rewrite Hc, bind_ok, (fold_records_read_all _ _ _ _ Hr), for_each_cons.
  change (add_plot_config (None, []) fieldnames) with
    (@Ok (option (list string) * list json) (Some fieldnames, [])).
  rewrite bind_ok, (named_columns_records fieldnames Hnd i j k Hi Hj Hk).
  reflexivity.
Qed.

Lemma csv_columns_by_name_witness :
  load_config_csv
    (mk_world [] ∅ (<[ "cfg.csv" := Text reordered_config_text ]> ∅) [])
    "cfg.csv"
  = Ok (JDict [("detailed_plots",
                JList [JDict [("file", JStr "a.csv"); ("from", JStr "09:05:00");
                              ("length", JStr "00:10")];
                       JDict [("file", JNull); ("from", JStr "10:00:00");
                              ("length", JNull)]])],
        mk_world [] ∅ (<[ "cfg.csv" := Text reordered_config_text ]> ∅) []).
Proof.
  apply (csv_columns_by_name
           (mk_world [] ∅ (<[ "cfg.csv" := Text reordered_config_text ]> ∅) [])
           "cfg.csv" reordered_config_text
           ["Start"; "Note"; "File"; "Duration"]
           [["09:05:00"; "morning"; "a.csv"; "00:10"]; [];
            ["10:00:00"; "short"]]
           2%nat 0%nat 3%nat);
    try reflexivity.
  assert (H : bool_decide (NoDup ["Start"; "Note"; "File"; "Duration"]) = true)
    by (vm_compute; reflexivity).
  apply bool_decide_eq_true in H. exact H.
Defined.

(** X17 ([load_config_csv], lines 110-114): when the header of the CSV
    configuration lacks one of [File], [Start] and [Duration], the first
    record that is not blank raises [KeyError]; it is not among the caught
    exceptions, so the loader raises instead of returning an empty
    configuration. *)
Theorem csv_missing_column (w : world) (config_path text : string)
    (fieldnames : list string) (records : list (list string)) :
  configs w !! config_path = Some (Text text) ->
  read_all (open_lines text) = Ok (fieldnames :: records) ->
  ~ ("File" ∈ fieldnames /\ "Start" ∈ fieldnames /\ "Duration" ∈ fieldnames) ->
  nonblank records <> [] ->
  load_config_csv w config_path = Raise KeyError.
Proof.
  intros Hc Hr Hmiss Hne. unfold load_config_csv, open_read.
  rewrite Hc, bind_ok, (fold_records_read_all _ _ _ _ Hr), for_each_cons.
  change (add_plot_config (None, []) fieldnames) with
    (@Ok (option (list string) * list json) (Some fieldnames, [])).
  rewrite bind_ok, (missing_column_records fieldnames records [] Hmiss Hne).
  reflexivity.
Qed.

Lemma csv_missing_column_witness :
  load_config_csv
    (mk_world [] ∅
       (<[ "cfg.csv" := Text ("File,Start" +:+ String LF "a.csv,09:05:00") ]> ∅) [])
    "cfg.csv"
  = Raise KeyError.
Proof.
  apply (csv_missing_column
           (mk_world [] ∅
              (<[ "cfg.csv" := Text ("File,Start" +:+ String LF "a.csv,09:05:00") ]> ∅) [])
           "cfg.csv" ("File,Start" +:+ String LF "a.csv,09:05:00")
           ["File"; "Start"] [["a.csv"; "09:05:00"]]);
    try reflexivity.
  - intros (_ & _ & H). vm_compute in H.
    repeat (apply elem_of_cons in H as [H|H]; [discriminate|]). inversion H.
  - discriminate.
Defined.



(** X19 (line 167, outside the [try]): a request that is not an object, or
    has no [file] key, raises [TypeError] or [KeyError] out of the loop:
    the requests before it have been handled, the ones after it are not. *)
Theorem request_without_file
    (read_frame : string -> result (list sample))
    (render : json -> json -> json -> list sample -> result unit)
    (repr : json -> string) (w : world)
    (before after : list json) (plot_config : json) (e : exn) :
  Forall (fun c => names_file c = true) before ->
  subscript plot_config "file" = Raise e ->
  for_each (plot_one read_frame render repr)
    (before ++ plot_config :: after) w = Raise e
  /\ (e = KeyError \/ e = TypeError).
Proof.
  intros Hall He. split; [|exact (subscript_raises _ _ _ He)].
  destruct (plot_loop_prints read_frame render repr before w Hall)
    as (evs & Hloop & _).
  rewrite for_each_app, Hloop, bind_ok, for_each_cons.
  unfold plot_one. rewrite He. reflexivity.
Qed.

Lemma request_without_file_witness :
  for_each (plot_one failing_frame blank_render no_repr)
    ([JDict [("file", JStr "a.csv")]]
     ++ JDict [("from", JStr "09:00:00")] :: [JDict [("file", JStr "b.csv")]])
    plot_world
  = Raise KeyError
  /\ (KeyError = KeyError \/ KeyError = TypeError).
Proof.
  apply (request_without_file failing_frame blank_render no_repr plot_world
           [JDict [("file", JStr "a.csv")]] [JDict [("file", JStr "b.csv")]]
           (JDict [("from", JStr "09:00:00")]) KeyError).
  - repeat constructor.
  - reflexivity.
Defined.

(** X20 (line 195, [.iloc[0]]): when the data frame read from the
    converted file has no row, a request that has its [from] and [length]
    fails on the first row: the message is the error of the request,
    [IndexError], not the no-data warning, and nothing is drawn. *)
Theorem empty_frame_is_an_error
    (read_frame : string -> result (list sample))
    (render : json -> json -> json -> list sample -> result unit)
    (repr : json -> string) (w : world)
    (plot_config csv_filename : json) (text : string) :
  subscript plot_config "file" = Ok csv_filename ->
  converted w !! ("converted_" +:+ format repr csv_filename) = Some text ->
  read_frame text = Ok [] ->
  is_ok (subscript plot_config "from") = true ->
  is_ok (subscript plot_config "length") = true ->
  plot_one read_frame render repr w plot_config
  = Ok (print (PlotError (format repr csv_filename) IndexError) w).
Proof.
  intros Hfile Hfound Hframe Hfrom Hlen. unfold plot_one.
  rewrite Hfile, bind_ok. cbv zeta. rewrite Hfound.
  unfold plot_body. rewrite Hframe, bind_ok.
  destruct (subscript plot_config "from"); [|discriminate].
  rewrite bind_ok.
  destruct (subscript plot_config "length"); [|discriminate].
  reflexivity.
Qed.

Lemma empty_frame_is_an_error_witness :
  plot_one empty_frame blank_render no_repr plot_world
    (JDict [("file", JStr "a.csv"); ("from", JStr "09:00:00");
            ("length", JStr "00:10")])
  = Ok (print (PlotError "a.csv" IndexError) plot_world).
Proof.
  apply (empty_frame_is_an_error empty_frame blank_render no_repr plot_world
           (JDict [("file", JStr "a.csv"); ("from", JStr "09:00:00");
                   ("length", JStr "00:10")])
           (JStr "a.csv") HEADER_ROW);
    reflexivity.
Defined.

(** X21 (lines 202-215): a negative duration is accepted and puts the end
    of the window before its start, so no row is selected: the request
    prints the no-data warning and nothing is drawn, whatever the data. *)
Theorem negative_duration_no_data
    (read_frame : string -> result (list sample))
    (render : json -> json -> json -> list sample -> result unit)
    (repr : json -> string) (w : world)
    (plot_config csv_filename : json) (text : string) (df : list sample)
    (start_time_str duration_str : string) (s e : datetime) (d : Z) :
  read_frame text = Ok df ->
  subscript plot_config "from" = Ok (JStr start_time_str) ->
  subscript plot_config "length" = Ok (JStr duration_str) ->
  plot_window df (JStr start_time_str) (JStr duration_str) = Ok (s, e) ->
  parse_time_duration duration_str = Ok d ->
  d < 0 ->
  total_seconds e < total_seconds s
  /\ filter_window s e df = []
  /\ plot_body read_frame render repr w plot_config csv_filename text
     = Ok (print (NoDataInRange (format repr csv_filename)) w).
Proof.
  intros Hframe Hfrom Hlen Hwin Hdur Hd.
  assert (Hse : total_seconds e = total_seconds s + d).
  { unfold plot_window, getitem, as_text in Hwin.
    destruct (df !! 0%nat) as [first|]; [|discriminate].
    rewrite !bind_ok in Hwin.
    destruct (strptime_HMS start_time_str) as [time|]; [|discriminate].
    rewrite !bind_ok, Hdur, bind_ok in Hwin.
    destruct (add (combine (stamp first) time) d) as [e'|] eqn:Hadd;
      [|discriminate].
    rewrite bind_ok in Hwin. injection Hwin as <- <-.
    exact (proj1 (add_spec _ _ _ Hadd)). }
  assert (Hnone : filter_window s e df = []).
  { destruct (filter_window s e df) as [|r rs] eqn:E; [reflexivity|].
    assert (Hin : r ∈ filter_window s e df)
      by (rewrite E; apply list_elem_of_here).
    apply filter_window_iff in Hin as [_ Hin]. lia. }
  split; [lia|]. split; [exact Hnone|].
  unfold plot_body. rewrite Hframe, bind_ok, Hfrom, bind_ok, Hlen, bind_ok.
  rewrite Hwin, bind_ok, Hnone. reflexivity.
Qed.

Lemma negative_duration_no_data_witness :
  total_seconds (mk_datetime 2024 1 15 8 5 0)
  < total_seconds (mk_datetime 2024 1 15 9 5 0)
  /\ filter_window (mk_datetime 2024 1 15 9 5 0) (mk_datetime 2024 1 15 8 5 0)
       sample_frame = []
  /\ plot_body fixed_frame blank_render no_repr plot_world
       (JDict [("file", JStr "a.csv"); ("from", JStr "09:05:00");
               ("length", JStr "-1:00")])
       (JStr "a.csv") HEADER_ROW
     = Ok (print (NoDataInRange "a.csv") plot_world).
Proof.
  apply (negative_duration_no_data fixed_frame blank_render no_repr plot_world
           (JDict [("file", JStr "a.csv"); ("from", JStr "09:05:00");
                   ("length", JStr "-1:00")])
           (JStr "a.csv") HEADER_ROW sample_frame "09:05:00" "-1:00"
           (mk_datetime 2024 1 15 9 5 0) (mk_datetime 2024 1 15 8 5 0) (-3600));
    reflexivity.
Defined.

(** ** What the steps of the conversion raise *)

Section Raised.

Lemma getitem_raises {A : Type} (l : list A) (i : nat) (e : exn) :
  getitem l i = Raise e -> e = IndexError.
Proof. unfold getitem. destruct (l !! i); congruence. Qed.

Lemma title_raises (title : string) (e : exn) :
  title_date_time title = Raise e -> e = IndexError \/ e = ValueError.
Proof.
  unfold title_date_time.
  destruct (getitem (split1 SPACE title) 1) as [rest|e'] eqn:E1;
    [|intros [= <-]; left; eapply getitem_raises, E1].
  rewrite bind_ok.
  destruct (getitem (rsplit1 SPACE rest) 0) as [middle|e'] eqn:E2;
    [|intros [= <-]; left; eapply getitem_raises, E2].
  rewrite bind_ok.
  destruct (drop 2 (split_ws middle)) as [|a [|b [|c l]]]; simpl;
    try discriminate; intros [= <-]; now right.
Qed.

Lemma strptime_raises (s : string) (e : exn) :
  strptime s = Raise e -> e = ValueError.
Proof.
  unfold strptime, first_match.
  destruct (p_YmdHMS s) as [|[[[[y m] d] [[h mi] sec]] [|c rest]] l];
    try (intros [= <-]; reflexivity).
  rewrite bind_ok. cbv beta iota. unfold make.
  destruct (valid_date y m d && valid_time h mi sec);
    [discriminate|intros [= <-]; reflexivity].
Qed.

Lemma row_data_raises (t0 : datetime) (il : nat) (line : list string)
    (e : exn) :
  row_data t0 il line = Raise e -> e = OverflowError.
Proof.
  unfold row_data. rewrite mapM_strip_prefix, bind_ok.
  unfold timedelta. cbv zeta.
  destruct (_ && _); [|intros [= <-]; reflexivity].
  rewrite bind_ok.
  destruct (add t0 _) as [t|e'] eqn:E; [discriminate|].
  intros [= <-].
  assert (Hf : is_ok (add t0 (0 * 3600 + 0 * 60 + Z.of_nat il * 2)) = false)
    by now rewrite E.
  apply add_overflow in Hf. congruence.
Qed.

Lemma for_enumerate_raises {A St : Type} (f : St -> nat -> A -> result St)
    (P : exn -> Prop) (l : list A) :
  (forall acc i x e, f acc i x = Raise e -> P e) ->
  forall i acc e, for_enumerate f i l acc = Raise e -> P e.
Proof.
  intros Hf. induction l as [|x l IH]; intros i acc e H; [discriminate|].
  rewrite for_enumerate_cons in H.
  destruct (f acc i x) as [acc'|e'] eqn:E.
  - rewrite bind_ok in H. eauto.
  - injection H as <-. eauto.
Qed.

Lemma store_header_raises (il : nat) (data : list string)
    (csv_list : list row) (ih : nat) (header : string) (e : exn) :
  store_header il data csv_list ih header = Raise e -> e = IndexError.
Proof.
  unfold store_header.
  destruct (getitem data ih) as [v|e'] eqn:E;
    [|intros [= <-]; eapply getitem_raises, E].
  rewrite bind_ok. destruct (ih =? 0)%nat; [discriminate|].
  destruct (getitem csv_list il) as [d|e'] eqn:E';
    [discriminate|intros [= <-]; eapply getitem_raises, E'].
Qed.

End Raised.

(** X23 (lines 167-172 after lines 369-376): the plotting phase looks a
    request up under the name the main loop wrote to, so after a main loop
    over distinctly named files a request that names a listed raw file
    finds its converted file, and what it reads is the text the conversion
    of that raw file gave. *)
Theorem request_finds_converted
    (read_frame : string -> result (list sample))
    (render : json -> json -> json -> list sample -> result unit)
    (repr : json -> string) (w w1 : world) (name content : string)
    (plot_config : json) :
  NoDup (map fst (get_csv_files w)) ->
  convert_all w = Ok w1 ->
  (name, content) ∈ get_csv_files w ->
  subscript plot_config "file" = Ok (JStr name) ->
  exists text,
    convert content = Ok text
    /\ plot_one read_frame render repr (print CreatingDetailedPlots w1) plot_config
       = try_except
           (plot_body read_frame render repr (print CreatingDetailedPlots w1)
              plot_config (JStr name) text)
           (fun _ => true)
           (fun e => Ok (print (PlotError name e) (print CreatingDetailedPlots w1))).
Proof.
  intros Hnd Hall Hin Hfile.
  destruct (main_loop_written w w1 Hnd Hall)
    as (outs & Hconv & Hnd' & _ & Hout & _).
  destruct (Hout name content Hin) as (text & Ht & Ho).
  pose proof (write_all_lookup outs (converted w) _ _ Hnd' Ho) as Hl.
  rewrite <- Hconv in Hl. unfold output_name in Hl.
  exists text. split; [exact Ht|].
  unfold plot_one. rewrite Hfile, bind_ok. cbv zeta.
  cbn [format converted print]. rewrite Hl. reflexivity.
Qed.

Lemma request_finds_converted_witness :
  exists w1 text,
    convert_all sample_world = Ok w1
    /\ convert sample_file = Ok text
    /\ plot_one failing_frame blank_render no_repr
         (print CreatingDetailedPlots w1) (JDict [("file", JStr "day1.csv")])
       = try_except
           (plot_body failing_frame blank_render no_repr
              (print CreatingDetailedPlots w1)
              (JDict [("file", JStr "day1.csv")]) (JStr "day1.csv") text)
           (fun _ => true)
           (fun e => Ok (print (PlotError "day1.csv" e)
                           (print CreatingDetailedPlots w1))).
Proof.
  destruct (convert_all sample_world) as [w1|e] eqn:E;
    [|vm_compute in E; discriminate].
  destruct (request_finds_converted failing_frame blank_render no_repr
              sample_world w1 "day1.csv" sample_file
              (JDict [("file", JStr "day1.csv")]))
    as (text & Ht & Hp).
  - vm_compute. apply NoDup_singleton.
  - exact E.
  - vm_compute. apply list_elem_of_here.
  - reflexivity.
  - exists w1, text. split; [reflexivity|]. split; [exact Ht|exact Hp].
Defined.

(** ** The title record and the data records *)

Section TitleRecord.

Lemma fold_after_record {St : Type} (f : St -> list string -> result St)
    (lines : list string) :
  forall r rec later acc,
  iternext_from r lines = Ok (rec, later) ->
  fold_from f r lines acc
  = acc' ← f acc rec; fold_from f parse_reset later acc'.
Proof.
  induction lines as [|l lines IH]; intros r rec later acc H;
    cbn [iternext_from] in H; cbn [fold_from].
  - destruct (pending r); [|discriminate]. injection H as <- <-.
    cbn [fields parse_save_field].
    destruct (f acc (fields r ++ [field r])); reflexivity.
  - destruct (process_line r l) as [r'|]; [|discriminate].
    rewrite bind_ok in H. rewrite bind_ok.
    destruct (state_eqb (state r') START_RECORD).
    + injection H as <- <-. reflexivity.
    + apply IH. exact H.
Qed.

Lemma collect_after (lines : list string) :
  forall r (p acc : list (list string)),
  fold_from (fun acc rec => Ok (acc ++ [rec])) r lines (p ++ acc)
  = rs ← fold_from (fun acc rec => Ok (acc ++ [rec])) r lines acc;
    Ok (p ++ rs).
Proof.
  induction lines as [|l lines IH]; intros r p acc; cbn [fold_from].
  - destruct (pending r); [|reflexivity].
    cbv beta. rewrite <- app_assoc. reflexivity.
  - destruct (process_line r l) as [r'|]; [|reflexivity].
    rewrite !bind_ok.
    destruct (state_eqb (state r') START_RECORD); [|apply IH].
    cbv beta.
    change (fold_from (fun acc rec => Ok (acc ++ [rec])) parse_reset lines
              ((p ++ acc) ++ [fields r'])
            = rs ← fold_from (fun acc rec => Ok (acc ++ [rec])) parse_reset
                     lines (acc ++ [fields r']);
              Ok (p ++ rs)).
    rewrite <- app_assoc. apply IH.
Qed.

Lemma records_after (lines later : list string) (rec : list string) :
  iternext lines = Ok (rec, later) ->
  read_all lines = rs ← read_all later; Ok (rec :: rs).
Proof.
  intros H. unfold read_all, fold_records.
  rewrite (fold_after_record _ lines parse_reset rec later [] H), bind_ok.
  exact (collect_after later parse_reset [rec] []).
Qed.

End TitleRecord.

(** X24 (line 39 with line 52): the record the header parser reads the
    title from is exactly the record the row transformer skips with
    [list(reader)[1:]], also when a quoted title spans several lines: the
    rows are built from the records read after it. *)
Theorem rows_after_title (content : string) (hdrs : list string)
    (t0 : datetime) (record : list string) (later : list string) :
  iternext (open_lines content) = Ok (record, later) ->
  create_writable_list content hdrs t0
  = records ← read_all later; transform_lines records hdrs t0.
Proof.
  intros H. unfold create_writable_list.
  rewrite (records_after _ _ _ H).
  destruct (read_all later) as [rs|]; reflexivity.
Qed.

Lemma rows_after_title_witness :
  create_writable_list two_line_title_file headers (mk_datetime 2024 1 15 9 0 0)
  = records ← read_all ["a:400,b:22.5,c:410,d:395" +:+ String LF EmptyString];
    transform_lines records headers (mk_datetime 2024 1 15 9 0 0).
Proof.
  apply (rows_after_title two_line_title_file headers
           (mk_datetime 2024 1 15 9 0 0)
           ["Device XYZ Export" +:+ String LF "2024.01.15 09:00:00 end"]
           ["a:400,b:22.5,c:410,d:395" +:+ String LF EmptyString]).
  vm_compute. reflexivity.
Defined.

(** ** Files the reader cannot reject *)

Section SmallFiles.

Lemma universal_newlines_bound (n : nat) :
  forall s, (String.length s <= n)%nat ->
  contains CR (universal_newlines s) = false
  /\ (String.length (universal_newlines s) <= String.length s)%nat.
Proof.
  induction n as [|n IH]; intros s Hn.
  - destruct s; [split; reflexivity|simpl in Hn; lia].
  - destruct s as [|c s]; [split; reflexivity|].
    simpl in Hn. cbn [universal_newlines].
    destruct (Ascii.eqb c CR) eqn:Ec.
    + destruct s as [|c' s']; [split; [reflexivity|simpl; lia]|].
      simpl in Hn. destruct (Ascii.eqb c' LF).
      * destruct (IH s' ltac:(lia)) as [H1 H2].
        split; [cbn [contains]; rewrite H1; reflexivity|simpl; lia].
      * destruct (IH (String c' s') ltac:(simpl; lia)) as [H1 H2].
        split; [cbn [contains]; rewrite H1; reflexivity|].
        simpl in H2 |- *. lia.
    + destruct (IH s ltac:(lia)) as [H1 H2].
      split; [cbn [contains]; rewrite Ec, H1; reflexivity|simpl; lia].
Qed.

Lemma text_line_cons (c : ascii) (l : string) :
  is_newline c = false -> text_line l -> text_line (String c l).
Proof.
  intros Hc (body & Hb & Hl). exists (String c body).
  split; [simpl; now rewrite Hc, Hb|].
  destruct Hl as [-> | ->]; [now left|right].
  now rewrite append_cons.
Qed.

Lemma readlines_text (s : string) :
  contains CR s = false ->
  Forall text_line (readlines s) /\ total_length (readlines s) = String.length s.
Proof.
  induction s as [|c s IH]; intros H; [split; [constructor|reflexivity]|].
  simpl in H. apply orb_false_iff in H as [Hc Hs].
  destruct (IH Hs) as [Hall Hlen]. cbn [readlines].
  destruct (Ascii.eqb c LF) eqn:El.
  - split; [|simpl; now rewrite Hlen].
    constructor; [|exact Hall]. exists EmptyString.
    split; [reflexivity|]. right. now rewrite append_nil.
  - assert (Hn : is_newline c = false) by (unfold is_newline; now rewrite El, Hc).
    destruct (readlines s) as [|l ls].
    + simpl in Hlen. split; [|simpl; lia].
      repeat constructor. exists (String c EmptyString).
      split; [simpl; now rewrite Hn|now left].
    + apply Forall_cons in Hall as [Hl Hls].
      split; [constructor; [now apply text_line_cons|exact Hls]|].
      simpl in Hlen |- *. lia.
Qed.

Lemma step_char (r : reader) (c : ascii) (n : nat) :
  is_newline c = false -> fits n r -> Z.of_nat n < field_limit ->
  exists r', parse_process_char r (Some c) = Ok r' /\ fits (S n) r'.
Proof.
  destruct r as [st fs f]. unfold fits. cbn [field state].
  intros Hc [Hf Hst] Hn.
  assert (Hlim : (field_limit <=? Z.of_nat (String.length f)) = false)
    by (apply Z.leb_gt; lia).
  unfold parse_process_char, parse_add_char. cbn [field state fields set_state].
  rewrite Hc, ?Hlim.
  destruct st; try congruence;
    destruct (Ascii.eqb c QUOTE), (Ascii.eqb c COMMA);
    cbn [field state fields set_state parse_save_field];
    rewrite ?Hlim; cbn;
    eexists; (split; [reflexivity|]);
    cbn [field state fields set_state parse_save_field];
    rewrite ?string_length_app; cbn [String.length];
    (split; [lia|discriminate]).
Qed.

Lemma step_newline (r : reader) (c : ascii) (n : nat) :
  is_newline c = true -> fits n r -> Z.of_nat n < field_limit ->
  exists r', parse_process_char r (Some c) = Ok r'
    /\ (String.length (field r') <= S n)%nat.
Proof.
  destruct r as [st fs f]. unfold fits. cbn [field state].
  intros Hc [Hf Hst] Hn.
  assert (Hlim : (field_limit <=? Z.of_nat (String.length f)) = false)
    by (apply Z.leb_gt; lia).
  unfold parse_process_char, parse_add_char. cbn [field state fields set_state].
  rewrite Hc, ?Hlim.
  destruct st; try congruence;
    destruct (Ascii.eqb c QUOTE), (Ascii.eqb c COMMA);
    cbn [field state fields set_state parse_save_field];
    rewrite ?Hlim; cbn;
    eexists; (split; [reflexivity|]);
    cbn [field state fields set_state parse_save_field];
    rewrite ?string_length_app; cbn [String.length]; lia.
Qed.

Lemma step_end_of_line (r : reader) (n : nat) :
  (String.length (field r) <= n)%nat ->
  exists r', parse_process_char r None = Ok r' /\ fits n r'.
Proof.
  destruct r as [st fs f]. unfold fits. cbn [field state]. intros Hf.
  destruct st; eexists; (split; [reflexivity|]);
    cbn [field state fields set_state parse_save_field String.length];
    (split; [lia|discriminate]).
Qed.

Lemma chars_fit (body : string) :
  forall r n, existsb is_newline body = false -> fits n r ->
  Z.of_nat (n + String.length body) <= field_limit ->
  exists r', process_chars r body = Ok r'
    /\ fits (n + String.length body) r'.
Proof.
  induction body as [|c body IH]; intros r n Hb Hr Hn.
  - exists r. split; [reflexivity|]. now rewrite Nat.add_0_r.
  - simpl in Hb. apply orb_false_iff in Hb as [Hc Hb]. simpl in Hn.
    destruct (step_char r c n Hc Hr ltac:(lia)) as (r1 & H1 & Hr1).
    destruct (IH r1 (S n) Hb Hr1 ltac:(lia)) as (r' & H' & Hr').
    exists r'. cbn [process_chars]. rewrite H1, bind_ok.
    split; [exact H'|].
    replace (n + String.length (String c body))%nat
      with (S n + String.length body)%nat by (simpl; lia).
    exact Hr'.
Qed.

Lemma line_fits (l : string) (r : reader) (n : nat) :
  text_line l -> fits n r ->
  Z.of_nat (n + String.length l) <= field_limit ->
  exists r', process_line r l = Ok r' /\ fits (n + String.length l) r'.
Proof.
  intros (body & Hb & Hl) Hr Hn. unfold process_line.
  destruct Hl as [-> | ->].
  - destruct (chars_fit body r n Hb Hr Hn) as (r1 & H1 & [Hf1 _]).
    rewrite H1, bind_ok. apply step_end_of_line. exact Hf1.
  - rewrite string_length_app in Hn |- *. simpl in Hn |- *.
    destruct (chars_fit body r n Hb Hr ltac:(lia)) as (r1 & H1 & Hr1).
    rewrite process_chars_app, H1, bind_ok. cbn [process_chars].
    destruct (step_newline r1 LF (n + String.length body) eq_refl Hr1
                ltac:(lia)) as (r2 & H2 & Hf2).
    rewrite H2, !bind_ok.
    apply step_end_of_line.
    replace (n + (String.length body + 1))%nat
      with (S (n + String.length body)) by lia.
    exact Hf2.
Qed.

Lemma fits_reset (n : nat) : fits n parse_reset.
Proof. split; [simpl; lia|discriminate]. Qed.

Lemma lines_read (lines : list string) :
  forall r n (acc : list (list string)),
  Forall text_line lines -> fits n r ->
  Z.of_nat (n + total_length lines) <= field_limit ->
  exists records,
    fold_from (fun acc rec => Ok (acc ++ [rec])) r lines acc = Ok records.
Proof.
  induction lines as [|l lines IH]; intros r n acc Hall Hr Hn;
    cbn [fold_from].
  - destruct (pending r); eauto.
  - apply Forall_cons in Hall as [Hl Hall]. simpl in Hn.
    destruct (line_fits l r n Hl Hr ltac:(lia)) as (r' & H' & Hr').
    rewrite H', bind_ok.
    destruct (state_eqb (state r') START_RECORD).
    + rewrite bind_ok.
      apply (IH parse_reset (n + String.length l)%nat); [exact Hall| |lia].
      apply fits_reset.
    + apply (IH r' (n + String.length l)%nat); [exact Hall|exact Hr'|lia].
Qed.

Lemma small_file_records (content : string) :
  Z.of_nat (String.length content) <= field_limit ->
  exists records, read_all (open_lines content) = Ok records.
Proof.
  intros Hn. unfold read_all, fold_records, open_lines.
  destruct (universal_newlines_bound _ content (Nat.le_refl _)) as [Hcr Hlen].
  destruct (readlines_text _ Hcr) as [Hall Htot].
  apply (lines_read _ parse_reset 0%nat []); [exact Hall|apply fits_reset|].
  rewrite Htot. simpl. lia.
Qed.

Lemma iternext_csv_error (lines : list string) :
  forall r acc, iternext_from r lines = Raise CsvError ->
  fold_from (fun acc rec => Ok (acc ++ [rec])) r lines acc = Raise CsvError.
Proof.
  induction lines as [|l lines IH]; intros r acc H;
    cbn [iternext_from] in H; cbn [fold_from].
  - destruct (pending r); discriminate.
  - destruct (process_line r l) as [r'|e]; [|injection H as ->; reflexivity].
    rewrite bind_ok in H. rewrite bind_ok.
    destruct (state_eqb (state r') START_RECORD); [discriminate|].
    apply IH. exact H.
Qed.

Lemma transform_raises (lines : list (list string)) (hdrs : list string)
    (t0 : datetime) (e : exn) :
  transform_lines lines hdrs t0 = Raise e ->
  e = IndexError \/ e = OverflowError.
Proof.
  unfold transform_lines.
  apply (for_enumerate_raises (store_line hdrs t0)
           (fun e => e = IndexError \/ e = OverflowError)).
  intros acc i x e0. unfold store_line.
  destruct (row_data t0 i x) as [data|e'] eqn:E.
  - rewrite bind_ok. intros H. left.
    apply (for_enumerate_raises (store_header i data)
             (fun e => e = IndexError)) in H; [exact H|].
    intros ? ? ? ?. apply store_header_raises.
  - intros [= <-]. right. eapply row_data_raises, E.
Qed.

End SmallFiles.

(** X25 (lines 38-39 and 51-52): a raw file of at most 131072 characters,
    the field size limit of the csv reader, and without a NUL character
    (which older readers reject) is never rejected by the reader: reading
    all its records returns, reading its first record does not raise
    [csv.Error], and its conversion never ends with [csv.Error]. *)
Theorem small_file_reads (content : string) :
  Z.of_nat (String.length content) <= field_limit ->
  contains (chr 0) content = false ->
  (exists records, read_all (open_lines content) = Ok records)
  /\ iternext (open_lines content) <> Raise CsvError
  /\ convert content <> Raise CsvError.
Proof.
  intros Hn _. destruct (small_file_records content Hn) as [records Hr].
  assert (Hi : iternext (open_lines content) <> Raise CsvError).
  { intros H. apply (iternext_csv_error _ parse_reset []) in H.
    unfold read_all, fold_records in Hr. congruence. }
  split; [eauto|]. split; [exact Hi|].
  unfold convert, get_first_line_info, create_writable_list. rewrite Hr.
  destruct (iternext (open_lines content)) as [[record later]|e] eqn:E.
  - rewrite bind_ok.
    destruct (getitem record 0) as [title|e] eqn:Eg;
      [|rewrite (getitem_raises _ _ _ Eg); discriminate].
    rewrite bind_ok.
    destruct (title_date_time title) as [[date time]|e] eqn:Et;
      [|destruct (title_raises _ _ Et) as [-> | ->]; discriminate].
    rewrite !bind_ok.
    destruct (strptime _) as [t0|e] eqn:Es;
      [|rewrite (strptime_raises _ _ Es); discriminate].
    rewrite !bind_ok.
    destruct (transform_lines (drop 1 records) headers t0) as [rows|e] eqn:Er.
    + rewrite bind_ok, (written_rows _ _ _ Er). discriminate.
    + destruct (transform_raises _ _ _ _ Er) as [-> | ->]; discriminate.
  - intros H. apply Hi. injection H as ->. reflexivity.
Qed.

Lemma small_file_reads_witness :
  (exists records, read_all (open_lines sample_file) = Ok records)
  /\ iternext (open_lines sample_file) <> Raise CsvError
  /\ convert sample_file <> Raise CsvError.
Proof.
  apply (small_file_reads sample_file).
  - vm_compute. discriminate.
  - vm_compute. reflexivity.
Defined.

(** ** What the plotting phase leaves unchanged *)

Section Plotting.

Variable json_loads : string -> result json.
Variable read_frame : string -> result (list sample).
Variable render : json -> json -> json -> list sample -> result unit.
Variable repr : json -> string.

Lemma print_prints (ev : event) (w : world) : print ev w = prints [ev] w.
Proof. reflexivity. Qed.

Lemma load_config_outcome (w w' : world) (config_path : string)
    (config : json) :
  load_config json_loads w config_path = Ok (config, w') ->
  exists evs, w' = prints evs w.
Proof.
  unfold load_config, try_except.
  destruct (open_read w config_path) as [text|e].
  - rewrite bind_ok. destruct (json_loads text) as [v|e].
    + rewrite bind_ok. intros [= _ <-]. exists []. now rewrite prints_nil.
    + cbn [mbind result_bind]. destruct (caught_by _ e); [|discriminate].
      intros [= _ <-]. exists [ConfigWarning]. reflexivity.
  - cbn [mbind result_bind]. destruct (caught_by _ e); [|discriminate].
    intros [= _ <-]. exists [ConfigWarning]. reflexivity.
Qed.

Lemma load_config_csv_outcome (w w' : world) (config_path : string)
    (config : json) :
  load_config_csv w config_path = Ok (config, w') ->
  exists evs, w' = prints evs w.
Proof.
  unfold load_config_csv, try_except.
  destruct (open_read w config_path) as [text|e].
  - rewrite bind_ok.
    destruct (fold_records add_plot_config (open_lines text) (None, []))
      as [[fieldnames plots]|e].
    + rewrite bind_ok. intros [= _ <-]. exists []. now rewrite prints_nil.
    + cbn [mbind result_bind]. destruct (caught_by _ e); [|discriminate].
      intros [= _ <-]. exists [CsvConfigWarning e]. reflexivity.
  - cbn [mbind result_bind]. destruct (caught_by _ e); [|discriminate].
    intros [= _ <-]. exists [CsvConfigWarning e]. reflexivity.
Qed.

Lemma detailed_config_outcome (w w' : world)
    (config_path csv_config_path : string) (detailed : option json) :
  detailed_config json_loads w config_path csv_config_path
  = Ok (detailed, w') ->
  exists evs, w' = prints evs w.
Proof.
  unfold detailed_config.
  destruct (load_config json_loads w config_path) as [[config w1]|e] eqn:E1;
    [|discriminate].
  destruct (load_config_outcome _ _ _ _ E1) as [evs1 ->]. rewrite bind_ok.
  destruct (dict_get config "detailed_plots" JNull) as [first|e];
    [|discriminate].
  rewrite bind_ok.
  assert (Hlast : forall evs config2,
    (detailed ← dict_get config2 "detailed_plots" (JList []);
     if negb (truthy detailed)
     then Ok (None, print NoConfiguration (prints evs w))
     else Ok (Some detailed, prints evs w)) = Ok (detailed, w') ->
    exists evs', w' = prints evs' w).
  { intros evs config2.
    destruct (dict_get config2 "detailed_plots" (JList [])) as [d|e];
      [|discriminate].
    rewrite bind_ok. destruct (negb (truthy d)); intros [= _ <-].
    - exists (evs ++ [NoConfiguration]).
      now rewrite print_prints, <- prints_app.
    - eauto. }
  destruct (negb (truthy first)).
  - destruct (load_config_csv (prints evs1 w) csv_config_path)
      as [[config2 w2]|e] eqn:E2; [|discriminate].
    destruct (load_config_csv_outcome _ _ _ _ E2) as [evs2 ->].
    rewrite bind_ok, <- prints_app. apply Hlast.
  - rewrite bind_ok. apply Hlast.
Qed.

Lemma plot_one_outcome (w w' : world) (plot_config : json) :
  plot_one read_frame render repr w plot_config = Ok w' ->
  exists ev, w' = print ev w.
Proof.
  intros H. destruct (subscript plot_config "file") as [name|e] eqn:E.
  - destruct (plot_one_prints read_frame render repr w plot_config)
      as (ev & Hev & _); [unfold names_file; now rewrite E|].
    rewrite Hev in H. injection H as <-. eauto.
  - unfold plot_one in H. rewrite E in H. discriminate.
Qed.

Lemma plot_loop_outcome (requests : list json) :
  forall w w',
  for_each (plot_one read_frame render repr) requests w = Ok w' ->
  exists evs, w' = prints evs w.
Proof.
  induction requests as [|c requests IH]; intros w w'.
  - intros [= <-]. exists []. now rewrite prints_nil.
  - rewrite for_each_cons.
    destruct (plot_one read_frame render repr w c) as [w1|e] eqn:E1;
      [|discriminate].
    destruct (plot_one_outcome _ _ _ E1) as [ev ->]. rewrite bind_ok.
    intros H. destruct (IH _ _ H) as [evs ->].
    exists (ev :: evs). now rewrite prints_cons.
Qed.

Lemma plotting_outcome (w : world) (config_path csv_config_path : string)
    (w' : world) :
  plot_detailed_co2_data json_loads read_frame render repr w
    config_path csv_config_path = Ok w' ->
  exists evs, w' = prints evs w.
Proof.
  unfold plot_detailed_co2_data.
  destruct (detailed_config json_loads w config_path csv_config_path)
    as [[detailed w1]|e] eqn:E1; [|discriminate].
  destruct (detailed_config_outcome _ _ _ _ _ E1) as [evs1 ->].
  rewrite bind_ok.
  destruct detailed as [requests|]; [|intros [= <-]; eauto].
  destruct (iterate requests) as [plot_configs|e]; [|discriminate].
  rewrite bind_ok. intros H.
  destruct (plot_loop_outcome _ _ _ H) as [evs2 ->].
  rewrite <- prints_app. eauto.
Qed.

End Plotting.

(** X27 (lines 338-386): when the whole script returns, the main loop
    returned first, and what follows only prints: the converted files are
    the ones the main loop left, the raw files and the configuration files
    are as at the start, and the messages of the main loop are followed by
    the announcement of the plotting phase and then its messages. *)
Theorem script_outcome
    (json_loads : string -> result json)
    (read_frame : string -> result (list sample))
    (render : json -> json -> json -> list sample -> result unit)
    (repr : json -> string) (w w2 : world) :
  script json_loads read_frame render repr w = Ok w2 ->
  exists w1 evs,
    convert_all w = Ok w1
    /\ converted w2 = converted w1
    /\ measurements w2 = measurements w
    /\ configs w2 = configs w
    /\ stdout w2 = stdout w1 ++ CreatingDetailedPlots :: evs.
Proof.
  unfold script. intros H.
  destruct (convert_all w) as [w1|e] eqn:Ec; [|discriminate].
  rewrite bind_ok in H.
  destruct (plotting_outcome json_loads read_frame render repr
              (print CreatingDetailedPlots w1) "cfg.json" "cfg.csv" w2 H)
    as [evs ->].
  exists w1, evs. split; [reflexivity|].
  unfold convert_all in Ec.
  pose proof (for_each_convert (get_csv_files w) w) as Hloop.
  destruct (outputs (write_errors w) (get_csv_files w)) as [outs|e];
    [|rewrite Ec in Hloop; discriminate].
  destruct Hloop as (w' & Hw' & _ & Hm & Hc & _).
  rewrite Ec in Hw'. injection Hw' as <-.
  split; [reflexivity|]. split; [exact Hm|]. split; [exact Hc|].
  unfold prints, print. simpl. now rewrite <- app_assoc.
Qed.

Lemma script_outcome_witness :
  exists w2 w1 evs,
    script no_json failing_frame blank_render no_repr sample_world = Ok w2
    /\ convert_all sample_world = Ok w1
    /\ converted w2 = converted w1
    /\ measurements w2 = measurements sample_world
    /\ configs w2 = configs sample_world
    /\ stdout w2 = stdout w1 ++ CreatingDetailedPlots :: evs.
Proof.
  destruct (script no_json failing_frame blank_render no_repr sample_world)
    as [w2|e] eqn:E; [|vm_compute in E; discriminate].
  destruct (script_outcome no_json failing_frame blank_render no_repr
              sample_world w2 E) as (w1 & evs & H).
  exists w2, w1, evs. split; [reflexivity|exact H].
Defined.
